(** * task_tracker: a shallow embedding of [task_tracker.py]

    The program keeps a list of tasks in the file [tasks.json].  Every
    command loads the list, changes it and stores it again.  The embedding
    follows the source function by function: [load_tasks], [save_tasks],
    [show_help], [add_task], [list_tasks], [_update_task], [complete_task],
    [remove_task] and [main] are state-passing programs over a [world] that
    holds the file, the lines printed so far and a log of the file
    operations.

    Conventions of the model.
    - A Python [str] is a Rocq [string]; each character is a code point
      below 256.  This holds for the command line and for the file.
    - The text of [tasks.json] is the [str] that a text-mode read yields;
      the read itself does not fail.
    - The [json] module is modelled by [json_dumps] (the encoder called with
      [indent=4]) and [json_loads] (the decoder).  A float and a character
      above U+00FF have no counterpart in [json]: [json_loads] reads a
      document that has one as Python does and answers [NotModelled],
      keeping only whether the document is a list; a run that needs such a
      list ends [OutOfModel].
    - Python integers are [Z].  A conversion from text to an integer, in
      [int] and in the decoder, raises [ValueError] for more than 4300
      digits, the limit that the interpreter sets unless it is told
      otherwise.  The program prints and stores only integers that it has
      read, or the length of the list, so the same limit on the way back,
      from an integer to text, is not modelled.
    - The decoder raises [RecursionError] on lists and dictionaries that
      are nested too deep; where that is depends on the state of the
      interpreter.  The model follows the decoder to the depth
      [nesting_limit], far below it, and answers [TooDeep] beyond: a run
      that loads such a file ends [OutOfModel].
    - Opening the file for writing succeeds, or it raises the [IOError]
      that [write_error] holds and the file stays as it was. *)

From Stdlib Require Import String Ascii ZArith List Lia Bool.
From Stdlib Require Import Decimal DecimalFacts DecimalString DecimalZ.
From stdpp Require Import base list.
Import ListNotations.

Local Open Scope string_scope.

(** ** Python strings *)

Module PyStr.

(** The double quote, as a character and as a one-character string. *)
Definition dquote : ascii := "034"%char.
Definition dq : string := String dquote "".
Definition backslash : ascii := "092"%char.

Definition code (c : ascii) : N := N_of_ascii c.

(** [str(n)] and [repr(n)] of an integer. *)
Definition int_repr (z : Z) : string := NilZero.string_of_int (Z.to_int z).

(** [sep.join(l)] *)
Definition join (sep : string) (l : list string) : string := String.concat sep l.

(** [str.lower] on the code points below 256: the ASCII capitals and
    the capitals of the Latin-1 block (all of U+00C0..U+00DE except the
    multiplication sign U+00D7). *)
Definition lower_char (c : ascii) : ascii :=
  let n := code c in
  if ((65 <=? n) && (n <=? 90) || (192 <=? n) && (n <=? 222) && negb (n =? 215))%N
  then ascii_of_N (n + 32) else c.

Fixpoint lower (s : string) : string :=
  match s with
  | "" => ""
  | String c r => String (lower_char c) (lower r)
  end.

(** [str.isspace] of one character: what [str.strip] removes. *)
Definition isspace (c : ascii) : bool :=
  let n := code c in
  ((9 <=? n) && (n <=? 13) || (28 <=? n) && (n <=? 32) || (n =? 133) || (n =? 160))%N.

(** What [int] accepts around the digits: the white space of ASCII, and
    U+0085 and U+00A0; the separators U+001C..U+001F are not among it. *)
Definition int_space (c : ascii) : bool :=
  let n := code c in
  ((9 <=? n) && (n <=? 13) || (n =? 32) || (n =? 133) || (n =? 160))%N.

Definition digit_val (c : ascii) : option Z :=
  let n := code c in
  if ((48 <=? n) && (n <=? 57))%N then Some (Z.of_N n - 48)%Z else None.

Fixpoint skip_space (s : string) : string :=
  match s with
  | String c r => if int_space c then skip_space r else s
  | "" => ""
  end.

(** The digits of an integer literal, after the first one: single
    underscores may separate digits.  [acc] is the value read so far;
    trailing white space ends the literal. *)
Fixpoint int_digits (acc : Z) (s : string) : option Z :=
  match s with
  | "" => Some acc
  | String c r =>
      match digit_val c with
      | Some d => int_digits (10 * acc + d)%Z r
      | None =>
          if (c =? "_")%char then
            match r with
            | String c' r' =>
                match digit_val c' with
                | Some d => int_digits (10 * acc + d)%Z r'
                | None => None
                end
            | "" => None
            end
          else if int_space c then
            match skip_space r with "" => Some acc | _ => None end
          else None
      end
  end.

Definition int_unsigned (s : string) : option Z :=
  match s with
  | String c r =>
      match digit_val c with
      | Some d => int_digits d r
      | None => None
      end
  | "" => None
  end.

(** The integer that the literal [s] denotes, whatever its length. *)
Definition int_literal (s : string) : option Z :=
  match skip_space s with
  | String "-" r => option_map Z.opp (int_unsigned r)
  | String "+" r => int_unsigned r
  | r => int_unsigned r
  end.

(** [sys.get_int_max_str_digits()], as the interpreter sets it: a
    conversion between [str] and [int] of more digits raises [ValueError]. *)
Definition max_str_digits : N := 4300.

Fixpoint count_digits (s : string) : N :=
  match s with
  | "" => 0
  | String c r =>
      match digit_val c with
      | Some _ => N.succ (count_digits r)
      | None => count_digits r
      end
  end.

(** The number of digits of the decimal numeral of [z]. *)
Definition decimal_digits (z : Z) : N :=
  N.of_nat (nb_digits (match Z.to_int z with Pos u => u | Neg u => u end)).

(** [int(s)]: [None] stands for [ValueError], which is raised for text
    that is no integer literal and for a literal of more than
    [max_str_digits] digits, leading zeros counted. *)
Definition int (s : string) : option Z :=
  if (max_str_digits <? count_digits s)%N then None else int_literal s.

End PyStr.

(** ** JSON values and Python dictionaries *)

(** What [json.load] can return: [None], a [bool], an [int], a [str], a
    [list] or a [dict] with [str] keys.  A [dict] keeps its keys in
    insertion order, and the encoder writes them in that order, so it is an
    association list. *)
#[warnings="-register-all"]
Inductive json : Type :=
| JNull
| JBool (b : bool)
| JInt (z : Z)
| JStr (s : string)
| JArr (items : list json)
| JObj (fields : list (string * json)).

Section JsonInduction.
Variable P : json -> Prop.
Hypothesis HNull : P JNull.
Hypothesis HBool : forall b, P (JBool b).
Hypothesis HInt : forall z, P (JInt z).
Hypothesis HStr : forall s, P (JStr s).
Hypothesis HArr : forall items, Forall P items -> P (JArr items).
Hypothesis HObj : forall fields, Forall (fun kv => P (snd kv)) fields -> P (JObj fields).

Fixpoint json_nested_ind (v : json) : P v :=
  match v with
  | JNull => HNull
  | JBool b => HBool b
  | JInt z => HInt z
  | JStr s => HStr s
  | JArr items =>
      HArr items
        ((fix go (l : list json) : Forall P l :=
            match l with
            | [] => List.Forall_nil P
            | x :: xs => List.Forall_cons _ x _ (json_nested_ind x) (go xs)
            end) items)
  | JObj fields =>
      HObj fields
        ((fix go (l : list (string * json)) : Forall (fun kv => P (snd kv)) l :=
            match l with
            | [] => List.Forall_nil _
            | kv :: xs => List.Forall_cons _ kv _ (json_nested_ind (snd kv)) (go xs)
            end) fields)
  end.
End JsonInduction.

Module Dict.

Definition t : Type := list (string * json).

(** [d.get(k)] *)
Fixpoint get (k : string) (d : t) : option json :=
  match d with
  | [] => None
  | (k', v) :: d' => if String.eqb k k' then Some v else get k d'
  end.

(** [d[k] = v]: an existing key keeps its place, a new one goes last. *)
Fixpoint set (k : string) (v : json) (d : t) : t :=
  match d with
  | [] => [(k, v)]
  | (k', v') :: d' =>
      if String.eqb k k' then (k, v) :: d' else (k', v') :: set k v d'
  end.

(** [dict(pairs)] *)
Definition of_pairs (pairs : list (string * json)) : t :=
  fold_left (fun d kv => set (fst kv) (snd kv) d) pairs [].

Definition keys (d : t) : list string := map fst d.

End Dict.

(** A value that Python can hold: the keys of every dictionary are
    pairwise distinct. *)
Fixpoint py_value (v : json) : Prop :=
  match v with
  | JArr items =>
      (fix all (l : list json) : Prop :=
         match l with [] => True | x :: xs => py_value x /\ all xs end) items
  | JObj fields =>
      NoDup (map fst fields) /\
      (fix all (l : list (string * json)) : Prop :=
         match l with [] => True | kv :: xs => py_value (snd kv) /\ all xs end) fields
  | _ => True
  end.

(** A value within the limits of the decoder: lists and dictionaries
    nest at most [depth] deep, and no integer has more than
    [max_str_digits] digits. *)
Fixpoint within (depth : nat) (v : json) {struct v} : Prop :=
  match v with
  | JInt z => (PyStr.decimal_digits z <= PyStr.max_str_digits)%N
  | JArr items =>
      match depth with
      | O => False
      | S depth' =>
          (fix all (l : list json) : Prop :=
             match l with [] => True | x :: xs => within depth' x /\ all xs end) items
      end
  | JObj fields =>
      match depth with
      | O => False
      | S depth' =>
          (fix all (l : list (string * json)) : Prop :=
             match l with [] => True | kv :: xs => within depth' (snd kv) /\ all xs end)
            fields
      end
  | _ => True
  end.

(** ** The encoder: [json.dump(tasks, f, indent=4)] *)

Module Encoder.
Import PyStr.

Definition hex_digit (n : N) : ascii :=
  if (n <? 10)%N then ascii_of_N (48 + n) else ascii_of_N (87 + n).

(** One character of [py_encode_basestring_ascii]: the backslash and
    the double quote get a backslash, the five short escapes are used,
    and everything else outside [' '..'~'] is written [\u00xx]. *)
Definition escape_char (c : ascii) : string :=
  let n := code c in
  if (n =? 34)%N then String backslash dq
  else if (n =? 92)%N then String backslash (String backslash "")
  else if (n =? 10)%N then String backslash "n"
  else if (n =? 13)%N then String backslash "r"
  else if (n =? 9)%N then String backslash "t"
  else if (n =? 12)%N then String backslash "f"
  else if (n =? 8)%N then String backslash "b"
  else if ((32 <=? n) && (n <=? 126))%N then String c ""
  else String backslash
         (String "u" (String "0" (String "0"
            (String (hex_digit (n / 16)) (String (hex_digit (n mod 16)) ""))))).

Fixpoint escape (s : string) : string :=
  match s with
  | "" => ""
  | String c r => escape_char c ++ escape r
  end.

Definition encode_basestring_ascii (s : string) : string :=
  dq ++ escape s ++ dq.

Fixpoint spaces (n : nat) : string :=
  match n with
  | O => ""
  | S k => String " " (spaces k)
  end.

Definition newline : string := String "010"%char "".

(** ['\n' + _indent * _current_indent_level] with [_indent] four spaces *)
Definition newline_indent (level : nat) : string :=
  newline ++ spaces (4 * level).

(** [_iterencode], the chunks joined.  The item separator is [","]
    followed by the newline and indentation, the key separator [": "]. *)
Fixpoint iterencode (level : nat) (v : json) {struct v} : string :=
  match v with
  | JNull => "null"
  | JBool true => "true"
  | JBool false => "false"
  | JInt z => int_repr z
  | JStr s => encode_basestring_ascii s
  | JArr [] => "[]"
  | JArr (x :: xs) =>
      "[" ++ newline_indent (S level) ++ iterencode (S level) x ++
      (fix rest (l : list json) : string :=
         match l with
         | [] => newline_indent level ++ "]"
         | y :: ys =>
             "," ++ newline_indent (S level) ++ iterencode (S level) y ++ rest ys
         end) xs
  | JObj [] => "{}"
  | JObj ((k, x) :: kvs) =>
      "{" ++ newline_indent (S level) ++
      encode_basestring_ascii k ++ ": " ++ iterencode (S level) x ++
      (fix rest (l : list (string * json)) : string :=
         match l with
         | [] => newline_indent level ++ "}"
         | (k', y) :: ys =>
             "," ++ newline_indent (S level) ++
             encode_basestring_ascii k' ++ ": " ++ iterencode (S level) y ++ rest ys
         end) kvs
  end.

End Encoder.

Definition json_dumps (v : json) : string := Encoder.iterencode 0 v.

Definition nl : string := Encoder.newline.

(** ** The decoder: [json.load(f)] *)

Module Decoder.
Import PyStr.

(** Why the decoder stops before the end of a value.  The scanners read
    the text from left to right, as the decoder does, so the first of
    these that the text runs into is the one that the caller sees. *)
Inductive failure : Type :=
| Syntax     (* json.JSONDecodeError *)
| Digits     (* ValueError: an integer of more than max_str_digits digits *)
| Depth.     (* lists and dictionaries nested deeper than the model follows *)

(** The result of scanning a prefix of the text.  [exact] is false when
    the value read holds a float or a character above U+00FF: the text
    is read on as Python reads it, with [JNull] in the place of the float
    and [?] in the place of the character. *)
Inductive scan (A : Type) : Type :=
| Scanned (a : A) (rest : string) (exact : bool)
| Failed (why : failure)   (* the decoder stops at this point of the text *)
| Exhausted.               (* the recursion budget of the model ran out *)
Arguments Scanned {A} a rest exact.
Arguments Failed {A} why.
Arguments Exhausted {A}.

Abbreviation Malformed := (Failed Syntax).

Definition scan_bind {A B} (r : scan A) (k : A -> string -> scan B) : scan B :=
  match r with
  | Scanned a rest exact =>
      match k a rest with
      | Scanned b rest' exact' => Scanned b rest' (exact && exact')
      | Failed why => Failed why
      | Exhausted => Exhausted
      end
  | Failed why => Failed why
  | Exhausted => Exhausted
  end.

Definition scan_map {A B} (f : A -> B) (r : scan A) : scan B :=
  match r with
  | Scanned a rest exact => Scanned (f a) rest exact
  | Failed why => Failed why
  | Exhausted => Exhausted
  end.

(** JSON white space: space, tab, line feed, carriage return. *)
Definition is_ws (c : ascii) : bool :=
  let n := code c in ((n =? 32) || (n =? 9) || (n =? 10) || (n =? 13))%N.

Fixpoint skip_ws (s : string) : string :=
  match s with
  | String c r => if is_ws c then skip_ws r else s
  | "" => ""
  end.

Fixpoint strip_prefix (p s : string) : option string :=
  match p, s with
  | "", _ => Some s
  | String a p', String b s' => if (a =? b)%char then strip_prefix p' s' else None
  | String _ _, "" => None
  end.

Definition hex_val (c : ascii) : option N :=
  let n := code c in
  if ((48 <=? n) && (n <=? 57))%N then Some (n - 48)%N
  else if ((97 <=? n) && (n <=? 102))%N then Some (n - 87)%N
  else if ((65 <=? n) && (n <=? 70))%N then Some (n - 55)%N
  else None.

Definition hex4 (a b c d : ascii) : option N :=
  match hex_val a, hex_val b, hex_val c, hex_val d with
  | Some x, Some y, Some z, Some w => Some (((x * 16 + y) * 16 + z) * 16 + w)%N
  | _, _, _, _ => None
  end.

(** The character after a backslash, [\u] apart. *)
Definition short_escape (c : ascii) : option ascii :=
  let n := code c in
  if (n =? 34)%N then Some dquote
  else if (n =? 92)%N then Some backslash
  else if (n =? 47)%N then Some "/"%char
  else if (n =? 98)%N then Some "008"%char
  else if (n =? 102)%N then Some "012"%char
  else if (n =? 110)%N then Some "010"%char
  else if (n =? 114)%N then Some "013"%char
  else if (n =? 116)%N then Some "009"%char
  else None.

(** The character that [\uXXXX] denotes, and whether the model has it. *)
Definition unicode_escape (n : N) : ascii * bool :=
  if (n <? 256)%N then (ascii_of_N n, true) else ("?"%char, false).

Definition scan_cons (c : ascii) (exact : bool) (r : scan string) : scan string :=
  match r with
  | Scanned s rest exact' => Scanned (String c s) rest (exact && exact')
  | Failed why => Failed why
  | Exhausted => Exhausted
  end.

(** [scanstring] in strict mode, from the character after the opening
    quote: a raw control character is an error. *)
Fixpoint scanstring (s : string) : scan string :=
  match s with
  | "" => Malformed
  | String c r =>
      if (c =? dquote)%char then Scanned "" r true
      else if (c =? backslash)%char then
        match r with
        | "" => Malformed
        | String e r' =>
            match short_escape e with
            | Some ch => scan_cons ch true (scanstring r')
            | None =>
                if (e =? "u")%char then
                  match r' with
                  | String h1 (String h2 (String h3 (String h4 r''))) =>
                      match hex4 h1 h2 h3 h4 with
                      | Some n =>
                          let (ch, exact) := unicode_escape n in
                          scan_cons ch exact (scanstring r'')
                      | None => Malformed
                      end
                  | _ => Malformed
                  end
                else Malformed
            end
        end
      else if (code c <? 32)%N then Malformed
      else scan_cons c true (scanstring r)
  end.

Definition digit_ctor (c : ascii) : option (uint -> uint) :=
  let n := code c in
  if (n =? 48)%N then Some D0 else if (n =? 49)%N then Some D1
  else if (n =? 50)%N then Some D2 else if (n =? 51)%N then Some D3
  else if (n =? 52)%N then Some D4 else if (n =? 53)%N then Some D5
  else if (n =? 54)%N then Some D6 else if (n =? 55)%N then Some D7
  else if (n =? 56)%N then Some D8 else if (n =? 57)%N then Some D9
  else None.

Definition is_digit (c : ascii) : bool :=
  match digit_ctor c with Some _ => true | None => false end.

Fixpoint scan_digits (s : string) : uint * string :=
  match s with
  | "" => (Nil, "")
  | String c r =>
      match digit_ctor c with
      | Some d => let (u, r') := scan_digits r in (d u, r')
      | None => (Nil, s)
      end
  end.

(** The integer part of [NUMBER_RE]: [0] alone or a digit string that
    does not start with [0]. *)
Definition scan_int_part (s : string) : option (uint * string) :=
  match s with
  | "" => None
  | String c r =>
      if (c =? "0")%char then Some (D0 Nil, r)
      else if is_digit c then Some (scan_digits s)
      else None
  end.

(** One digit at least, and the text after the digits. *)
Definition scan_digits1 (s : string) : option string :=
  match s with
  | String d _ => if is_digit d then Some (snd (scan_digits s)) else None
  | "" => None
  end.

(** The fraction of [NUMBER_RE]: a point and digits. *)
Definition scan_fraction (s : string) : option string :=
  match s with
  | String c r => if (c =? ".")%char then scan_digits1 r else None
  | "" => None
  end.

(** The exponent of [NUMBER_RE]: [e] or [E], a sign or none, digits. *)
Definition scan_exponent (s : string) : option string :=
  match s with
  | String c r =>
      if ((c =? "e") || (c =? "E"))%char then
        match r with
        | String sign r' =>
            if ((sign =? "+") || (sign =? "-"))%char then scan_digits1 r'
            else scan_digits1 r
        | "" => None
        end
      else None
  | "" => None
  end.

(** A number, or one of the constants [NaN], [Infinity], [-Infinity]
    that the decoder accepts as floats.  A number with a fraction or an
    exponent is a float.  An integer is converted as [int] converts it:
    more than [max_str_digits] digits raise [ValueError]. *)
Definition scan_number (s : string) : scan json :=
  let '(neg, digits) :=
    match s with
    | String c r => if (c =? "-")%char then (true, r) else (false, s)
    | "" => (false, s)
    end in
  match scan_int_part digits with
  | Some (u, r) =>
      match scan_fraction r with
      | Some r1 =>
          match scan_exponent r1 with
          | Some r2 => Scanned JNull r2 false
          | None => Scanned JNull r1 false
          end
      | None =>
          match scan_exponent r with
          | Some r2 => Scanned JNull r2 false
          | None =>
              if (max_str_digits <? N.of_nat (nb_digits u))%N then Failed Digits
              else Scanned (JInt (Z.of_int (if neg then Neg u else Pos u))) r true
          end
      end
  | None =>
      match strip_prefix "NaN" s, strip_prefix "Infinity" s, strip_prefix "-Infinity" s with
      | Some r, _, _ => Scanned JNull r false
      | _, Some r, _ => Scanned JNull r false
      | _, _, Some r => Scanned JNull r false
      | None, None, None => Malformed
      end
  end.

(** [scan_once], [JSONArray] after the first item is known to exist,
    [JSONObject] after the opening quote of a key.  The decoder enters a
    recursive call for every list and every dictionary; [depth] is the
    number of such calls that may still be entered. *)
Fixpoint scan_once (fuel depth : nat) (s : string) {struct fuel} : scan json :=
  match fuel with
  | O => Exhausted
  | S fuel' =>
      match s with
      | "" => Malformed
      | String c r =>
          if (c =? dquote)%char then scan_map JStr (scanstring r)
          else if (c =? "{")%char then
            match depth with
            | O => Failed Depth
            | S depth' =>
                match skip_ws r with
                | "" => Malformed
                | String c' r' =>
                    if (c' =? "}")%char then Scanned (JObj []) r' true
                    else if (c' =? dquote)%char then
                      scan_map (fun ps => JObj (Dict.of_pairs ps))
                               (object_pairs fuel' depth' r')
                    else Malformed
                end
            end
          else if (c =? "[")%char then
            match depth with
            | O => Failed Depth
            | S depth' =>
                match skip_ws r with
                | "" => Malformed
                | String c' r' =>
                    if (c' =? "]")%char then Scanned (JArr []) r' true
                    else scan_map JArr (array_items fuel' depth' (String c' r'))
                end
            end
          else
            match strip_prefix "null" s, strip_prefix "true" s, strip_prefix "false" s with
            | Some r', _, _ => Scanned JNull r' true
            | _, Some r', _ => Scanned (JBool true) r' true
            | _, _, Some r' => Scanned (JBool false) r' true
            | None, None, None => scan_number s
            end
      end
  end
with array_items (fuel depth : nat) (s : string) {struct fuel} : scan (list json) :=
  match fuel with
  | O => Exhausted
  | S fuel' =>
      scan_bind (scan_once fuel' depth s) (fun v r =>
        match skip_ws r with
        | "" => Malformed
        | String c r' =>
            if (c =? "]")%char then Scanned [v] r' true
            else if (c =? ",")%char then
              scan_map (cons v) (array_items fuel' depth (skip_ws r'))
            else Malformed
        end)
  end
with object_pairs (fuel depth : nat) (s : string) {struct fuel}
  : scan (list (string * json)) :=
  match fuel with
  | O => Exhausted
  | S fuel' =>
      scan_bind (scanstring s) (fun k r =>
        match skip_ws r with
        | "" => Malformed
        | String c r1 =>
            if (c =? ":")%char then
              scan_bind (scan_once fuel' depth (skip_ws r1)) (fun v r2 =>
                match skip_ws r2 with
                | "" => Malformed
                | String c' r3 =>
                    if (c' =? "}")%char then Scanned [(k, v)] r3 true
                    else if (c' =? ",")%char then
                      match skip_ws r3 with
                      | "" => Malformed
                      | String q r4 =>
                          if (q =? dquote)%char
                          then scan_map (cons (k, v)) (object_pairs fuel' depth r4)
                          else Malformed
                      end
                    else Malformed
                end)
            else Malformed
        end)
  end.

(** How deep the model follows the decoder into nested lists and
    dictionaries.  The interpreter raises [RecursionError] at a depth that
    depends on its recursion limit (1000 unless it is changed) and on the
    frames in use; this depth is well below it. *)
Definition nesting_limit : nat := 100.

End Decoder.

Definition is_array (v : json) : bool :=
  match v with JArr _ => true | _ => false end.

(** What [json.load] does with the text of the file: it returns a value,
    or raises [JSONDecodeError], or raises the [ValueError] of an integer
    with too many digits, or returns a value that [json] cannot hold (a
    float or a character above U+00FF is in it); of such a value the model
    keeps only whether it is a list.  [TooDeep] is the answer for a text
    that nests deeper than [nesting_limit] before anything else stops the
    decoder: what the interpreter does with it is not modelled. *)
Inductive decoded : Type :=
| Value (v : json)
| JSONDecodeError
| DigitLimit
| TooDeep
| NotModelled (array : bool).

(** [JSONDecoder.decode]: white space, one value, white space, end of
    text.  The budget [2 * len(s) + 2] is never used up
    (see [json_loads_budget]). *)
Definition json_loads (s : string) : decoded :=
  match Decoder.scan_once (2 * String.length s + 2) Decoder.nesting_limit
                          (Decoder.skip_ws s) with
  | Decoder.Scanned v r exact =>
      match Decoder.skip_ws r with
      | "" => if exact then Value v else NotModelled (is_array v)
      | _ => JSONDecodeError
      end
  | Decoder.Failed Decoder.Syntax => JSONDecodeError
  | Decoder.Failed Decoder.Digits => DigitLimit
  | Decoder.Failed Decoder.Depth => TooDeep
  | Decoder.Exhausted => NotModelled true
  end.

(** ** Formatting values: [str(v)] and [repr(v)] *)

Module PyFmt.
Import PyStr.

Definition squote : ascii := "039"%char.

Fixpoint contains (c : ascii) (s : string) : bool :=
  match s with
  | "" => false
  | String a r => (a =? c)%char || contains c r
  end.

(** [str.isprintable] of one character below 256. *)
Definition printable (c : ascii) : bool :=
  let n := code c in
  ((32 <=? n) && (n <=? 126) || (161 <=? n) && negb (n =? 173))%N.

Definition repr_char (quote c : ascii) : string :=
  let n := code c in
  if (c =? quote)%char || (c =? backslash)%char then String backslash (String c "")
  else if (n =? 9)%N then String backslash "t"
  else if (n =? 10)%N then String backslash "n"
  else if (n =? 13)%N then String backslash "r"
  else if printable c then String c ""
  else String backslash
         (String "x" (String (Encoder.hex_digit (n / 16))
                        (String (Encoder.hex_digit (n mod 16)) ""))).

Fixpoint repr_chars (quote : ascii) (s : string) : string :=
  match s with
  | "" => ""
  | String c r => repr_char quote c ++ repr_chars quote r
  end.

(** [repr(s)] of a string: single quotes, unless the string has a
    single quote and no double quote. *)
Definition str_repr (s : string) : string :=
  let quote := if contains squote s && negb (contains dquote s) then dquote else squote in
  String quote (repr_chars quote s ++ String quote "").

Fixpoint repr (v : json) : string :=
  match v with
  | JNull => "None"
  | JBool true => "True"
  | JBool false => "False"
  | JInt z => int_repr z
  | JStr s => str_repr s
  | JArr [] => "[]"
  | JArr (x :: xs) =>
      "[" ++ repr x ++
      (fix rest (l : list json) : string :=
         match l with
         | [] => "]"
         | y :: ys => ", " ++ repr y ++ rest ys
         end) xs
  | JObj [] => "{}"
  | JObj ((k, x) :: kvs) =>
      "{" ++ str_repr k ++ ": " ++ repr x ++
      (fix rest (l : list (string * json)) : string :=
         match l with
         | [] => "}"
         | (k', y) :: ys => ", " ++ str_repr k' ++ ": " ++ repr y ++ rest ys
         end) kvs
  end.

(** [str(v)], which an f-string applies to the value in braces. *)
Definition str (v : json) : string :=
  match v with
  | JStr s => s
  | _ => repr v
  end.

End PyFmt.

(** ** The world of one run *)

(** The operations on [tasks.json], in the order they happen. *)
Inductive io_event : Type :=
| PathExists                      (* os.path.exists(JSON_FILE) *)
| OpenedForReading                (* open(JSON_FILE, 'r') and json.load *)
| Written (text : string)         (* open(JSON_FILE, 'w') and json.dump *)
| WriteRefused.                   (* open(JSON_FILE, 'w') raised IOError *)

Record world : Type := mkWorld {
  tasks_json : option string;     (* the text of tasks.json, if the file exists *)
  write_error : option string;    (* the IOError that opening for writing raises, if any *)
  stdout : list string;           (* one entry for each call of print *)
  io_log : list io_event
}.

Inductive exn : Type :=
| KeyError (key : string)
| TypeError
| AttributeError
| IndexError
| ValueError
| SystemExit (status : Z).

(** How a call ends: it returns, an exception leaves it, or the run went
    through a document that [json] cannot hold. *)
Inductive outcome (A : Type) : Type :=
| Returned (a : A)
| Raised (e : exn)
| OutOfModel.
Arguments Returned {A} a.
Arguments Raised {A} e.
Arguments OutOfModel {A}.

Definition M (A : Type) : Type := world -> outcome A * world.

Definition ret {A} (a : A) : M A := fun w => (Returned a, w).

Definition bind {A B} (c : M A) (k : A -> M B) : M B :=
  fun w =>
    match c w with
    | (Returned a, w') => k a w'
    | (Raised e, w') => (Raised e, w')
    | (OutOfModel, w') => (OutOfModel, w')
    end.

Definition raise {A} (e : exn) : M A := fun w => (Raised e, w).

Notation "x <- c ;; k" := (bind c (fun x => k))
  (at level 100, c at next level, right associativity).
Notation "c ;; k" := (bind c (fun _ => k))
  (at level 100, right associativity).

Definition log (e : io_event) (w : world) : world :=
  mkWorld (tasks_json w) (write_error w) (stdout w) (io_log w ++ [e]).

Definition print (line : string) : M unit :=
  fun w => (Returned tt, mkWorld (tasks_json w) (write_error w) (stdout w ++ [line]) (io_log w)).

Definition sys_exit {A} (status : Z) : M A := raise (SystemExit status).

(** The exit status of the process when [main] ends this way: an
    exception that nobody catches ends the interpreter with status 1. *)
Definition exit_status {A} (o : outcome A) : option Z :=
  match o with
  | Returned _ => Some 0%Z
  | Raised (SystemExit n) => Some n
  | Raised _ => Some 1%Z
  | OutOfModel => None
  end.

(** [for i, x in enumerate(l, start): body(i, x)] *)
Fixpoint for_enumerate {A} (start : Z) (l : list A) (body : Z -> A -> M unit) : M unit :=
  match l with
  | [] => ret tt
  | x :: xs => body start x ;; for_enumerate (start + 1) xs body
  end.

(** [task.get(key, default)]: only a [dict] has the method. *)
Definition dict_get (task : json) (key : string) (default : json) : M json :=
  match task with
  | JObj d => ret (match Dict.get key d with Some v => v | None => default end)
  | _ => raise AttributeError
  end.

(** [task[key]] *)
Definition getitem (task : json) (key : string) : M json :=
  match task with
  | JObj d =>
      match Dict.get key d with
      | Some v => ret v
      | None => raise (KeyError key)
      end
  | _ => raise TypeError
  end.

(** [task[key] = v] *)
Definition setitem (task : json) (key : string) (v : json) : M json :=
  match task with
  | JObj d => ret (JObj (Dict.set key v d))
  | _ => raise TypeError
  end.

(** [tasks[i]] for [i] that is not negative *)
Definition list_getitem (tasks : list json) (i : Z) : M json :=
  match tasks !! Z.to_nat i with
  | Some t => ret t
  | None => raise IndexError
  end.

Definition json_eqb_str (v : json) (s : string) : bool :=
  match v with
  | JStr s' => String.eqb s' s
  | _ => false
  end.

(** ** The program *)

Definition JSON_FILE : string := "tasks.json".

(** The [except] clause names [json.JSONDecodeError] only: the
    [ValueError] of an integer with too many digits leaves the function. *)
Definition load_tasks : M (list json) :=
  fun w =>
    let w1 := log PathExists w in
    match tasks_json w with
    | None => (Returned [], w1)
    | Some text =>
        let w2 := log OpenedForReading w1 in
        match json_loads text with
        | Value (JArr tasks) => (Returned tasks, w2)
        | Value _ => (Returned [], w2)
        | JSONDecodeError => (Returned [], w2)
        | DigitLimit => (Raised ValueError, w2)
        | TooDeep => (OutOfModel, w2)
        | NotModelled true => (OutOfModel, w2)
        | NotModelled false => (Returned [], w2)
        end
    end.

Definition save_tasks (tasks : list json) : M unit :=
  fun w =>
    match write_error w with
    | None =>
        let text := json_dumps (JArr tasks) in
        (Returned tt,
         log (Written text) (mkWorld (Some text) (write_error w) (stdout w) (io_log w)))
    | Some e =>
        print ("Error: Could not save tasks to " ++ JSON_FILE ++ ". " ++ e) (log WriteRefused w)
    end.

Definition show_help : M unit :=
  print "--- Task Tracker Help ---" ;;
  print "Usage:" ;;
  print "  python task_tracker.py list                : Show all tasks" ;;
  print ("  python task_tracker.py add " ++ PyStr.dq ++ "<description>" ++ PyStr.dq ++ " : Add a new task") ;;
  print "  python task_tracker.py complete <number>   : Mark a task as complete" ;;
  print "  python task_tracker.py remove <number>     : Remove a task" ;;
  print "  python task_tracker.py help                : Show this help message" ;;
  print (nl ++ "Examples:") ;;
  print ("  python task_tracker.py add " ++ PyStr.dq ++ "Buy milk and eggs" ++ PyStr.dq) ;;
  print "  python task_tracker.py complete 3".

Definition add_task (description : string) : M unit :=
  if String.eqb description "" then
    print "Error: Cannot add an empty task."
  else
    tasks <- load_tasks ;;
    let new_task := JObj [("description", JStr description); ("status", JStr "pending")] in
    save_tasks (tasks ++ [new_task])%list ;;
    print ("Task added: " ++ PyStr.dq ++ description ++ PyStr.dq).

(** The body of the loop in [list_tasks]: one line for one task. *)
Definition list_body (i : Z) (task : json) : M unit :=
  status <- dict_get task "status" JNull ;;
  let status_icon := if json_eqb_str status "complete" then "[x]" else "[ ]" in
  description <- dict_get task "description" (JStr "No description") ;;
  print ("  " ++ PyStr.int_repr i ++ ". " ++ status_icon ++ " " ++ PyFmt.str description).

Definition list_tasks : M unit :=
  tasks <- load_tasks ;;
  match tasks with
  | [] => print "No tasks found. Add one with the 'add' command!"
  | _ =>
      print "--- Your Tasks ---" ;;
      for_enumerate 1 tasks list_body ;;
      print "------------------"
  end.

Definition _update_task (task_index_str action : string) : M unit :=
  match PyStr.int task_index_str with
  | None =>
      print ("Error: Invalid task number '" ++ task_index_str ++ "'. Must be an integer.")
  | Some n =>
      let task_index := (n - 1)%Z in
      tasks <- load_tasks ;;
      if ((0 <=? task_index) && (task_index <? Z.of_nat (length tasks)))%Z then
        if String.eqb action "complete" then
          task <- list_getitem tasks task_index ;;
          status <- getitem task "status" ;;
          if json_eqb_str status "complete" then
            print ("Task " ++ PyStr.int_repr (task_index + 1) ++ " is already marked as complete.")
          else
            task' <- setitem task "status" (JStr "complete") ;;
            let tasks' := <[Z.to_nat task_index := task']> tasks in
            save_tasks tasks' ;;
            task'' <- list_getitem tasks' task_index ;;
            description <- getitem task'' "description" ;;
            print ("Task " ++ PyStr.int_repr (task_index + 1) ++ " marked as complete: "
                     ++ PyStr.dq ++ PyFmt.str description ++ PyStr.dq)
        else if String.eqb action "remove" then
          removed_task <- list_getitem tasks task_index ;;
          let tasks' := delete (Z.to_nat task_index) tasks in
          save_tasks tasks' ;;
          description <- getitem removed_task "description" ;;
          print ("Task " ++ PyStr.int_repr (task_index + 1) ++ " removed: "
                   ++ PyStr.dq ++ PyFmt.str description ++ PyStr.dq)
        else ret tt
      else
        print ("Error: Task number " ++ PyStr.int_repr (task_index + 1) ++ " not found.") ;;
        match tasks with
        | [] => print "You have no tasks."
        | _ => print ("Valid task numbers are 1 to "
                        ++ PyStr.int_repr (Z.of_nat (length tasks)) ++ ".")
        end
  end.

Definition complete_task (task_index_str : string) : M unit :=
  _update_task task_index_str "complete".

Definition remove_task (task_index_str : string) : M unit :=
  _update_task task_index_str "remove".

(** [main], with [sys.argv] as an argument.  [argv] shorter than two is
    the first branch; [rest] is [sys.argv[2:]], so [len(sys.argv) < 3] is
    [rest = []] and [sys.argv[2]] is its head. *)
Definition main (argv : list string) : M unit :=
  match argv with
  | [] | [_] =>
      print "Error: No command provided." ;;
      show_help ;;
      sys_exit 1
  | _ :: argv1 :: rest =>
      let command := PyStr.lower argv1 in
      if String.eqb command "list" then list_tasks
      else if String.eqb command "add" then
        match rest with
        | [] =>
            print "Error: 'add' command requires a task description." ;;
            print ("Example: python task_tracker.py add " ++ PyStr.dq ++ "Buy groceries" ++ PyStr.dq)
        | _ => add_task (PyStr.join " " rest)
        end
      else if String.eqb command "complete" then
        match rest with
        | [] =>
            print "Error: 'complete' command requires a task number." ;;
            print "Example: python task_tracker.py complete 2"
        | argv2 :: _ => complete_task argv2
        end
      else if String.eqb command "remove" then
        match rest with
        | [] =>
            print "Error: 'remove' command requires a task number." ;;
            print "Example: python task_tracker.py remove 1"
        | argv2 :: _ => remove_task argv2
        end
      else if String.eqb command "help" then show_help
      else
        print ("Error: Unknown command '" ++ command ++ "'") ;;
        show_help ;;
        sys_exit 1
  end.

(** A fresh run: nothing printed, nothing logged. *)
Definition boot (file : option string) : world := mkWorld file None [] [].

Definition run {A} (c : M A) (w : world) : world := snd (c w).
Definition result {A} (c : M A) (w : world) : outcome A := fst (c w).

(** What [load_tasks] returns for a given file. *)
Definition stored (file : option string) : outcome (list json) :=
  result load_tasks (boot file).

(** What an entry of the stored list can be: a value that Python can
    hold and that, inside the list, is within the limits of the decoder. *)
Definition storable (v : json) : Prop :=
  py_value v /\ within (pred Decoder.nesting_limit) v.

(** ** The world after an operation *)

(** The file operations of one [load_tasks]. *)
Definition read_events (file : option string) : list io_event :=
  match file with
  | None => [PathExists]
  | Some _ => [PathExists; OpenedForReading]
  end.

(** The world after [load_tasks]: only the log grows. *)
Definition loaded (w : world) : world :=
  mkWorld (tasks_json w) (write_error w) (stdout w)
          (io_log w ++ read_events (tasks_json w)).

(** The world after [print]. *)
Definition printed (lines : list string) (w : world) : world :=
  mkWorld (tasks_json w) (write_error w) (stdout w ++ lines) (io_log w).

(** The world after a [save_tasks] that succeeds. *)
Definition saved (tasks : list json) (w : world) : world :=
  mkWorld (Some (json_dumps (JArr tasks))) (write_error w) (stdout w)
          (io_log w ++ [Written (json_dumps (JArr tasks))]).

(** The world after [save_tasks], whether or not the write goes through. *)
Definition after_save (tasks : list json) (w : world) : world :=
  match write_error w with
  | None => saved tasks w
  | Some e =>
      printed ["Error: Could not save tasks to " ++ JSON_FILE ++ ". " ++ e]
              (log WriteRefused w)
  end.

(** ** What the claims speak of *)

(** A file with the given tasks, as [save_tasks] writes it. *)
Definition file_of (tasks : list json) : option string :=
  Some (json_dumps (JArr tasks)).

(** A task with both fields, as [add_task] makes it. *)
Definition task (description status : string) : json :=
  JObj [("description", JStr description); ("status", JStr status)].

(** [c * n]: the text of [n] characters [c]. *)
Fixpoint repeated (c : ascii) (n : nat) : string :=
  match n with
  | O => ""
  | S n' => String c (repeated c n')
  end.

(** [description.strip() == ''] *)
Fixpoint whitespace_only (s : string) : bool :=
  match s with
  | "" => true
  | String c r => PyStr.isspace c && whitespace_only r
  end.

(** [add_task] turns the description down and leaves the file alone:
    one error line, no file operation. *)
Definition rejected_untouched (description : string) (w : world) : Prop :=
  add_task description w = (Returned tt, printed ["Error: Cannot add an empty task."] w).

(** The three cases in which [load_tasks] has nothing to return. *)
Definition unusable (file : option string) : Prop :=
  match file with
  | None => True
  | Some text =>
      json_loads text = JSONDecodeError \/
      (exists v, json_loads text = Value v /\ is_array v = false) \/
      json_loads text = NotModelled false
  end.

Definition is_dict (v : json) : bool :=
  match v with JObj _ => true | _ => false end.

(** The marker and the text that a task shows in the listing. *)
Definition status_icon (task : json) : string :=
  match task with
  | JObj d =>
      match Dict.get "status" d with
      | Some (JStr s) => if String.eqb s "complete" then "[x]" else "[ ]"
      | _ => "[ ]"
      end
  | _ => "[ ]"
  end.

Definition shown_description (task : json) : string :=
  match task with
  | JObj d =>
      match Dict.get "description" d with
      | Some v => PyFmt.str v
      | None => "No description"
      end
  | _ => "No description"
  end.

Definition task_line (i : Z) (task : json) : string :=
  "  " ++ PyStr.int_repr i ++ ". " ++ status_icon task ++ " " ++ shown_description task.

Fixpoint task_lines (start : Z) (tasks : list json) : list string :=
  match tasks with
  | [] => []
  | t :: ts => task_line start t :: task_lines (start + 1) ts
  end.

(** The second line of the report for a number out of range. *)
Definition range_hint (tasks : list json) : string :=
  match tasks with
  | [] => "You have no tasks."
  | _ => "Valid task numbers are 1 to " ++ PyStr.int_repr (Z.of_nat (length tasks)) ++ "."
  end.

Definition not_found_report (n : Z) (tasks : list json) : list string :=
  ["Error: Task number " ++ PyStr.int_repr n ++ " not found."; range_hint tasks].

(** The task with its status set to complete. *)
Definition completed (d : Dict.t) : json :=
  JObj (Dict.set "status" (JStr "complete") d).

(** The ten lines of [show_help]. *)
Definition help_text : list string :=
  ["--- Task Tracker Help ---";
   "Usage:";
   "  python task_tracker.py list                : Show all tasks";
   "  python task_tracker.py add " ++ PyStr.dq ++ "<description>" ++ PyStr.dq ++ " : Add a new task";
   "  python task_tracker.py complete <number>   : Mark a task as complete";
   "  python task_tracker.py remove <number>     : Remove a task";
   "  python task_tracker.py help                : Show this help message";
   nl ++ "Examples:";
   "  python task_tracker.py add " ++ PyStr.dq ++ "Buy milk and eggs" ++ PyStr.dq;
   "  python task_tracker.py complete 3"].

(** How a run ends when the confirmation needs [task['description']]
    after the file has been written. *)
Definition confirm (n : Z) (verb : string) (task : json) (w : world)
  : outcome unit * world :=
  match task with
  | JObj d =>
      match Dict.get "description" d with
      | Some v =>
          (Returned tt,
           printed ["Task " ++ PyStr.int_repr n ++ verb
                      ++ PyStr.dq ++ PyFmt.str v ++ PyStr.dq] w)
      | None => (Raised (KeyError "description"), w)
      end
  | _ => (Raised TypeError, w)
  end.

Definition known_command (command : string) : bool :=
  String.eqb command "list" || String.eqb command "add" ||
  String.eqb command "complete" || String.eqb command "remove" ||
  String.eqb command "help".

(** [sys.argv[1].lower()], when there is a command. *)
Definition command_word (argv : list string) : option string :=
  match argv with
  | _ :: argv1 :: _ => Some (PyStr.lower argv1)
  | _ => None
  end.

(** No command, or a command that is not known. *)
Definition no_or_unknown_command (argv : list string) : bool :=
  match command_word argv with
  | None => true
  | Some command => negb (known_command command)
  end.

(** A task as the file format has it: a dictionary with a description
    and a status. *)
Definition well_formed (t : json) : bool :=
  match t with
  | JObj d =>
      match Dict.get "description" d, Dict.get "status" d with
      | Some _, Some _ => true
      | _, _ => false
      end
  | _ => false
  end.

(** The run prints at least one line and returns; it writes nothing:
    the file is as it was and the log gains at most the reading. *)
Definition reports_only (argv : list string) (w : world) : Prop :=
  exists lines,
    lines <> [] /\
    (main argv w = (Returned tt, printed lines w) \/
     main argv w = (Returned tt, printed lines (loaded w))).

(** A user error: the run only reports, and the process ends with
    status 0 and the file as it was. *)
Definition soft_error (argv : list string) (w : world) : Prop :=
  reports_only argv w /\
  exit_status (result (main argv) w) = Some 0%Z /\
  tasks_json (run (main argv) w) = tasks_json w.

(** ** What the further properties speak of *)

(** An entry as the program itself writes it: the two fields in the
    order of [add_task], with one of the two statuses that the program
    sets. *)
Definition is_task (t : json) : bool :=
  match t with
  | JObj [(k1, JStr _); (k2, JStr s)] =>
      String.eqb k1 "description" && String.eqb k2 "status"
      && (String.eqb s "pending" || String.eqb s "complete")
  | _ => false
  end.

(** [w'] differs from [w] by printed lines and at most one reading of
    the file: the file is as it was and nothing was opened for writing. *)
Definition only_read (w w' : world) : Prop :=
  tasks_json w' = tasks_json w /\
  write_error w' = write_error w /\
  (io_log w' = io_log w \/ io_log w' = (io_log w ++ read_events (tasks_json w))%list).


(** The line that [save_tasks] prints when the file cannot be written. *)
Definition save_error (e : string) : string :=
  "Error: Could not save tasks to " ++ JSON_FILE ++ ". " ++ e.

(** [w'] differs from [w] by printed lines, one reading of the file and
    one call of [save_tasks] after it. *)
Definition saved_once (w w' : world) : Prop :=
  exists tasks',
    tasks_json w' = tasks_json (after_save tasks' (loaded w)) /\
    write_error w' = write_error w /\
    io_log w' = io_log (after_save tasks' (loaded w)).

(** The process ends with status 0 or with status 1. *)
Definition zero_or_one {A} (o : outcome A) : Prop :=
  exit_status o = Some 0%Z \/ exit_status o = Some 1%Z.

(** ** What the proofs about the decoder speak of *)

Import PyStr Encoder Decoder.

Local Abbreviation len := String.length.

(** The text after a number must not continue it. *)
Definition ends_token (rest : string) : bool :=
  match rest with
  | "" => true
  | String c _ => negb (is_digit c || (c =? ".") || (c =? "e") || (c =? "E"))%char
  end.

(** The text starts a value: its first character is neither white
    space nor a closing bracket. *)
Definition starts_value (s : string) : Prop :=
  match s with
  | "" => False
  | String c _ => is_ws c = false /\ (c =? "]")%char = false
  end.

Fixpoint encode_items (level : nat) (l : list json) : string :=
  match l with
  | [] => newline_indent level ++ "]"
  | y :: ys =>
      "," ++ newline_indent (S level) ++ iterencode (S level) y ++ encode_items level ys
  end.

Fixpoint encode_fields (level : nat) (l : list (string * json)) : string :=
  match l with
  | [] => newline_indent level ++ "}"
  | (k, y) :: ys =>
      "," ++ newline_indent (S level) ++
      encode_basestring_ascii k ++ ": " ++ iterencode (S level) y ++ encode_fields level ys
  end.

(** A key and its value, as they stand after the opening quote. *)
Definition encode_pair (level : nat) (k : string) (x : json) (tail : string) : string :=
  escape k ++ String dquote (String ":" (String " " (iterencode (S level) x ++ tail))).

Fixpoint cost (v : json) : nat :=
  match v with
  | JArr items =>
      S ((fix go (l : list json) : nat :=
            match l with [] => 0 | x :: xs => S (cost x + go xs) end) items)
  | JObj fields =>
      S ((fix go (l : list (string * json)) : nat :=
            match l with [] => 0 | kv :: xs => S (cost (snd kv) + go xs) end) fields)
  | _ => 1
  end.

Fixpoint cost_items (l : list json) : nat :=
  match l with [] => 0 | x :: xs => S (cost x + cost_items xs) end.

Fixpoint cost_fields (l : list (string * json)) : nat :=
  match l with [] => 0 | kv :: xs => S (cost (snd kv) + cost_fields xs) end.

(** What the round trip says of one value. *)
Definition reads_back (v : json) : Prop :=
  forall (level : nat) (rest : string) (fuel depth : nat),
    py_value v -> within depth v -> ends_token rest = true -> cost v <= fuel ->
    scan_once fuel depth (iterencode level v ++ rest) = Scanned v rest true.

(** What the scanners return can be held and is within the limits. *)
Definition sound (depth : nat) (v : json) : Prop := py_value v /\ within depth v.

Definition scans_values (fuel : nat) : Prop :=
  (forall depth s v r e, scan_once fuel depth s = Scanned v r e -> sound depth v) /\
  (forall depth s vs r e,
     array_items fuel depth s = Scanned vs r e -> Forall (sound depth) vs) /\
  (forall depth s ps r e,
     object_pairs fuel depth s = Scanned ps r e ->
     Forall (fun kv => sound depth (snd kv)) ps).

(** With a budget of twice the length of the text (and one or two
    more), each scanner ends, and what it leaves is shorter. *)
Definition within_budget (fuel : nat) : Prop :=
  (forall depth s, 2 * len s + 1 <= fuel ->
     scan_once fuel depth s <> Exhausted /\
     forall v r e, scan_once fuel depth s = Scanned v r e -> len r < len s) /\
  (forall depth s, 2 * len s + 2 <= fuel ->
     array_items fuel depth s <> Exhausted /\
     forall vs r e, array_items fuel depth s = Scanned vs r e -> len r < len s) /\
  (forall depth s, 2 * len s + 2 <= fuel ->
     object_pairs fuel depth s <> Exhausted /\
     forall ps r e, object_pairs fuel depth s = Scanned ps r e -> len r < len s).

(** * Properties *)

(** ** The definitions at work *)

Example int_plain : PyStr.int "12" = Some 12%Z.
Proof. reflexivity. Qed.

Example int_padded_signed : PyStr.int "  -007 " = Some (-7)%Z.
Proof. reflexivity. Qed.

Example int_underscore : PyStr.int "1_000" = Some 1000%Z.
Proof. reflexivity. Qed.

Example int_rejects_word : PyStr.int "abc" = None.
Proof. reflexivity. Qed.

Example int_rejects_empty : PyStr.int "" = None.
Proof. reflexivity. Qed.

Example int_rejects_float : PyStr.int "1.5" = None.
Proof. reflexivity. Qed.

Example lower_ascii : PyStr.lower "LiSt" = "list".
Proof. reflexivity. Qed.

Example dumps_empty_list : json_dumps (JArr []) = "[]".
Proof. reflexivity. Qed.

Example dumps_one_task :
  json_dumps (JArr [JObj [("description", JStr "Buy milk"); ("status", JStr "pending")]])
  = "[" ++ nl ++
    "    {" ++ nl ++
    "        " ++ PyStr.dq ++ "description" ++ PyStr.dq ++ ": " ++ PyStr.dq ++ "Buy milk" ++ PyStr.dq ++ "," ++ nl ++
    "        " ++ PyStr.dq ++ "status" ++ PyStr.dq ++ ": " ++ PyStr.dq ++ "pending" ++ PyStr.dq ++ nl ++
    "    }" ++ nl ++
    "]".
Proof. reflexivity. Qed.

Example dumps_escapes :
  json_dumps (JStr (String "233"%char (String "009"%char (String "127"%char "a"))))
  = PyStr.dq ++ "\u00e9\t\u007fa" ++ PyStr.dq.
Proof. reflexivity. Qed.

Example loads_object : json_loads "{}" = Value (JObj []).
Proof. reflexivity. Qed.

Example loads_string : json_loads (PyStr.dq ++ "hello" ++ PyStr.dq) = Value (JStr "hello").
Proof. reflexivity. Qed.

Example loads_empty_text : json_loads "" = JSONDecodeError.
Proof. reflexivity. Qed.

Example loads_open_list : json_loads "[1, 2" = JSONDecodeError.
Proof. reflexivity. Qed.

Example loads_trailing_comma : json_loads "[1,]" = JSONDecodeError.
Proof. reflexivity. Qed.

Example loads_leading_zero : json_loads "01" = JSONDecodeError.
Proof. reflexivity. Qed.

Example loads_extra_data : json_loads "[] []" = JSONDecodeError.
Proof. reflexivity. Qed.

Example loads_nested :
  json_loads (" [ -12 , {" ++ PyStr.dq ++ "a" ++ PyStr.dq ++ " : [null, true]} ] ")
  = Value (JArr [JInt (-12); JObj [("a", JArr [JNull; JBool true])]]).
Proof. reflexivity. Qed.

Example loads_duplicate_key :
  json_loads ("{" ++ PyStr.dq ++ "a" ++ PyStr.dq ++ ":1," ++ PyStr.dq ++ "b" ++ PyStr.dq ++ ":2,"
                  ++ PyStr.dq ++ "a" ++ PyStr.dq ++ ":3}")
  = Value (JObj [("a", JInt 3); ("b", JInt 2)]).
Proof. reflexivity. Qed.

Example loads_float_in_list : json_loads "[1.5]" = NotModelled true.
Proof. reflexivity. Qed.

Example loads_float : json_loads "-1.5e+3" = NotModelled false.
Proof. reflexivity. Qed.

Example loads_float_then_error : json_loads "[1.5" = JSONDecodeError.
Proof. reflexivity. Qed.

Example loads_one_task :
  json_loads (json_dumps (JArr [JObj [("description", JStr "Buy milk"); ("status", JStr "pending")]]))
  = Value (JArr [JObj [("description", JStr "Buy milk"); ("status", JStr "pending")]]).
Proof. reflexivity. Qed.

Example int_digit_limit :
  PyStr.int (repeated "0" 4300) = Some 0%Z /\
  PyStr.int (repeated "0" 4301) = None /\
  PyStr.int (" -" ++ repeated "9" 4300 ++ " ") = Some (1 - 10 ^ 4300)%Z.
Proof. vm_compute. repeat split; reflexivity. Qed.

Example loads_digit_limit :
  json_loads ("[1.5, " ++ repeated "1" 4301 ++ "]") = DigitLimit /\
  json_loads ("[" ++ repeated "1" 4301 ++ ", 1.5") = DigitLimit /\
  json_loads ("x[" ++ repeated "1" 4301 ++ "]") = JSONDecodeError /\
  json_loads (repeated "1" 4301 ++ ".5") = NotModelled false /\
  json_loads ("-" ++ repeated "1" 4300) = Value (JInt (- ((10 ^ 4300 - 1) / 9))).
Proof. vm_compute. repeat split; reflexivity. Qed.

Example loads_nesting :
  json_loads (repeated "[" 3 ++ repeated "]" 3) = Value (JArr [JArr [JArr []]]) /\
  json_loads (repeated "[" 100) = JSONDecodeError /\
  json_loads ("x" ++ repeated "[" 101) = JSONDecodeError /\
  json_loads (repeated "[" 101) = TooDeep /\
  json_loads (repeated "[" 101 ++ repeated "]" 101) = TooDeep.
Proof. vm_compute. repeat split; reflexivity. Qed.

Example str_of_text : PyFmt.str (JStr "Buy milk") = "Buy milk".
Proof. reflexivity. Qed.

Example str_of_list :
  PyFmt.str (JArr [JInt 1; JStr "a"; JNull]) = "[1, 'a', None]".
Proof. reflexivity. Qed.

Example run_add_then_list :
  stdout (run list_tasks (boot (tasks_json (run (add_task "Buy milk") (boot None)))))
  = ["--- Your Tasks ---"; "  1. [ ] Buy milk"; "------------------"].
Proof. reflexivity. Qed.

Example run_remove_out_of_range :
  let file := tasks_json (run (add_task "b") (run (add_task "a") (boot None))) in
  stdout (run (main ["task_tracker.py"; "remove"; "5"]) (boot file))
  = ["Error: Task number 5 not found."; "Valid task numbers are 1 to 2."].
Proof. vm_compute. reflexivity. Qed.

Example run_whitespace_description :
  stored (tasks_json (run (add_task "  ") (boot None)))
  = Returned [JObj [("description", JStr "  "); ("status", JStr "pending")]].
Proof. vm_compute. reflexivity. Qed.

(** ** Facts about strings *)

Lemma append_assoc (a b c : string) : (a ++ b) ++ c = a ++ (b ++ c).
Proof. induction a as [|x a IH]; simpl; [reflexivity | now rewrite IH]. Qed.

Lemma append_nil_r (a : string) : a ++ "" = a.
Proof. induction a as [|x a IH]; simpl; [reflexivity | now rewrite IH]. Qed.

Lemma length_append (a b : string) :
  String.length (a ++ b) = String.length a + String.length b.
Proof. induction a as [|x a IH]; simpl; [reflexivity | now rewrite IH]. Qed.

(** ** The decoder reads back what the encoder writes *)

(** *** Strings *)

Lemma scanstring_escape_char (c : ascii) (tail : string) :
  scanstring (escape_char c ++ tail) = scan_cons c true (scanstring tail).
Proof.
  destruct c as [[|] [|] [|] [|] [|] [|] [|] [|]]; reflexivity.
Qed.

Lemma scanstring_escape (s rest : string) :
  scanstring (escape s ++ String dquote rest) = Scanned s rest true.
Proof.
  induction s as [|c s IH]; simpl.
  - reflexivity.
  - rewrite append_assoc, scanstring_escape_char, IH. reflexivity.
Qed.

(** *** Integers *)

Lemma ends_token_no_fraction rest : ends_token rest = true -> scan_fraction rest = None.
Proof.
  destruct rest as [|c r]; simpl; [reflexivity|].
  intros H. apply negb_true_iff in H.
  repeat (apply orb_false_iff in H; destruct H as [H ?]).
  repeat match goal with E : (_ =? _)%char = false |- _ => rewrite E; clear E end.
  reflexivity.
Qed.

Lemma ends_token_no_exponent rest : ends_token rest = true -> scan_exponent rest = None.
Proof.
  destruct rest as [|c r]; simpl; [reflexivity|].
  intros H. apply negb_true_iff in H.
  repeat (apply orb_false_iff in H; destruct H as [H ?]).
  repeat match goal with E : (_ =? _)%char = false |- _ => rewrite E; clear E end.
  reflexivity.
Qed.

Lemma ends_token_no_digit rest : ends_token rest = true -> scan_digits rest = (Nil, rest).
Proof.
  destruct rest as [|c r]; simpl; [reflexivity|].
  intros H. apply negb_true_iff in H.
  repeat (apply orb_false_iff in H; destruct H as [H ?]).
  unfold is_digit in H. destruct (digit_ctor c); [discriminate | reflexivity].
Qed.

Lemma scan_digits_uint (u : uint) (rest : string) :
  ends_token rest = true ->
  scan_digits (NilEmpty.string_of_uint u ++ rest) = (u, rest).
Proof.
  intros H. induction u; simpl; try (rewrite IHu; reflexivity).
  now apply ends_token_no_digit.
Qed.

(** A normalised numeral is [0] or starts with another digit. *)
Lemma unorm_fixed_shape (u : uint) :
  unorm u = u -> u = D0 Nil \/ (nzhead u = u /\ u <> Nil).
Proof.
  intros H. destruct (uint_eq_dec (nzhead u) Nil) as [E|E].
  - left. rewrite <- H. unfold unorm. now rewrite E.
  - right. rewrite <- (unorm_nzhead u E). split; [exact H|].
    rewrite <- H. apply unorm_nonnil.
Qed.

Lemma to_int_normal (z : Z) : norm (Z.to_int z) = Z.to_int z.
Proof. rewrite <- (DecimalZ.of_to z) at 2. symmetry. apply DecimalZ.to_of. Qed.

Lemma scan_int_part_nzhead (u : uint) (rest : string) :
  nzhead u = u -> u <> Nil -> ends_token rest = true ->
  scan_int_part (NilEmpty.string_of_uint u ++ rest) = Some (u, rest).
Proof.
  intros Hn Hne Hr.
  destruct u; try congruence;
    try (unfold scan_int_part; simpl; rewrite scan_digits_uint by exact Hr; reflexivity).
  exfalso. apply (nzhead_nonzero (D0 u) u). exact Hn.
Qed.

Lemma nzhead_head_not_zero (u : uint) (rest : string) :
  nzhead u = u -> u <> Nil ->
  exists c r, NilEmpty.string_of_uint u ++ rest = String c r /\
              is_digit c = true /\ (c =? "-")%char = false.
Proof.
  intros Hn Hne.
  destruct u; try congruence; simpl; eexists; eexists; (split; [reflexivity|]); split; reflexivity.
Qed.

Lemma norm_neg_shape (u : uint) :
  norm (Neg u) = Neg u -> nzhead u = u /\ u <> Nil.
Proof.
  simpl. destruct (nzhead u) eqn:E; intros H; try discriminate;
    split; congruence.
Qed.

Lemma string_of_uint_nonnil (u : uint) :
  u <> Nil -> NilZero.string_of_uint u = NilEmpty.string_of_uint u.
Proof. destruct u; congruence || reflexivity. Qed.

Lemma scan_number_digits (u : uint) (rest : string) (neg : bool) :
  nzhead u = u -> u <> Nil -> ends_token rest = true ->
  (N.of_nat (nb_digits u) <= max_str_digits)%N ->
  scan_number ((if neg then "-" else "") ++ NilEmpty.string_of_uint u ++ rest)
  = Scanned (JInt (Z.of_int (if neg then Neg u else Pos u))) rest true.
Proof.
  intros Hn Hne Hr Hfit. apply N.ltb_ge in Hfit.
  destruct (nzhead_head_not_zero u rest Hn Hne) as (c & r & Hc & Hd & Hm).
  unfold scan_number. destruct neg.
  - cbn -[scan_int_part scan_fraction scan_exponent Z.of_int N.ltb nb_digits].
    rewrite (scan_int_part_nzhead u rest Hn Hne Hr).
    rewrite (ends_token_no_fraction rest Hr), (ends_token_no_exponent rest Hr).
    now rewrite Hfit.
  - cbn [append]. rewrite Hc, Hm, <- Hc.
    rewrite (scan_int_part_nzhead u rest Hn Hne Hr).
    rewrite (ends_token_no_fraction rest Hr), (ends_token_no_exponent rest Hr).
    now rewrite Hfit.
Qed.

Lemma scan_number_zero (rest : string) :
  ends_token rest = true -> scan_number ("0" ++ rest) = Scanned (JInt 0) rest true.
Proof.
  intros Hr. unfold scan_number. cbn -[scan_fraction scan_exponent Z.of_int].
  rewrite (ends_token_no_fraction rest Hr), (ends_token_no_exponent rest Hr).
  reflexivity.
Qed.

(** [scan_number] reads back the decimal text of an integer that has
    no more digits than the conversion allows. *)
Lemma scan_number_int_repr (z : Z) (rest : string) :
  ends_token rest = true ->
  (decimal_digits z <= max_str_digits)%N ->
  scan_number (int_repr z ++ rest) = Scanned (JInt z) rest true.
Proof.
  intros Hr Hfit. unfold int_repr. unfold decimal_digits in Hfit.
  pose proof (to_int_normal z) as Hnorm.
  pose proof (DecimalZ.of_to z) as Hz.
  destruct (Z.to_int z) as [u|u].
  - simpl in Hnorm. injection Hnorm as Hu.
    destruct (unorm_fixed_shape u Hu) as [E|[Hn Hne]].
    + subst u. rewrite <- Hz. apply (scan_number_zero rest Hr).
    + rewrite <- Hz. unfold NilZero.string_of_int.
      rewrite (string_of_uint_nonnil u Hne).
      apply (scan_number_digits u rest false Hn Hne Hr Hfit).
  - destruct (norm_neg_shape u Hnorm) as [Hn Hne].
    rewrite <- Hz. unfold NilZero.string_of_int.
    rewrite (string_of_uint_nonnil u Hne).
    apply (scan_number_digits u rest true Hn Hne Hr Hfit).
Qed.

Lemma scan_once_int_repr (fuel depth : nat) (z : Z) (rest : string) :
  scan_once (S fuel) depth (int_repr z ++ rest) = scan_number (int_repr z ++ rest).
Proof.
  unfold int_repr. destruct (Z.to_int z) as [u|u]; destruct u; reflexivity.
Qed.

(** *** White space and the first character of an encoded value *)

Lemma skip_ws_spaces (n : nat) (s : string) : skip_ws (spaces n ++ s) = skip_ws s.
Proof. induction n as [|n IH]; simpl; [reflexivity | exact IH]. Qed.

Lemma skip_ws_newline_indent (level : nat) (s : string) :
  skip_ws (newline_indent level ++ s) = skip_ws s.
Proof.
  unfold newline_indent, newline. rewrite append_assoc. simpl.
  apply skip_ws_spaces.
Qed.

Lemma skip_ws_starts_value (s : string) : starts_value s -> skip_ws s = s.
Proof. destruct s as [|c r]; simpl; [tauto | intros [-> _]; reflexivity]. Qed.

Lemma iterencode_starts_value (level : nat) (v : json) (rest : string) :
  starts_value (iterencode level v ++ rest).
Proof.
  destruct v as [|[|]|z|s|[|x xs]|[|[k x] kvs]]; simpl; try (split; reflexivity).
  unfold int_repr. destruct (Z.to_int z) as [u|u]; destruct u; simpl; split; reflexivity.
Qed.

(** *** Arrays and objects *)

Lemma iterencode_array (level : nat) (x : json) (xs : list json) :
  iterencode level (JArr (x :: xs))
  = "[" ++ newline_indent (S level) ++ iterencode (S level) x ++ encode_items level xs.
Proof.
  cbn [iterencode]. do 3 f_equal.
  induction xs as [|y ys IH]; cbn [encode_items]; [reflexivity | now rewrite IH].
Qed.

Lemma iterencode_object (level : nat) (k : string) (x : json) (kvs : list (string * json)) :
  iterencode level (JObj ((k, x) :: kvs))
  = "{" ++ newline_indent (S level) ++
    encode_basestring_ascii k ++ ": " ++ iterencode (S level) x ++ encode_fields level kvs.
Proof.
  cbn [iterencode]. do 5 f_equal.
  induction kvs as [|[k' y] ys IH]; cbn [encode_fields]; [reflexivity | now rewrite IH].
Qed.

Lemma ends_token_items (level : nat) (l : list json) (rest : string) :
  ends_token (encode_items level l ++ rest) = true.
Proof. destruct l; reflexivity. Qed.

Lemma ends_token_fields (level : nat) (l : list (string * json)) (rest : string) :
  ends_token (encode_fields level l ++ rest) = true.
Proof. destruct l as [|[k y] ys]; reflexivity. Qed.

(** *** Dictionaries with distinct keys *)

Lemma set_fresh (k : string) (v : json) (d : Dict.t) :
  ~ In k (map fst d) -> Dict.set k v d = (d ++ [(k, v)])%list.
Proof.
  induction d as [|[k' v'] d IH]; simpl; intros H; [reflexivity|].
  destruct (String.eqb_spec k k') as [->|Hne]; [tauto|].
  rewrite IH by tauto. reflexivity.
Qed.

Lemma of_pairs_from (ps acc : list (string * json)) :
  NoDup (map fst (acc ++ ps)%list) ->
  fold_left (fun d kv => Dict.set (fst kv) (snd kv) d) ps acc = (acc ++ ps)%list.
Proof.
  revert acc. induction ps as [|[k v] ps IH]; intros acc H; simpl.
  - now rewrite app_nil_r.
  - assert (Hacc : (acc ++ (k, v) :: ps = (acc ++ [(k, v)]) ++ ps)%list)
      by now rewrite <- List.app_assoc.
    rewrite set_fresh.
    + rewrite IH; [now rewrite <- List.app_assoc|]. now rewrite <- Hacc.
    + rewrite map_app in H. simpl in H.
      apply NoDup_app in H. destruct H as (_ & Hdisj & _).
      intros Hin. apply list_elem_of_In in Hin.
      apply (Hdisj k Hin). now left.
Qed.

Lemma of_pairs_distinct (ps : list (string * json)) :
  NoDup (map fst ps) -> Dict.of_pairs ps = ps.
Proof. intros H. unfold Dict.of_pairs. now rewrite of_pairs_from. Qed.

Lemma py_value_array (items : list json) :
  py_value (JArr items) <-> Forall py_value items.
Proof.
  induction items as [|x xs IH]; simpl.
  - split; [constructor | trivial].
  - split.
    + intros [Hx Hxs]. constructor; [exact Hx | now apply IH].
    + intros H. inversion H; subst. split; [assumption | now apply IH].
Qed.

Lemma py_value_object (fields : list (string * json)) :
  py_value (JObj fields) <->
  NoDup (map fst fields) /\ Forall (fun kv => py_value (snd kv)) fields.
Proof.
  simpl. apply and_iff_compat_l.
  induction fields as [|kv xs IH]; simpl.
  - split; [constructor | trivial].
  - split.
    + intros [Hx Hxs]. constructor; [exact Hx | now apply IH].
    + intros H. inversion H; subst. split; [assumption | now apply IH].
Qed.

Lemma within_array (depth : nat) (items : list json) :
  within (S depth) (JArr items) <-> Forall (within depth) items.
Proof.
  induction items as [|x xs IH]; simpl.
  - split; [constructor | trivial].
  - split.
    + intros [Hx Hxs]. constructor; [exact Hx | now apply IH].
    + intros H. inversion H; subst. split; [assumption | now apply IH].
Qed.

Lemma within_object (depth : nat) (fields : list (string * json)) :
  within (S depth) (JObj fields) <-> Forall (fun kv => within depth (snd kv)) fields.
Proof.
  induction fields as [|kv xs IH]; simpl.
  - split; [constructor | trivial].
  - split.
    + intros [Hx Hxs]. constructor; [exact Hx | now apply IH].
    + intros H. inversion H; subst. split; [assumption | now apply IH].
Qed.

(** *** The recursion budget that reading a value back needs *)

Lemma cost_array (items : list json) : cost (JArr items) = S (cost_items items).
Proof.
  reflexivity.
Qed.

Lemma cost_object (fields : list (string * json)) :
  cost (JObj fields) = S (cost_fields fields).
Proof.
  reflexivity.
Qed.

Lemma encode_items_nil_app (level : nat) (rest : string) :
  encode_items level [] ++ rest = newline_indent level ++ String "]" rest.
Proof. cbn [encode_items]. now rewrite append_assoc. Qed.

Lemma encode_items_cons_app (level : nat) (y : json) (ys : list json) (rest : string) :
  encode_items level (y :: ys) ++ rest
  = String "," (newline_indent (S level) ++
                iterencode (S level) y ++ encode_items level ys ++ rest).
Proof. cbn [encode_items]. now rewrite !append_assoc. Qed.

Lemma array_items_encoded (level depth : nat) (xs : list json) :
  Forall reads_back xs ->
  forall (x : json) (rest : string) (fuel : nat),
    reads_back x -> py_value x -> Forall py_value xs ->
    within depth x -> Forall (within depth) xs ->
    S (cost x + cost_items xs) <= fuel ->
    array_items fuel depth (iterencode (S level) x ++ encode_items level xs ++ rest)
    = Scanned (x :: xs) rest true.
Proof.
  induction 1 as [|y ys Hy Hys IH]; intros x rest fuel Hx Vx Vxs Wx Wxs Hfuel;
    (destruct fuel as [|fuel]; [lia|]); cbn [array_items];
    rewrite (Hx (S level) _ fuel depth Vx Wx (ends_token_items _ _ _))
      by (cbn [cost_items] in Hfuel; lia);
    cbn [scan_bind].
  - rewrite encode_items_nil_app, skip_ws_newline_indent. reflexivity.
  - inversion Vxs as [|? ? Vy Vys]; subst.
    inversion Wxs as [|? ? Wy Wys]; subst.
    rewrite encode_items_cons_app.
    change (skip_ws (String "," ?s)) with (String "," s).
    cbv beta iota. change ("," =? "]")%char with false.
    change ("," =? ",")%char with true. cbv iota.
    rewrite skip_ws_newline_indent.
    rewrite (skip_ws_starts_value _ (iterencode_starts_value _ _ _)).
    rewrite (IH y rest fuel Hy Vy Vys Wy Wys) by (cbn [cost_items] in Hfuel; lia).
    reflexivity.
Qed.

Lemma encode_fields_nil_app (level : nat) (rest : string) :
  encode_fields level [] ++ rest = newline_indent level ++ String "}" rest.
Proof. cbn [encode_fields]. now rewrite append_assoc. Qed.

Lemma encode_fields_cons_app
  (level : nat) (k : string) (y : json) (ys : list (string * json)) (rest : string) :
  encode_fields level ((k, y) :: ys) ++ rest
  = String "," (newline_indent (S level) ++
                String dquote (encode_pair level k y (encode_fields level ys ++ rest))).
Proof.
  cbn [encode_fields]. unfold encode_pair, encode_basestring_ascii, dq.
  rewrite !append_assoc. cbn [append]. rewrite ?append_assoc. reflexivity.
Qed.

Lemma object_pairs_encoded (level depth : nat) (kvs : list (string * json)) :
  Forall (fun kv => reads_back (snd kv)) kvs ->
  forall (k : string) (x : json) (rest : string) (fuel : nat),
    reads_back x -> py_value x -> Forall (fun kv => py_value (snd kv)) kvs ->
    within depth x -> Forall (fun kv => within depth (snd kv)) kvs ->
    S (cost x + cost_fields kvs) <= fuel ->
    object_pairs fuel depth (encode_pair level k x (encode_fields level kvs ++ rest))
    = Scanned ((k, x) :: kvs) rest true.
Proof.
  induction 1 as [|[k' y] ys Hy Hys IH]; intros k x rest fuel Hx Vx Vxs Wx Wxs Hfuel;
    (destruct fuel as [|fuel]; [lia|]); cbn [object_pairs]; unfold encode_pair;
    rewrite scanstring_escape; cbn [scan_bind];
    change (skip_ws (String ":" ?s)) with (String ":" s);
    cbv beta iota; change (":" =? ":")%char with true; cbv iota;
    change (skip_ws (String " " ?s)) with (skip_ws s);
    rewrite (skip_ws_starts_value _ (iterencode_starts_value _ _ _));
    rewrite (Hx (S level) _ fuel depth Vx Wx (ends_token_fields _ _ _))
      by (cbn [cost_fields] in Hfuel; lia);
    cbn [scan_bind].
  - rewrite encode_fields_nil_app, skip_ws_newline_indent. reflexivity.
  - inversion Vxs as [|? ? Vy Vys]; subst. simpl in Vy, Hy.
    inversion Wxs as [|? ? Wy Wys]; subst. simpl in Wy.
    rewrite encode_fields_cons_app.
    change (skip_ws (String "," ?s)) with (String "," s).
    cbv beta iota. change ("," =? "}")%char with false.
    change ("," =? ",")%char with true. cbv iota.
    rewrite skip_ws_newline_indent.
    change (skip_ws (String dquote ?s)) with (String dquote s).
    cbv beta iota. rewrite Ascii.eqb_refl.
    rewrite (IH k' y rest fuel Hy Vy Vys Wy Wys) by (cbn [cost_fields snd] in Hfuel; lia).
    reflexivity.
Qed.

(** Every value that Python can hold, and that is within the limits of
    the decoder, is read back from its encoding. *)
Theorem scan_once_iterencode (v : json) : reads_back v.
Proof.
  induction v as [| b | z | s | items IH | fields IH] using json_nested_ind;
    intros level rest fuel depth Hv Hw Hrest Hfuel;
    (destruct fuel as [|fuel]; [simpl in Hfuel; lia|]).
  - reflexivity.
  - destruct b; reflexivity.
  - cbn [iterencode]. rewrite scan_once_int_repr. now apply scan_number_int_repr.
  - cbn [iterencode]. unfold encode_basestring_ascii, dq.
    rewrite !append_assoc. cbn [append scan_once].
    rewrite Ascii.eqb_refl. rewrite scanstring_escape. reflexivity.
  - destruct depth as [|depth]; [destruct Hw|].
    destruct items as [|x xs]; [reflexivity|].
    rewrite iterencode_array. cbn [append scan_once].
    change ("[" =? dquote)%char with false. change ("[" =? "{")%char with false.
    change ("[" =? "[")%char with true. cbv iota.
    rewrite !append_assoc, skip_ws_newline_indent.
    rewrite (skip_ws_starts_value _ (iterencode_starts_value _ _ _)).
    pose proof (iterencode_starts_value (S level) x (encode_items level xs ++ rest)) as Hs.
    destruct (iterencode (S level) x ++ encode_items level xs ++ rest)
      as [|c r] eqn:E; [contradiction|].
    destruct Hs as [_ ->]. rewrite <- E.
    apply py_value_array in Hv. inversion Hv as [|? ? Vx Vxs]; subst.
    apply within_array in Hw. inversion Hw as [|? ? Wx Wxs]; subst.
    inversion IH as [|? ? Hx Hxs]; subst.
    rewrite cost_array in Hfuel. cbn [cost_items] in Hfuel.
    rewrite (array_items_encoded level depth xs Hxs x rest fuel Hx Vx Vxs Wx Wxs) by lia.
    reflexivity.
  - destruct depth as [|depth]; [destruct Hw|].
    destruct fields as [|[k x] kvs]; [reflexivity|].
    rewrite iterencode_object. cbn [append scan_once].
    change ("{" =? dquote)%char with false. change ("{" =? "{")%char with true.
    cbv iota.
    unfold encode_basestring_ascii, dq.
    rewrite !append_assoc, skip_ws_newline_indent. cbn [append].
    change (skip_ws (String dquote ?s)) with (String dquote s).
    cbv beta iota. change (dquote =? "}")%char with false.
    rewrite Ascii.eqb_refl. cbv iota.
    apply py_value_object in Hv. destruct Hv as [Hkeys Hv].
    inversion Hv as [|? ? Vx Vxs]; subst.
    apply within_object in Hw. inversion Hw as [|? ? Wx Wxs]; subst.
    inversion IH as [|? ? Hx Hxs]; subst. simpl in Vx, Hx, Wx.
    rewrite cost_object in Hfuel. cbn [cost_fields snd] in Hfuel.
    rewrite ?append_assoc. cbn [append].
    change (escape k ++ String dquote (String ":" (String " "
              (iterencode (S level) x ++ encode_fields level kvs ++ rest))))
      with (encode_pair level k x (encode_fields level kvs ++ rest)).
    rewrite (object_pairs_encoded level depth kvs Hxs k x rest fuel Hx Vx Vxs Wx Wxs)
      by lia.
    cbn [scan_map scan_bind]. now rewrite (of_pairs_distinct _ Hkeys).
Qed.

(** *** The budget of [json_loads] covers every encoded value *)

Lemma length_iterencode_pos (level : nat) (v : json) :
  1 <= String.length (iterencode level v).
Proof.
  pose proof (iterencode_starts_value level v "") as H.
  rewrite append_nil_r in H.
  destruct (iterencode level v); simpl in *; [contradiction | lia].
Qed.

Lemma cost_items_length (level : nat) (xs : list json) :
  Forall (fun x => forall level, cost x <= String.length (iterencode level x)) xs ->
  cost_items xs < String.length (encode_items level xs).
Proof.
  induction 1 as [|y ys Hy Hys IH]; cbn [cost_items encode_items].
  - rewrite length_append. simpl. lia.
  - rewrite !length_append. specialize (Hy (S level)). simpl String.length. lia.
Qed.

Lemma cost_fields_length (level : nat) (kvs : list (string * json)) :
  Forall (fun kv => forall level, cost (snd kv) <= String.length (iterencode level (snd kv))) kvs ->
  cost_fields kvs < String.length (encode_fields level kvs).
Proof.
  induction 1 as [|[k y] ys Hy Hys IH]; cbn [cost_fields encode_fields].
  - rewrite length_append. simpl. lia.
  - rewrite !length_append. specialize (Hy (S level)). simpl in *. lia.
Qed.

Lemma cost_le_length (v : json) :
  forall level, cost v <= String.length (iterencode level v).
Proof.
  induction v as [| b | z | s | items IH | fields IH] using json_nested_ind;
    intros level; try apply length_iterencode_pos.
  - destruct items as [|x xs]; [simpl; lia|].
    rewrite iterencode_array, cost_array. cbn [cost_items].
    inversion IH as [|? ? Hx Hxs]; subst.
    pose proof (cost_items_length level xs Hxs). specialize (Hx (S level)).
    rewrite !length_append. simpl String.length. lia.
  - destruct fields as [|[k x] kvs]; [simpl; lia|].
    rewrite iterencode_object, cost_object. cbn [cost_fields snd].
    inversion IH as [|? ? Hx Hxs]; subst. simpl in Hx.
    pose proof (cost_fields_length level kvs Hxs). specialize (Hx (S level)).
    rewrite !length_append. simpl String.length. lia.
Qed.

(** [json.loads(json.dumps(v)) == v] for every value that Python can
    hold and that is within the limits of the decoder. *)
Theorem json_loads_dumps (v : json) :
  py_value v -> within nesting_limit v -> json_loads (json_dumps v) = Value v.
Proof.
  intros Hv Hw. unfold json_loads, json_dumps.
  pose proof (iterencode_starts_value 0 v "") as Hs.
  rewrite append_nil_r in Hs.
  rewrite (skip_ws_starts_value _ Hs).
  pose proof (scan_once_iterencode v 0 ""
                (2 * String.length (Encoder.iterencode 0 v) + 2) nesting_limit
                Hv Hw eq_refl) as H.
  rewrite append_nil_r in H. rewrite H; [reflexivity|].
  pose proof (cost_le_length v 0). lia.
Qed.

(** ** The decoder returns values that Python can hold *)

Lemma scan_bind_scanned {A B} (r : scan A) (k : A -> string -> scan B) b rest e :
  scan_bind r k = Scanned b rest e ->
  exists a r1 e1 e2, r = Scanned a r1 e1 /\ k a r1 = Scanned b rest e2.
Proof.
  destruct r as [a r1 e1| |]; simpl; intros H; try discriminate.
  destruct (k a r1) as [b' rest' e2| |] eqn:E; try discriminate.
  injection H as <- <- _. now exists a, r1, e1, e2.
Qed.

Lemma scan_map_scanned {A B} (f : A -> B) (r : scan A) b rest e :
  scan_map f r = Scanned b rest e ->
  exists a, r = Scanned a rest e /\ b = f a.
Proof.
  destruct r as [a r1 e1| |]; simpl; intros H; try discriminate.
  injection H as <- <- <-. now exists a.
Qed.

Lemma scan_cons_scanned (c : ascii) (e0 : bool) (r : scan string) s rest e :
  scan_cons c e0 r = Scanned s rest e ->
  exists s' e', r = Scanned s' rest e'.
Proof.
  destruct r as [s' r1 e1| |]; simpl; intros H; try discriminate.
  injection H as _ <- _. now exists s', e1.
Qed.

(** [d[k] = v] keeps the keys distinct and the values in shape. *)
Lemma set_keys (k : string) (v : json) (d : Dict.t) :
  map fst (Dict.set k v d)
  = if existsb (String.eqb k) (map fst d) then map fst d else (map fst d ++ [k])%list.
Proof.
  induction d as [|[k' v'] d IH]; simpl; [reflexivity|].
  destruct (String.eqb_spec k k') as [->|Hne]; simpl; [reflexivity|].
  rewrite IH. now destruct (existsb (String.eqb k) (map fst d)).
Qed.

Lemma set_NoDup (k : string) (v : json) (d : Dict.t) :
  NoDup (map fst d) -> NoDup (map fst (Dict.set k v d)).
Proof.
  intros H. rewrite set_keys.
  destruct (existsb (String.eqb k) (map fst d)) eqn:E; [exact H|].
  apply NoDup_app. split; [exact H|]. split; [|apply NoDup_singleton].
  intros x Hx Hk. apply list_elem_of_singleton in Hk. subst x.
  assert (existsb (String.eqb k) (map fst d) = true); [|congruence].
  apply existsb_exists. exists k. split; [now apply list_elem_of_In | apply String.eqb_refl].
Qed.

Lemma set_Forall (P : json -> Prop) (k : string) (v : json) (d : Dict.t) :
  P v -> Forall (fun kv => P (snd kv)) d ->
  Forall (fun kv => P (snd kv)) (Dict.set k v d).
Proof.
  intros Hv. induction 1 as [|[k' v'] d Hx Hd IH]; simpl.
  - constructor; [exact Hv | constructor].
  - destruct (String.eqb k k'); constructor; assumption.
Qed.

Lemma of_pairs_py_value (ps : list (string * json)) :
  Forall (fun kv => py_value (snd kv)) ps -> py_value (JObj (Dict.of_pairs ps)).
Proof.
  intros H. apply py_value_object. unfold Dict.of_pairs.
  assert (G : forall acc,
             NoDup (map fst acc) /\ Forall (fun kv => py_value (snd kv)) acc ->
             let d := fold_left (fun d kv => Dict.set (fst kv) (snd kv) d) ps acc in
             NoDup (map fst d) /\ Forall (fun kv => py_value (snd kv)) d).
  { induction H as [|[k v] ps Hv Hps IH]; intros acc [Hk Hf]; simpl; [now split|].
    apply IH. split; [now apply set_NoDup | now apply set_Forall]. }
  apply G. split; constructor.
Qed.

Lemma of_pairs_within (depth : nat) (ps : list (string * json)) :
  Forall (fun kv => within depth (snd kv)) ps -> within (S depth) (JObj (Dict.of_pairs ps)).
Proof.
  intros H. apply within_object. unfold Dict.of_pairs.
  assert (G : forall acc,
             Forall (fun kv => within depth (snd kv)) acc ->
             Forall (fun kv => within depth (snd kv))
                    (fold_left (fun d kv => Dict.set (fst kv) (snd kv) d) ps acc)).
  { induction H as [|[k v] ps Hv Hps IH]; intros acc Hf; simpl; [exact Hf|].
    apply IH. now apply set_Forall. }
  apply G. constructor.
Qed.

Lemma sound_array (depth : nat) (vs : list json) :
  Forall (sound depth) vs -> sound (S depth) (JArr vs).
Proof.
  intros H. split.
  - apply py_value_array. eapply Forall_impl; [exact H | intros v Hv; apply Hv].
  - apply within_array. eapply Forall_impl; [exact H | intros v Hv; apply Hv].
Qed.

Lemma sound_object (depth : nat) (ps : list (string * json)) :
  Forall (fun kv => sound depth (snd kv)) ps -> sound (S depth) (JObj (Dict.of_pairs ps)).
Proof.
  intros H. split.
  - apply of_pairs_py_value. eapply Forall_impl; [exact H | intros v Hv; apply Hv].
  - apply of_pairs_within. eapply Forall_impl; [exact H | intros v Hv; apply Hv].
Qed.

(** The digits of a number that was read are those of its numeral, or
    fewer. *)
Lemma decimal_digits_of_int (u : uint) (neg : bool) :
  (N.of_nat (nb_digits u) <= max_str_digits)%N ->
  (decimal_digits (Z.of_int (if neg then Neg u else Pos u)) <= max_str_digits)%N.
Proof.
  intros H. unfold decimal_digits. rewrite DecimalZ.to_of.
  assert (H1 : (N.of_nat (nb_digits (unorm u)) <= max_str_digits)%N).
  { destruct (uint_eq_dec u Nil) as [->|Hne]; [unfold max_str_digits; simpl; lia|].
    pose proof (nb_digits_unorm u Hne). lia. }
  destruct neg; cbn [norm]; [|exact H1].
  pose proof (nb_digits_nzhead u) as H2.
  destruct (nzhead u) eqn:E; cbv iota; try lia.
  unfold max_str_digits. simpl. lia.
Qed.

Lemma scan_number_sound (depth : nat) s v r e :
  scan_number s = Scanned v r e -> sound depth v.
Proof.
  unfold scan_number.
  destruct (match s with
            | "" => (false, s)
            | String c r0 => if (c =? "-")%char then (true, r0) else (false, s)
            end) as [neg digits].
  destruct (scan_int_part digits) as [[u r0]|].
  - destruct (scan_fraction r0) as [r1|];
      [destruct (scan_exponent r1) | destruct (scan_exponent r0)];
      try (intros H; injection H as <- _ _; split; exact I).
    destruct (max_str_digits <? N.of_nat (nb_digits u))%N eqn:Hfit; [discriminate|].
    apply N.ltb_ge in Hfit.
    intros H. injection H as <- _ _. split; [exact I|].
    now apply decimal_digits_of_int.
  - destruct (strip_prefix "NaN" s), (strip_prefix "Infinity" s),
      (strip_prefix "-Infinity" s); intros H; try discriminate;
      injection H as <- _ _; split; exact I.
Qed.

Lemma scans_values_all (fuel : nat) : scans_values fuel.
Proof.
  induction fuel as [|fuel (IHv & IHa & IHo)];
    [repeat split; intros; discriminate|].
  split; [|split].
  - intros depth s v r e. cbn [scan_once]. destruct s as [|c s]; [discriminate|].
    destruct (c =? dquote)%char.
    { intros H. apply scan_map_scanned in H. destruct H as (a & _ & ->). split; exact I. }
    destruct (c =? "{")%char.
    { destruct depth as [|depth]; [discriminate|].
      destruct (skip_ws s) as [|c' r']; [discriminate|].
      destruct (c' =? "}")%char;
        [intros H; injection H as <- _ _; apply (sound_object depth []); constructor|].
      destruct (c' =? dquote)%char; [|discriminate].
      intros H. apply scan_map_scanned in H. destruct H as (ps & H & ->).
      apply sound_object. eapply IHo. exact H. }
    destruct (c =? "[")%char.
    { destruct depth as [|depth]; [discriminate|].
      destruct (skip_ws s) as [|c' r']; [discriminate|].
      destruct (c' =? "]")%char;
        [intros H; injection H as <- _ _; apply sound_array; constructor|].
      intros H. apply scan_map_scanned in H. destruct H as (vs & H & ->).
      apply sound_array. eapply IHa. exact H. }
    destruct (strip_prefix "null" (String c s));
      [intros H; injection H as <- _ _; split; exact I|].
    destruct (strip_prefix "true" (String c s));
      [intros H; injection H as <- _ _; split; exact I|].
    destruct (strip_prefix "false" (String c s));
      [intros H; injection H as <- _ _; split; exact I|].
    apply scan_number_sound.
  - intros depth s vs r e. cbn [array_items]. intros H.
    apply scan_bind_scanned in H. destruct H as (v & r1 & e1 & e2 & Hv & H).
    destruct (skip_ws r1) as [|c r']; [discriminate|].
    destruct (c =? "]")%char.
    { injection H as <- _ _. constructor; [eapply IHv; exact Hv | constructor]. }
    destruct (c =? ",")%char; [|discriminate].
    apply scan_map_scanned in H. destruct H as (vs' & H & ->).
    constructor; [eapply IHv; exact Hv | eapply IHa; exact H].
  - intros depth s ps r e. cbn [object_pairs]. intros H.
    apply scan_bind_scanned in H. destruct H as (k & r1 & e1 & e2 & Hk & H).
    destruct (skip_ws r1) as [|c r2]; [discriminate|].
    destruct (c =? ":")%char; [|discriminate].
    apply scan_bind_scanned in H. destruct H as (v & r3 & e3 & e4 & Hv & H).
    destruct (skip_ws r3) as [|c' r4]; [discriminate|].
    destruct (c' =? "}")%char.
    { injection H as <- _ _. constructor; [eapply IHv; exact Hv | constructor]. }
    destruct (c' =? ",")%char; [|discriminate].
    destruct (skip_ws r4) as [|q r5]; [discriminate|].
    destruct (q =? dquote)%char; [|discriminate].
    apply scan_map_scanned in H. destruct H as (ps' & H & ->).
    constructor; [eapply IHv; exact Hv | eapply IHo; exact H].
Qed.

(** Whatever [json.loads] returns has dictionaries with distinct keys
    and is within the limits of the decoder. *)
Theorem json_loads_py_value (text : string) (v : json) :
  json_loads text = Value v -> py_value v /\ within nesting_limit v.
Proof.
  unfold json_loads.
  destruct (Decoder.scan_once _ _ _) as [v' r exact|[]|] eqn:E; try discriminate.
  destruct (Decoder.skip_ws r); [|discriminate].
  destruct exact; [|discriminate].
  intros H. injection H as <-.
  eapply (proj1 (scans_values_all _)). exact E.
Qed.

(** ** The decoder never uses up its budget *)

Lemma skip_ws_length (s : string) : len (skip_ws s) <= len s.
Proof.
  induction s as [|c s IH]; simpl; [lia|].
  destruct (is_ws c); simpl; lia.
Qed.

Lemma strip_prefix_length (p s r : string) :
  strip_prefix p s = Some r -> len s = len p + len r.
Proof.
  revert s. induction p as [|a p IH]; intros [|b s]; simpl; try discriminate.
  - intros H. now injection H as <-.
  - intros H. now injection H as <-.
  - destruct (a =? b)%char; [|discriminate]. intros H. apply IH in H. lia.
Qed.

Lemma scanstring_length_upto (n : nat) :
  forall s k r e, len s <= n -> scanstring s = Scanned k r e -> len r < len s.
Proof.
  induction n as [|n IH]; intros s k r e Hn.
  - destruct s; [discriminate | simpl in Hn; lia].
  - destruct s as [|c s]; [discriminate|]. cbn [scanstring]. simpl in Hn.
    destruct (c =? dquote)%char; [intros H; injection H as _ <- _; simpl; lia|].
    destruct (c =? backslash)%char.
    + destruct s as [|esc s]; [discriminate|]. simpl in Hn.
      destruct (short_escape esc).
      { intros H. apply scan_cons_scanned in H. destruct H as (k0 & e0 & H).
        apply IH in H; simpl; lia. }
      destruct (esc =? "u")%char; [|discriminate].
      destruct s as [|h1 [|h2 [|h3 [|h4 s]]]]; try discriminate. simpl in Hn.
      destruct (hex4 h1 h2 h3 h4) as [m|]; [|discriminate].
      destruct (unicode_escape m) as [ch exact].
      intros H. apply scan_cons_scanned in H. destruct H as (k0 & e0 & H).
      apply IH in H; simpl; lia.
    + destruct (code c <? 32)%N; [discriminate|].
      intros H. apply scan_cons_scanned in H. destruct H as (k0 & e0 & H).
      apply IH in H; simpl; lia.
Qed.

Lemma scanstring_length (s k r : string) (e : bool) :
  scanstring s = Scanned k r e -> len r < len s.
Proof. apply (scanstring_length_upto (len s)). lia. Qed.

Lemma scan_digits_length (s : string) : len (snd (scan_digits s)) <= len s.
Proof.
  induction s as [|c s IH]; simpl; [lia|].
  destruct (digit_ctor c); simpl; [|lia].
  destruct (scan_digits s); simpl in *; lia.
Qed.

Lemma scan_int_part_length (s : string) (u : uint) (r : string) :
  scan_int_part s = Some (u, r) -> len r < len s.
Proof.
  destruct s as [|c s]; [discriminate|]. unfold scan_int_part.
  destruct (c =? "0")%char; [intros H; injection H as _ <-; simpl; lia|].
  unfold is_digit. cbn [scan_digits].
  destruct (digit_ctor c); [|discriminate].
  pose proof (scan_digits_length s) as Hlen. destruct (scan_digits s) as [u' r'].
  intros H. injection H as _ <-. simpl in *. lia.
Qed.

Lemma scan_digits1_length (s r : string) :
  scan_digits1 s = Some r -> len r <= len s.
Proof.
  unfold scan_digits1. destruct s as [|d s]; [discriminate|].
  destruct (is_digit d); [|discriminate].
  intros H. injection H as <-. exact (scan_digits_length (String d s)).
Qed.

Lemma scan_fraction_length (s r : string) :
  scan_fraction s = Some r -> len r <= len s.
Proof.
  unfold scan_fraction. destruct s as [|c s]; [discriminate|].
  destruct (c =? ".")%char; [|discriminate].
  intros H. apply scan_digits1_length in H. simpl. lia.
Qed.

Lemma scan_exponent_length (s r : string) :
  scan_exponent s = Some r -> len r <= len s.
Proof.
  unfold scan_exponent. destruct s as [|c s]; [discriminate|].
  destruct ((c =? "e") || (c =? "E"))%char; [|discriminate].
  destruct s as [|sign s]; [discriminate|].
  destruct ((sign =? "+") || (sign =? "-"))%char;
    intros H; apply scan_digits1_length in H; simpl in *; lia.
Qed.

Lemma scan_number_length (s : string) (v : json) (r : string) (e : bool) :
  scan_number s = Scanned v r e -> len r < len s.
Proof.
  unfold scan_number.
  assert (Hd : forall neg digits,
             match s with
             | "" => (false, s)
             | String c r0 => if (c =? "-")%char then (true, r0) else (false, s)
             end = (neg, digits) -> len digits <= len s).
  { intros neg digits. destruct s as [|c s]; [intros H; injection H as _ <-; lia|].
    destruct (c =? "-")%char; intros H; injection H as _ <-; simpl; lia. }
  destruct (match s with
            | "" => (false, s)
            | String c r0 => if (c =? "-")%char then (true, r0) else (false, s)
            end) as [neg digits].
  specialize (Hd neg digits eq_refl).
  destruct (scan_int_part digits) as [[u r0]|] eqn:E.
  - apply scan_int_part_length in E.
    destruct (scan_fraction r0) as [r1|] eqn:Ef.
    + apply scan_fraction_length in Ef.
      destruct (scan_exponent r1) as [r2|] eqn:Ee;
        [apply scan_exponent_length in Ee|];
        intros H; injection H as _ <- _; lia.
    + destruct (scan_exponent r0) as [r2|] eqn:Ee;
        [apply scan_exponent_length in Ee
        |destruct (max_str_digits <? N.of_nat (nb_digits u))%N; [discriminate|]];
        intros H; injection H as _ <- _; lia.
  - destruct (strip_prefix "NaN" s) eqn:E1;
      [apply strip_prefix_length in E1; intros H; injection H as _ <- _; simpl in E1; lia|].
    destruct (strip_prefix "Infinity" s) eqn:E2;
      [apply strip_prefix_length in E2; intros H; injection H as _ <- _; simpl in E2; lia|].
    destruct (strip_prefix "-Infinity" s) eqn:E3;
      [apply strip_prefix_length in E3; intros H; injection H as _ <- _; simpl in E3; lia|].
    discriminate.
Qed.

Lemma scan_number_not_exhausted (s : string) : scan_number s <> Exhausted.
Proof.
  unfold scan_number.
  destruct (match s with
            | "" => (false, s)
            | String c r0 => if (c =? "-")%char then (true, r0) else (false, s)
            end) as [neg digits].
  destruct (scan_int_part digits) as [[u r0]|].
  - destruct (scan_fraction r0) as [r1|];
      [destruct (scan_exponent r1) | destruct (scan_exponent r0)]; try discriminate.
    destruct (max_str_digits <? N.of_nat (nb_digits u))%N; discriminate.
  - destruct (strip_prefix "NaN" s), (strip_prefix "Infinity" s),
      (strip_prefix "-Infinity" s); discriminate.
Qed.

Lemma scanstring_not_exhausted_upto (n : nat) :
  forall s, len s <= n -> scanstring s <> Exhausted.
Proof.
  assert (Hcons : forall c e r, r <> Exhausted -> scan_cons c e r <> Exhausted)
    by (intros c e [] H; simpl; congruence).
  induction n as [|n IH]; intros s Hn.
  - destruct s; [discriminate | simpl in Hn; lia].
  - destruct s as [|c s]; [discriminate|]. cbn [scanstring]. simpl in Hn.
    destruct (c =? dquote)%char; [discriminate|].
    destruct (c =? backslash)%char.
    + destruct s as [|esc s]; [discriminate|]. simpl in Hn.
      destruct (short_escape esc); [apply Hcons, IH; lia|].
      destruct (esc =? "u")%char; [|discriminate].
      destruct s as [|h1 [|h2 [|h3 [|h4 s]]]]; try discriminate. simpl in Hn.
      destruct (hex4 h1 h2 h3 h4) as [m|]; [|discriminate].
      destruct (unicode_escape m) as [ch exact].
      apply Hcons, IH; lia.
    + destruct (code c <? 32)%N; [discriminate|]. apply Hcons, IH; lia.
Qed.

Lemma scanstring_not_exhausted (s : string) : scanstring s <> Exhausted.
Proof. apply (scanstring_not_exhausted_upto (len s)). lia. Qed.

Lemma within_budget_all (fuel : nat) : within_budget fuel.
Proof.
  induction fuel as [|fuel (IHv & IHa & IHo)].
  { repeat split; intros; try discriminate; lia. }
  repeat split.
  - (* scan_once never stops short *)
    cbn [scan_once]. destruct s as [|c s]; [discriminate|]. simpl in H.
    pose proof (skip_ws_length s) as Hws.
    destruct (c =? dquote)%char.
    { pose proof (scanstring_not_exhausted s). destruct (scanstring s); simpl; congruence. }
    destruct (c =? "{")%char.
    { destruct depth as [|depth]; [discriminate|].
      destruct (skip_ws s) as [|c' r'] eqn:E; [discriminate|]. simpl in Hws.
      destruct (c' =? "}")%char; [discriminate|].
      destruct (c' =? dquote)%char; [|discriminate].
      destruct (IHo depth r') as [Hne _]; [lia|].
      destruct (object_pairs fuel depth r'); simpl; congruence. }
    destruct (c =? "[")%char.
    { destruct depth as [|depth]; [discriminate|].
      destruct (skip_ws s) as [|c' r'] eqn:E; [discriminate|]. simpl in Hws.
      destruct (c' =? "]")%char; [discriminate|].
      destruct (IHa depth (String c' r')) as [Hne _]; [simpl; lia|].
      destruct (array_items fuel depth (String c' r')); simpl; congruence. }
    destruct (strip_prefix "null" (String c s)); [discriminate|].
    destruct (strip_prefix "true" (String c s)); [discriminate|].
    destruct (strip_prefix "false" (String c s)); [discriminate|].
    apply scan_number_not_exhausted.
  - (* what scan_once leaves is shorter *)
    intros v r e. cbn [scan_once]. destruct s as [|c s]; [discriminate|]. simpl in H.
    pose proof (skip_ws_length s) as Hws.
    destruct (c =? dquote)%char.
    { intros G. apply scan_map_scanned in G. destruct G as (k & G & _).
      apply scanstring_length in G. simpl. lia. }
    destruct (c =? "{")%char.
    { destruct depth as [|depth]; [discriminate|].
      destruct (skip_ws s) as [|c' r'] eqn:E; [discriminate|]. simpl in Hws.
      destruct (c' =? "}")%char; [intros G; injection G as _ <- _; simpl; lia|].
      destruct (c' =? dquote)%char; [|discriminate].
      intros G. apply scan_map_scanned in G. destruct G as (ps & G & _).
      destruct (IHo depth r') as [_ Hlen]; [lia|]. apply Hlen in G. simpl. lia. }
    destruct (c =? "[")%char.
    { destruct depth as [|depth]; [discriminate|].
      destruct (skip_ws s) as [|c' r'] eqn:E; [discriminate|]. simpl in Hws.
      destruct (c' =? "]")%char; [intros G; injection G as _ <- _; simpl; lia|].
      intros G. apply scan_map_scanned in G. destruct G as (vs & G & _).
      destruct (IHa depth (String c' r')) as [_ Hlen]; [simpl; lia|].
      apply Hlen in G. simpl in *. lia. }
    destruct (strip_prefix "null" (String c s)) eqn:E1;
      [intros G; injection G as _ <- _; apply strip_prefix_length in E1; simpl in *; lia|].
    destruct (strip_prefix "true" (String c s)) eqn:E2;
      [intros G; injection G as _ <- _; apply strip_prefix_length in E2; simpl in *; lia|].
    destruct (strip_prefix "false" (String c s)) eqn:E3;
      [intros G; injection G as _ <- _; apply strip_prefix_length in E3; simpl in *; lia|].
    apply scan_number_length.
  - (* array_items never stops short *)
    cbn [array_items]. destruct (IHv depth s) as [Hne Hlen]; [lia|].
    destruct (scan_once fuel depth s) as [v r1 e1| |] eqn:E; simpl; try congruence.
    specialize (Hlen v r1 e1 eq_refl).
    pose proof (skip_ws_length r1) as Hws.
    destruct (skip_ws r1) as [|c r'] eqn:E'; [discriminate|]. simpl in Hws.
    destruct (c =? "]")%char; [discriminate|].
    destruct (c =? ",")%char; [|discriminate].
    pose proof (skip_ws_length r') as Hws'.
    destruct (IHa depth (skip_ws r')) as [Hne' _]; [lia|].
    destruct (array_items fuel depth (skip_ws r')); simpl; congruence.
  - (* what array_items leaves is shorter *)
    intros vs r e. cbn [array_items]. destruct (IHv depth s) as [_ Hlen]; [lia|].
    intros G. apply scan_bind_scanned in G. destruct G as (v & r1 & e1 & e2 & Hv & G).
    apply Hlen in Hv.
    pose proof (skip_ws_length r1) as Hws.
    destruct (skip_ws r1) as [|c r'] eqn:E'; [discriminate|]. simpl in Hws.
    destruct (c =? "]")%char; [injection G as _ <- _; lia|].
    destruct (c =? ",")%char; [|discriminate].
    pose proof (skip_ws_length r') as Hws'.
    apply scan_map_scanned in G. destruct G as (vs' & G & _).
    destruct (IHa depth (skip_ws r')) as [_ Hlen']; [lia|]. apply Hlen' in G. lia.
  - (* object_pairs never stops short *)
    cbn [object_pairs]. pose proof (scanstring_not_exhausted s) as Hs.
    destruct (scanstring s) as [k r e1| |] eqn:E; simpl; try congruence.
    apply scanstring_length in E.
    pose proof (skip_ws_length r) as Hws.
    destruct (skip_ws r) as [|c r1] eqn:E1; [discriminate|]. simpl in Hws.
    destruct (c =? ":")%char; [|discriminate].
    pose proof (skip_ws_length r1) as Hws1.
    destruct (IHv depth (skip_ws r1)) as [Hne Hlen]; [lia|].
    destruct (scan_once fuel depth (skip_ws r1)) as [v r2 e2| |] eqn:E2; simpl; try congruence.
    specialize (Hlen v r2 e2 eq_refl).
    pose proof (skip_ws_length r2) as Hws2.
    destruct (skip_ws r2) as [|c' r3] eqn:E3; [discriminate|]. simpl in Hws2.
    destruct (c' =? "}")%char; [discriminate|].
    destruct (c' =? ",")%char; [|discriminate].
    pose proof (skip_ws_length r3) as Hws3.
    destruct (skip_ws r3) as [|q r4] eqn:E4; [discriminate|]. simpl in Hws3.
    destruct (q =? dquote)%char; [|discriminate].
    destruct (IHo depth r4) as [Hne' _]; [lia|].
    destruct (object_pairs fuel depth r4); simpl; congruence.
  - (* what object_pairs leaves is shorter *)
    intros ps r0 e. cbn [object_pairs].
    intros G. apply scan_bind_scanned in G. destruct G as (k & r & e1 & e2 & E & G).
    apply scanstring_length in E.
    pose proof (skip_ws_length r) as Hws.
    destruct (skip_ws r) as [|c r1] eqn:E1; [discriminate|]. simpl in Hws.
    destruct (c =? ":")%char; [|discriminate].
    pose proof (skip_ws_length r1) as Hws1.
    destruct (IHv depth (skip_ws r1)) as [_ Hlen]; [lia|].
    apply scan_bind_scanned in G. destruct G as (v & r2 & e3 & e4 & E2 & G).
    apply Hlen in E2.
    pose proof (skip_ws_length r2) as Hws2.
    destruct (skip_ws r2) as [|c' r3] eqn:E3; [discriminate|]. simpl in Hws2.
    destruct (c' =? "}")%char; [injection G as _ <- _; lia|].
    destruct (c' =? ",")%char; [|discriminate].
    pose proof (skip_ws_length r3) as Hws3.
    destruct (skip_ws r3) as [|q r4] eqn:E4; [discriminate|]. simpl in Hws3.
    destruct (q =? dquote)%char; [|discriminate].
    apply scan_map_scanned in G. destruct G as (ps' & G & _).
    destruct (IHo depth r4) as [_ Hlen']; [lia|]. apply Hlen' in G. lia.
Qed.

(** [json_loads] answers [NotModelled] only for a document outside the
    model, never for lack of budget. *)
Theorem json_loads_budget (text : string) :
  Decoder.scan_once (2 * String.length text + 2) Decoder.nesting_limit
                    (Decoder.skip_ws text)
  <> Decoder.Exhausted.
Proof.
  pose proof (skip_ws_length text).
  apply (proj1 (within_budget_all _)). lia.
Qed.

(** ** Running the program *)

(** *** Loading, saving and printing *)

Lemma bind_returned {A B} (c : M A) (k : A -> M B) (w w' : world) (a : A) :
  c w = (Returned a, w') -> bind c k w = k a w'.
Proof. intros H. unfold bind. now rewrite H. Qed.

Lemma load_tasks_eq (w : world) :
  load_tasks w = (stored (tasks_json w), loaded w).
Proof.
  unfold stored, result, load_tasks, loaded, log, boot. destruct w as [file we out lg]. simpl.
  destruct file as [text|]; simpl; [|reflexivity].
  rewrite <- List.app_assoc. simpl.
  destruct (json_loads text) as [[]| | | |[]]; reflexivity.
Qed.

Lemma load_tasks_returned (w : world) (tasks : list json) :
  stored (tasks_json w) = Returned tasks -> load_tasks w = (Returned tasks, loaded w).
Proof. intros H. rewrite load_tasks_eq. now rewrite H. Qed.

(** The one exception that leaves [load_tasks] is the [ValueError] of
    an integer with too many digits: [json.JSONDecodeError] is caught. *)
Lemma load_tasks_raises_value_error (w : world) (e : exn) :
  result load_tasks w = Raised e -> e = ValueError.
Proof.
  unfold result, load_tasks. destruct (tasks_json w) as [text|]; simpl; [|discriminate].
  destruct (json_loads text) as [[]| | | |[]]; try discriminate.
  intros H. now injection H as <-.
Qed.

Lemma storable_list (tasks : list json) :
  Forall storable tasks <-> py_value (JArr tasks) /\ within nesting_limit (JArr tasks).
Proof.
  change nesting_limit with (S (pred nesting_limit)).
  rewrite py_value_array, within_array. unfold storable. split.
  - intros H. split; (eapply Forall_impl; [exact H | intros v Hv; apply Hv]).
  - intros [H1 H2]. apply Forall_forall. intros v Hv. split.
    + exact (proj1 (Forall_forall _ _) H1 v Hv).
    + exact (proj1 (Forall_forall _ _) H2 v Hv).
Qed.

Lemma stored_storable (file : option string) (tasks : list json) :
  stored file = Returned tasks -> Forall storable tasks.
Proof.
  unfold stored, result, load_tasks. simpl. destruct file as [text|]; simpl.
  - destruct (json_loads text) as [v| | | |[]] eqn:E; try discriminate.
    + apply json_loads_py_value in E.
      destruct v; intros H; injection H as <-; try constructor.
      now apply storable_list.
    + intros H. injection H as <-. constructor.
    + intros H. injection H as <-. constructor.
  - intros H. injection H as <-. constructor.
Qed.

Lemma stored_dumps (tasks : list json) :
  Forall storable tasks -> stored (Some (json_dumps (JArr tasks))) = Returned tasks.
Proof.
  intros H. apply storable_list in H. destruct H as [H1 H2].
  unfold stored, result, load_tasks. simpl.
  now rewrite (json_loads_dumps _ H1 H2).
Qed.

Lemma stored_saved (tasks : list json) (w : world) :
  Forall storable tasks -> stored (tasks_json (saved tasks w)) = Returned tasks.
Proof. intros H. simpl. now apply stored_dumps. Qed.

Lemma save_tasks_any (tasks : list json) (w : world) :
  save_tasks tasks w = (Returned tt, after_save tasks w).
Proof.
  unfold save_tasks, after_save, saved, log. destruct (write_error w); reflexivity.
Qed.

Lemma after_save_saved (tasks : list json) (w : world) :
  write_error w = None -> after_save tasks w = saved tasks w.
Proof. intros H. unfold after_save. now rewrite H. Qed.

Lemma save_tasks_eq (tasks : list json) (w : world) :
  write_error w = None -> save_tasks tasks w = (Returned tt, saved tasks w).
Proof. intros H. unfold save_tasks, saved, log. rewrite H. reflexivity. Qed.

Lemma print_eq (line : string) (w : world) :
  print line w = (Returned tt, printed [line] w).
Proof. reflexivity. Qed.

Lemma printed_app (a b : list string) (w : world) :
  printed b (printed a w) = printed (a ++ b) w.
Proof. unfold printed. simpl. now rewrite <- List.app_assoc. Qed.

Lemma printed_nil (w : world) : printed [] w = w.
Proof. unfold printed. rewrite app_nil_r. now destruct w. Qed.

Lemma read_events_length (file : option string) : (1 <= length (read_events file))%nat.
Proof. destruct file; simpl; lia. Qed.

Lemma after_save_log (tasks : list json) (w : world) :
  (length (io_log w) < length (io_log (after_save tasks w)))%nat.
Proof.
  unfold after_save, saved, printed, log.
  destruct (write_error w); simpl; rewrite length_app; simpl; lia.
Qed.

(** *** [add_task] *)

Lemma add_task_any (description : string) (w : world) (tasks : list json) :
  description <> "" ->
  stored (tasks_json w) = Returned tasks ->
  add_task description w
  = (Returned tt,
     printed ["Task added: " ++ PyStr.dq ++ description ++ PyStr.dq]
             (after_save (tasks ++ [task description "pending"]) (loaded w))).
Proof.
  intros Hd Hload. unfold add_task.
  destruct (String.eqb_spec description "") as [E|_]; [contradiction|].
  rewrite (bind_returned _ _ _ _ _ (load_tasks_returned w tasks Hload)).
  rewrite (bind_returned _ _ _ _ _ (save_tasks_any _ (loaded w))).
  reflexivity.
Qed.

Lemma add_task_eq (description : string) (w : world) (tasks : list json) :
  description <> "" ->
  stored (tasks_json w) = Returned tasks ->
  write_error w = None ->
  add_task description w
  = (Returned tt,
     printed ["Task added: " ++ PyStr.dq ++ description ++ PyStr.dq]
             (saved (tasks ++ [task description "pending"]) (loaded w))).
Proof.
  intros Hd Hload Hwrite. unfold add_task.
  destruct (String.eqb_spec description "") as [E|_]; [contradiction|].
  rewrite (bind_returned _ _ _ _ _ (load_tasks_returned w tasks Hload)).
  rewrite (bind_returned _ _ _ _ _ (save_tasks_eq _ (loaded w) Hwrite)).
  reflexivity.
Qed.

(** A description that is not empty makes [add_task] read the file. *)
Lemma add_task_reads (description : string) (w : world) :
  description <> "" ->
  (length (io_log w) < length (io_log (run (add_task description) w)))%nat.
Proof.
  intros Hne. unfold run, add_task.
  destruct (String.eqb_spec description "") as [E|_]; [contradiction|].
  unfold bind at 1. rewrite load_tasks_eq.
  pose proof (read_events_length (tasks_json w)) as Hread.
  destruct (stored (tasks_json w)) as [tasks|e|]; cbn [snd];
    try (unfold loaded; simpl; rewrite length_app; lia).
  rewrite (bind_returned _ _ _ _ _ (save_tasks_any _ (loaded w))). rewrite print_eq.
  cbn [snd]. unfold printed. cbn [io_log].
  pose proof (after_save_log (tasks ++ [task description "pending"]) (loaded w)) as Hsave.
  unfold task in Hsave. unfold loaded in Hsave at 1. cbn [io_log] in Hsave.
  rewrite length_app in Hsave. lia.
Qed.

(** *** [list_tasks] *)

Lemma list_body_dict (i : Z) (task : json) (w : world) :
  is_dict task = true ->
  list_body i task w = (Returned tt, printed [task_line i task] w).
Proof.
  destruct task as [| | | | |d]; try discriminate. intros _.
  unfold list_body, task_line, status_icon, shown_description, dict_get, bind, ret.
  destruct (Dict.get "status" d) as [[]|]; destruct (Dict.get "description" d);
    reflexivity.
Qed.

Lemma for_enumerate_dicts (tasks : list json) :
  Forall (fun t => is_dict t = true) tasks ->
  forall (start : Z) (w : world),
    for_enumerate start tasks list_body w
    = (Returned tt, printed (task_lines start tasks) w).
Proof.
  induction 1 as [|t ts Ht Hts IH]; intros start w; cbn [for_enumerate task_lines].
  - unfold ret. now rewrite printed_nil.
  - rewrite (bind_returned _ _ _ _ _ (list_body_dict start t w Ht)).
    rewrite IH, printed_app. reflexivity.
Qed.

Lemma list_tasks_eq (w : world) (tasks : list json) :
  stored (tasks_json w) = Returned tasks ->
  tasks <> [] ->
  Forall (fun t => is_dict t = true) tasks ->
  list_tasks w
  = (Returned tt,
     printed ("--- Your Tasks ---" :: task_lines 1 tasks ++ ["------------------"])
             (loaded w)).
Proof.
  intros Hload Hne Hdict. unfold list_tasks.
  rewrite (bind_returned _ _ _ _ _ (load_tasks_returned w tasks Hload)).
  destruct tasks as [|t ts]; [congruence|].
  rewrite (bind_returned _ _ _ _ _ (print_eq _ _)).
  rewrite (bind_returned _ _ _ _ _ (for_enumerate_dicts (t :: ts) Hdict 1 _)).
  rewrite print_eq, !printed_app. reflexivity.
Qed.

Lemma list_tasks_empty (w : world) :
  stored (tasks_json w) = Returned [] ->
  list_tasks w
  = (Returned tt, printed ["No tasks found. Add one with the 'add' command!"] (loaded w)).
Proof.
  intros Hload. unfold list_tasks.
  now rewrite (bind_returned _ _ _ _ _ (load_tasks_returned w [] Hload)).
Qed.

Lemma task_lines_lookup (tasks : list json) :
  forall (start : Z) (i : nat) (t : json),
    tasks !! i = Some t ->
    task_lines start tasks !! i = Some (task_line (start + Z.of_nat i) t).
Proof.
  induction tasks as [|t0 ts IH]; intros start i t Hi; [discriminate|].
  destruct i as [|i]; simpl in Hi; cbn [task_lines]; simpl lookup.
  - injection Hi as ->. now rewrite Z.add_0_r.
  - rewrite (IH (start + 1)%Z i t Hi). do 2 f_equal. lia.
Qed.

(** *** Dictionaries *)

Lemma get_set_same (k : string) (v : json) (d : Dict.t) :
  Dict.get k (Dict.set k v d) = Some v.
Proof.
  induction d as [|[k' v'] d IH]; simpl.
  - now rewrite String.eqb_refl.
  - destruct (String.eqb_spec k k') as [->|Hne]; simpl.
    + now rewrite String.eqb_refl.
    + destruct (String.eqb_spec k k'); [contradiction | exact IH].
Qed.

Lemma get_set_other (k k' : string) (v : json) (d : Dict.t) :
  k' <> k -> Dict.get k' (Dict.set k v d) = Dict.get k' d.
Proof.
  intros Hne. induction d as [|[k0 v0] d IH]; simpl.
  - destruct (String.eqb_spec k' k); [contradiction | reflexivity].
  - destruct (String.eqb_spec k k0) as [->|Hk]; simpl.
    + destruct (String.eqb_spec k' k0); [contradiction | reflexivity].
    + destruct (String.eqb_spec k' k0); [reflexivity | exact IH].
Qed.

Lemma set_present_keys (k : string) (v v0 : json) (d : Dict.t) :
  Dict.get k d = Some v0 -> map fst (Dict.set k v d) = map fst d.
Proof.
  induction d as [|[k' v'] d IH]; simpl; [discriminate|].
  destruct (String.eqb_spec k k') as [->|Hne]; simpl; [reflexivity|].
  intros H. now rewrite IH.
Qed.

Lemma completed_storable (d : Dict.t) : storable (JObj d) -> storable (completed d).
Proof.
  intros [H W]. split.
  - apply py_value_object in H. destruct H as [Hk Hv].
    apply py_value_object. split.
    + now apply set_NoDup.
    + apply set_Forall; [exact I | exact Hv].
  - change (pred nesting_limit) with (S (pred (pred nesting_limit))) in *.
    apply within_object in W. apply within_object.
    apply set_Forall; [exact I | exact W].
Qed.

Lemma task_storable (description status : string) : storable (task description status).
Proof.
  split.
  - simpl. repeat split. apply NoDup_cons. split.
    + intros H. apply list_elem_of_singleton in H. discriminate.
    + apply NoDup_singleton.
  - simpl. repeat split.
Qed.

(** *** [_update_task] *)

Lemma in_range_test (n : Z) (tasks : list json) :
  (1 <= n <= Z.of_nat (length tasks))%Z ->
  ((0 <=? n - 1) && (n - 1 <? Z.of_nat (length tasks)))%Z = true.
Proof. intros H. apply andb_true_iff. split; [apply Z.leb_le | apply Z.ltb_lt]; lia. Qed.

Lemma out_of_range_test (n : Z) (tasks : list json) :
  (n < 1 \/ Z.of_nat (length tasks) < n)%Z ->
  ((0 <=? n - 1) && (n - 1 <? Z.of_nat (length tasks)))%Z = false.
Proof.
  intros H. apply andb_false_iff.
  destruct H; [left; apply Z.leb_gt | right; apply Z.ltb_ge]; lia.
Qed.

Lemma index_back (n : Z) : (n - 1 + 1)%Z = n.
Proof. lia. Qed.

Lemma update_invalid_number (s action : string) (w : world) :
  PyStr.int s = None ->
  _update_task s action w
  = (Returned tt,
     printed ["Error: Invalid task number '" ++ s ++ "'. Must be an integer."] w).
Proof. intros H. unfold _update_task. rewrite H. reflexivity. Qed.

Lemma update_out_of_range (s action : string) (w : world) (tasks : list json) (n : Z) :
  PyStr.int s = Some n ->
  stored (tasks_json w) = Returned tasks ->
  (n < 1 \/ Z.of_nat (length tasks) < n)%Z ->
  _update_task s action w = (Returned tt, printed (not_found_report n tasks) (loaded w)).
Proof.
  intros Hs Hload Hn. unfold _update_task. rewrite Hs.
  rewrite (bind_returned _ _ _ _ _ (load_tasks_returned w tasks Hload)).
  rewrite (out_of_range_test n tasks Hn), index_back.
  rewrite (bind_returned _ _ _ _ _ (print_eq _ _)).
  unfold not_found_report, range_hint.
  destruct tasks; rewrite print_eq, printed_app; reflexivity.
Qed.

Lemma list_getitem_eq (tasks : list json) (i : Z) (t : json) (w : world) :
  tasks !! Z.to_nat i = Some t -> list_getitem tasks i w = (Returned t, w).
Proof. intros H. unfold list_getitem. now rewrite H. Qed.

Lemma complete_already (s : string) (w : world) (tasks : list json) (n : Z)
      (d : Dict.t) (st : json) :
  PyStr.int s = Some n ->
  stored (tasks_json w) = Returned tasks ->
  (1 <= n <= Z.of_nat (length tasks))%Z ->
  tasks !! Z.to_nat (n - 1) = Some (JObj d) ->
  Dict.get "status" d = Some st ->
  json_eqb_str st "complete" = true ->
  complete_task s w
  = (Returned tt,
     printed ["Task " ++ PyStr.int_repr n ++ " is already marked as complete."] (loaded w)).
Proof.
  intros Hs Hload Hn Ht Hst Hc. unfold complete_task, _update_task. rewrite Hs.
  rewrite (bind_returned _ _ _ _ _ (load_tasks_returned w tasks Hload)).
  rewrite (in_range_test n tasks Hn), index_back. cbn [String.eqb Ascii.eqb Bool.eqb].
  rewrite (bind_returned _ _ _ _ _ (list_getitem_eq tasks _ _ _ Ht)).
  unfold getitem. rewrite Hst. unfold bind at 1, ret. rewrite Hc. reflexivity.
Qed.

Lemma complete_not_yet (s : string) (w : world) (tasks : list json) (n : Z)
      (d : Dict.t) (st : json) :
  PyStr.int s = Some n ->
  stored (tasks_json w) = Returned tasks ->
  (1 <= n <= Z.of_nat (length tasks))%Z ->
  tasks !! Z.to_nat (n - 1) = Some (JObj d) ->
  Dict.get "status" d = Some st ->
  json_eqb_str st "complete" = false ->
  complete_task s w
  = confirm n " marked as complete: " (completed d)
            (after_save (<[Z.to_nat (n - 1) := completed d]> tasks) (loaded w)).
Proof.
  intros Hs Hload Hn Ht Hst Hc. unfold complete_task, _update_task. rewrite Hs.
  rewrite (bind_returned _ _ _ _ _ (load_tasks_returned w tasks Hload)).
  rewrite (in_range_test n tasks Hn), index_back. cbn [String.eqb Ascii.eqb Bool.eqb].
  rewrite (bind_returned _ _ _ _ _ (list_getitem_eq tasks _ _ _ Ht)).
  unfold getitem at 1. rewrite Hst. unfold bind at 1, ret at 1. rewrite Hc.
  unfold setitem, bind at 1, ret.
  rewrite (bind_returned _ _ _ _ _ (save_tasks_any _ (loaded w))).
  assert (Hget : <[Z.to_nat (n - 1) := JObj (Dict.set "status" (JStr "complete") d)]> tasks
                   !! Z.to_nat (n - 1) = Some (completed d)).
  { apply list_lookup_insert_eq. apply lookup_lt_Some in Ht. exact Ht. }
  rewrite (bind_returned _ _ _ _ _ (list_getitem_eq _ _ _ _ Hget)).
  unfold confirm, completed, getitem, bind, ret.
  destruct (Dict.get "description" (Dict.set "status" (JStr "complete") d)); reflexivity.
Qed.

Lemma complete_pending (s : string) (w : world) (tasks : list json) (n : Z)
      (d : Dict.t) (st : json) :
  PyStr.int s = Some n ->
  stored (tasks_json w) = Returned tasks ->
  (1 <= n <= Z.of_nat (length tasks))%Z ->
  tasks !! Z.to_nat (n - 1) = Some (JObj d) ->
  Dict.get "status" d = Some st ->
  json_eqb_str st "complete" = false ->
  write_error w = None ->
  complete_task s w
  = confirm n " marked as complete: " (completed d)
            (saved (<[Z.to_nat (n - 1) := completed d]> tasks) (loaded w)).
Proof.
  intros Hs Hload Hn Ht Hst Hc Hw.
  rewrite (complete_not_yet s w tasks n d st Hs Hload Hn Ht Hst Hc).
  now rewrite (after_save_saved _ (loaded w) Hw).
Qed.

Lemma remove_any (s : string) (w : world) (tasks : list json) (n : Z) (t : json) :
  PyStr.int s = Some n ->
  stored (tasks_json w) = Returned tasks ->
  (1 <= n <= Z.of_nat (length tasks))%Z ->
  tasks !! Z.to_nat (n - 1) = Some t ->
  remove_task s w
  = confirm n " removed: " t
            (after_save (delete (Z.to_nat (n - 1)) tasks) (loaded w)).
Proof.
  intros Hs Hload Hn Ht. unfold remove_task, _update_task. rewrite Hs.
  rewrite (bind_returned _ _ _ _ _ (load_tasks_returned w tasks Hload)).
  rewrite (in_range_test n tasks Hn), index_back. cbn [String.eqb Ascii.eqb Bool.eqb].
  rewrite (bind_returned _ _ _ _ _ (list_getitem_eq tasks _ _ _ Ht)).
  rewrite (bind_returned _ _ _ _ _ (save_tasks_any _ (loaded w))).
  unfold confirm, getitem, bind, ret.
  destruct t as [| | | | |d]; try reflexivity.
  destruct (Dict.get "description" d); reflexivity.
Qed.

Lemma remove_in_range (s : string) (w : world) (tasks : list json) (n : Z) (t : json) :
  PyStr.int s = Some n ->
  stored (tasks_json w) = Returned tasks ->
  (1 <= n <= Z.of_nat (length tasks))%Z ->
  tasks !! Z.to_nat (n - 1) = Some t ->
  write_error w = None ->
  remove_task s w
  = confirm n " removed: " t
            (saved (delete (Z.to_nat (n - 1)) tasks) (loaded w)).
Proof.
  intros Hs Hload Hn Ht Hw.
  rewrite (remove_any s w tasks n t Hs Hload Hn Ht).
  now rewrite (after_save_saved _ (loaded w) Hw).
Qed.

Lemma confirm_file (n : Z) (verb : string) (task : json) (w : world) :
  tasks_json (snd (confirm n verb task w)) = tasks_json w /\
  write_error (snd (confirm n verb task w)) = write_error w /\
  io_log (snd (confirm n verb task w)) = io_log w.
Proof.
  unfold confirm. destruct task as [| | | | |d]; try (repeat split; reflexivity).
  destruct (Dict.get "description" d); repeat split; reflexivity.
Qed.

(** *** [main] *)

Lemma well_formed_dict (t : json) : well_formed t = true -> is_dict t = true.
Proof. destruct t; simpl; congruence. Qed.

Lemma well_formed_fields (t : json) :
  well_formed t = true ->
  exists d desc st,
    t = JObj d /\ Dict.get "description" d = Some desc /\ Dict.get "status" d = Some st.
Proof.
  destruct t as [| | | | |d]; cbn [well_formed]; try discriminate.
  destruct (Dict.get "description" d) as [desc|] eqn:Hd; [|discriminate].
  destruct (Dict.get "status" d) as [st|] eqn:Hs; [|discriminate].
  intros _. exists d, desc, st. repeat split; assumption.
Qed.

Lemma list_tasks_returns (w : world) (tasks : list json) :
  stored (tasks_json w) = Returned tasks ->
  Forall (fun t => well_formed t = true) tasks ->
  result list_tasks w = Returned tt.
Proof.
  intros Hload Hwf. unfold result. destruct tasks as [|t ts].
  - now rewrite (list_tasks_empty w Hload).
  - rewrite (list_tasks_eq w (t :: ts) Hload); [reflexivity | discriminate |].
    eapply Forall_impl; [exact Hwf | apply well_formed_dict].
Qed.

Lemma add_task_returns (w : world) (tasks : list json) (description : string) :
  stored (tasks_json w) = Returned tasks ->
  result (add_task description) w = Returned tt.
Proof.
  intros Hload. unfold result. destruct (String.eqb_spec description "") as [->|Hne].
  - reflexivity.
  - now rewrite (add_task_any description w tasks Hne Hload).
Qed.

Lemma confirm_returns (n : Z) (verb : string) (t : json) (w : world) :
  well_formed t = true -> fst (confirm n verb t w) = Returned tt.
Proof.
  intros H. destruct (well_formed_fields t H) as (d & desc & st & -> & Hd & _).
  unfold confirm. now rewrite Hd.
Qed.

Lemma update_task_returns (w : world) (tasks : list json) (s action : string) :
  stored (tasks_json w) = Returned tasks ->
  Forall (fun t => well_formed t = true) tasks ->
  action = "complete" \/ action = "remove" ->
  result (_update_task s action) w = Returned tt.
Proof.
  intros Hload Hwf Haction. unfold result.
  destruct (PyStr.int s) as [n|] eqn:Hs;
    [|now rewrite (update_invalid_number s action w Hs)].
  destruct (Z_lt_dec n 1) as [Hlow|Hlow];
    [now rewrite (update_out_of_range s action w tasks n Hs Hload (or_introl Hlow))|].
  destruct (Z_lt_dec (Z.of_nat (length tasks)) n) as [Hhigh|Hhigh];
    [now rewrite (update_out_of_range s action w tasks n Hs Hload (or_intror Hhigh))|].
  assert (Hn : (1 <= n <= Z.of_nat (length tasks))%Z) by lia.
  destruct (lookup_lt_is_Some_2 tasks (Z.to_nat (n - 1)) ltac:(lia)) as [t Ht].
  pose proof (proj1 (Forall_lookup _ _) Hwf _ _ Ht) as Ht_wf. simpl in Ht_wf.
  destruct (well_formed_fields t Ht_wf) as (d & desc & st & -> & Hd & Hst).
  destruct Haction as [-> | ->].
  - change (_update_task s "complete") with (complete_task s).
    destruct (json_eqb_str st "complete") eqn:Hc.
    + now rewrite (complete_already s w tasks n d st Hs Hload Hn Ht Hst Hc).
    + rewrite (complete_not_yet s w tasks n d st Hs Hload Hn Ht Hst Hc).
      apply confirm_returns. unfold completed, well_formed.
      rewrite get_set_same, get_set_other by discriminate. now rewrite Hd.
  - change (_update_task s "remove") with (remove_task s).
    rewrite (remove_any s w tasks n (JObj d) Hs Hload Hn Ht).
    now apply confirm_returns.
Qed.

Lemma main_exit_status (w : world) (tasks : list json) (argv : list string) :
  stored (tasks_json w) = Returned tasks ->
  Forall (fun t => well_formed t = true) tasks ->
  exit_status (result (main argv) w)
  = Some (if no_or_unknown_command argv then 1 else 0)%Z.
Proof.
  intros Hload Hwf.
  destruct argv as [|prog [|argv1 rest]]; try reflexivity.
  unfold no_or_unknown_command, command_word, known_command, main.
  destruct (String.eqb (PyStr.lower argv1) "list");
    [cbn [orb negb]; now rewrite (list_tasks_returns w tasks Hload Hwf)|].
  destruct (String.eqb (PyStr.lower argv1) "add").
  { cbn [orb negb]. destruct rest; [reflexivity|].
    now rewrite (add_task_returns w tasks _ Hload). }
  destruct (String.eqb (PyStr.lower argv1) "complete").
  { cbn [orb negb]. destruct rest; [reflexivity|]. unfold complete_task.
    rewrite (update_task_returns w tasks _ _ Hload Hwf); [reflexivity | now left]. }
  destruct (String.eqb (PyStr.lower argv1) "remove").
  { cbn [orb negb]. destruct rest; [reflexivity|]. unfold remove_task.
    rewrite (update_task_returns w tasks _ _ Hload Hwf); [reflexivity | now right]. }
  destruct (String.eqb (PyStr.lower argv1) "help"); reflexivity.
Qed.

Lemma reports_only_observed (argv : list string) (w : world) :
  reports_only argv w ->
  exit_status (result (main argv) w) = Some 0%Z /\
  tasks_json (run (main argv) w) = tasks_json w /\
  (forall e, In e (io_log (run (main argv) w)) ->
             In e (io_log w) \/ e = PathExists \/ e = OpenedForReading).
Proof.
  intros (lines & _ & [H|H]); unfold result, run; rewrite H; cbn [fst snd];
    (split; [reflexivity|]); (split; [reflexivity|]); intros e He.
  - now left.
  - simpl in He. apply in_app_or in He. destruct He as [He|He]; [now left|right].
    unfold read_events in He. destruct (tasks_json w); simpl in He; intuition.
Qed.

Lemma soft_error_intro (argv : list string) (w : world) :
  reports_only argv w -> soft_error argv w.
Proof.
  intros H. destruct (reports_only_observed argv w H) as (Hexit & Hfile & _).
  now repeat split.
Qed.

Lemma main_missing_argument (prog argv1 : string) (w : world) :
  In (PyStr.lower argv1) ["add"; "complete"; "remove"] ->
  reports_only [prog; argv1] w.
Proof.
  intros H. simpl in H. unfold reports_only, main.
  destruct H as [<- | [<- | [<- | []]]]; cbn [String.eqb Ascii.eqb Bool.eqb];
    eexists; (split; [|left; rewrite (bind_returned _ _ _ _ _ (print_eq _ _));
                        rewrite print_eq, printed_app; reflexivity]);
    discriminate.
Qed.

Lemma main_invalid_number (prog argv1 s : string) (rest : list string) (w : world) :
  In (PyStr.lower argv1) ["complete"; "remove"] ->
  PyStr.int s = None ->
  reports_only (prog :: argv1 :: s :: rest) w.
Proof.
  intros H Hs. simpl in H. unfold reports_only, main.
  destruct H as [<- | [<- | []]]; cbn [String.eqb Ascii.eqb Bool.eqb];
    unfold complete_task, remove_task; rewrite (update_invalid_number s _ w Hs);
    eexists; (split; [|left; reflexivity]); discriminate.
Qed.

Lemma main_out_of_range (prog argv1 s : string) (rest : list string) (w : world)
      (tasks : list json) (n : Z) :
  stored (tasks_json w) = Returned tasks ->
  In (PyStr.lower argv1) ["complete"; "remove"] ->
  PyStr.int s = Some n ->
  (n < 1 \/ Z.of_nat (length tasks) < n)%Z ->
  reports_only (prog :: argv1 :: s :: rest) w.
Proof.
  intros Hload H Hs Hn. simpl in H. unfold reports_only, main.
  destruct H as [<- | [<- | []]]; cbn [String.eqb Ascii.eqb Bool.eqb];
    unfold complete_task, remove_task;
    rewrite (update_out_of_range s _ w tasks n Hs Hload Hn);
    eexists; (split; [|right; reflexivity]); discriminate.
Qed.

Lemma main_empty_description (prog argv1 : string) (w : world) :
  PyStr.lower argv1 = "add" ->
  reports_only [prog; argv1; ""] w.
Proof.
  intros H. unfold reports_only, main. rewrite H. cbn [String.eqb Ascii.eqb Bool.eqb].
  eexists. split; [|left; reflexivity]. discriminate.
Qed.

(** ** C1: an empty description *)

(** C1 (as amended): [add_task] rejects the empty description, and no
    other, with the error line and without touching storage: nothing is
    loaded and nothing is saved, so the file and the log of file operations
    are unchanged.  A description that is not empty, be it white space only,
    is taken: the file is loaded, the list with the new pending task after
    the stored ones is passed to [save_tasks], and the task is confirmed. *)
Theorem add_task_rejects_empty_only (description : string) (w : world) :
  (rejected_untouched description w <-> description = "") /\
  (description <> "" ->
   forall tasks,
     stored (tasks_json w) = Returned tasks ->
     add_task description w
     = (Returned tt,
        printed ["Task added: " ++ PyStr.dq ++ description ++ PyStr.dq]
                (after_save (tasks ++ [task description "pending"]) (loaded w)))).
Proof.
  split; [split|].
  - intros H. destruct (String.eqb_spec description "") as [E|Hne]; [exact E|].
    exfalso. pose proof (add_task_reads description w Hne) as Hlog.
    unfold rejected_untouched in H. unfold run in Hlog. rewrite H in Hlog.
    simpl in Hlog. lia.
  - intros ->. reflexivity.
  - intros Hne tasks Hload. exact (add_task_any description w tasks Hne Hload).
Qed.

Lemma add_task_rejects_empty_only_witness :
  let w := boot (file_of [task "a" "pending"]) in
  rejected_untouched "" w /\
  add_task "  " w
  = (Returned tt,
     printed ["Task added: " ++ PyStr.dq ++ "  " ++ PyStr.dq]
             (saved [task "a" "pending"; task "  " "pending"] (loaded w))).
Proof.
  intros w.
  assert (Hne : "  " <> "") by discriminate.
  destruct (add_task_rejects_empty_only "" w) as [[_ H1] _].
  destruct (add_task_rejects_empty_only "  " w) as [_ H2].
  split; [exact (H1 eq_refl)|].
  exact (H2 Hne [task "a" "pending"] eq_refl).
Defined.

(** C1 as stated fails for a description of white space only: the one
    blank is not rejected, the file is loaded and the task is written. *)
Lemma add_task_blank_not_rejected :
  whitespace_only " " = true /\
  ~ rejected_untouched " " (boot None) /\
  tasks_json (run (add_task " ") (boot None))
  = Some (json_dumps (JArr [JObj [("description", JStr " "); ("status", JStr "pending")]])).
Proof.
  split; [reflexivity|]. split; [|reflexivity].
  unfold rejected_untouched. intros H.
  apply (f_equal (fun p => tasks_json (snd p))) in H. vm_compute in H. discriminate.
Qed.

(** ** C2: adding a task to empty storage and listing *)

(** C2 (as amended): after [add("Buy milk")] on empty storage, [list()]
    prints three lines: the header, the one task line
    [  1. [ ] Buy milk] (with two leading blanks), and the footer. *)
Theorem add_then_list_output (w : world) :
  stored (tasks_json w) = Returned [] ->
  write_error w = None ->
  let w1 := run (add_task "Buy milk") w in
  list_tasks w1
  = (Returned tt,
     printed ["--- Your Tasks ---"; "  1. [ ] Buy milk"; "------------------"] (loaded w1)).
Proof.
  intros Hempty Hwrite w1.
  assert (H1 : w1 = printed ["Task added: " ++ PyStr.dq ++ "Buy milk" ++ PyStr.dq]
                      (saved [JObj [("description", JStr "Buy milk"); ("status", JStr "pending")]]
                             (loaded w))).
  { unfold w1, run. now rewrite (add_task_eq "Buy milk" w [] ltac:(discriminate) Hempty Hwrite). }
  rewrite (list_tasks_eq w1 [task "Buy milk" "pending"]).
  - reflexivity.
  - rewrite H1. reflexivity.
  - discriminate.
  - repeat constructor.
Qed.

Lemma add_then_list_output_witness :
  stored (tasks_json (boot None)) = Returned [] /\
  write_error (boot None) = None /\
  list_tasks (run (add_task "Buy milk") (boot None))
  = (Returned tt,
     printed ["--- Your Tasks ---"; "  1. [ ] Buy milk"; "------------------"]
             (loaded (run (add_task "Buy milk") (boot None)))).
Proof.
  split; [reflexivity|]. split; [reflexivity|].
  apply (add_then_list_output (boot None)); reflexivity.
Defined.

(** C2 as stated fails: the output of [list()] is three lines, not the
    single line [1. [ ] Buy milk]. *)
Lemma list_output_not_one_line :
  let out := stdout (run list_tasks
                       (boot (tasks_json (run (add_task "Buy milk") (boot None))))) in
  length out = 3%nat /\ out <> ["1. [ ] Buy milk"] /\ ~ In "1. [ ] Buy milk" out.
Proof.
  vm_compute. split; [reflexivity|]. split; [discriminate|].
  intros [H|[H|[H|[]]]]; discriminate.
Qed.

(** ** C3: a missing or unusable file *)

(** C3 (as amended): when the file is absent, when [json.load] raises
    [JSONDecodeError] on it, or when [json.load] returns a value that is not
    a list, [load_tasks] returns the empty list; it raises nothing, prints
    nothing and writes nothing.  So it is for every value that is no list,
    written as [json.dumps] writes it, and for a file that is empty or holds
    white space only. *)
Theorem load_tasks_unusable (w : world) :
  (unusable (tasks_json w) -> load_tasks w = (Returned [], loaded w)) /\
  (forall v,
     tasks_json w = Some (json_dumps v) ->
     py_value v -> within nesting_limit v -> is_array v = false ->
     load_tasks w = (Returned [], loaded w)) /\
  (forall text,
     tasks_json w = Some text -> skip_ws text = "" ->
     load_tasks w = (Returned [], loaded w)).
Proof.
  assert (H0 : unusable (tasks_json w) -> load_tasks w = (Returned [], loaded w)).
  { intros H. apply load_tasks_returned.
    unfold stored, result, load_tasks. simpl.
    destruct (tasks_json w) as [text|]; [|reflexivity]. simpl in *.
    destruct H as [->|[(v & -> & Hv)| ->]]; try reflexivity.
    destruct v; try reflexivity. discriminate. }
  split; [exact H0|]. split.
  - intros v Hfile Hv Hw Harr. apply H0. rewrite Hfile.
    right. left. exists v. split; [now apply json_loads_dumps | exact Harr].
  - intros text Hfile Hws. apply H0. rewrite Hfile.
    left. unfold json_loads. rewrite Hws.
    replace (2 * len text + 2) with (S (2 * len text + 1)) by lia. reflexivity.
Qed.

Lemma load_tasks_unusable_witness :
  (unusable (tasks_json (boot None)) /\
   load_tasks (boot None) = (Returned [], loaded (boot None))) /\
  (unusable (tasks_json (boot (Some "{}"))) /\
   load_tasks (boot (Some "{}")) = (Returned [], loaded (boot (Some "{}")))) /\
  (let text := PyStr.dq ++ "hello" ++ PyStr.dq in
   unusable (tasks_json (boot (Some text))) /\
   load_tasks (boot (Some text)) = (Returned [], loaded (boot (Some text)))) /\
  (unusable (tasks_json (boot (Some "[1, 2"))) /\
   load_tasks (boot (Some "[1, 2")) = (Returned [], loaded (boot (Some "[1, 2")))).
Proof.
  assert (H0 : unusable (tasks_json (boot None))) by exact I.
  assert (H1 : unusable (tasks_json (boot (Some "{}"))))
    by (right; left; exists (JObj []); split; reflexivity).
  assert (H2 : unusable (tasks_json (boot (Some (PyStr.dq ++ "hello" ++ PyStr.dq)))))
    by (right; left; exists (JStr "hello"); split; reflexivity).
  assert (H3 : unusable (tasks_json (boot (Some "[1, 2"))))
    by (left; reflexivity).
  refine (conj (conj H0 _) (conj (conj H1 _) (conj (conj H2 _) (conj H3 _)))).
  - exact (proj1 (load_tasks_unusable _) H0).
  - exact (proj1 (load_tasks_unusable _) H1).
  - exact (proj1 (load_tasks_unusable _) H2).
  - exact (proj1 (load_tasks_unusable _) H3).
Defined.

(** C3 as stated fails: [load_tasks] catches [json.JSONDecodeError] and
    nothing else.  A file that holds one integer of 4301 digits is valid
    JSON and no list, and [json.load] raises [ValueError] on it, which leaves
    [load_tasks]; with 4300 digits the same file loads as the empty
    list. *)
Lemma load_tasks_raises_on_long_integer :
  let w := boot (Some (repeated "1" 4301)) in
  let w' := boot (Some (repeated "1" 4300)) in
  json_loads (repeated "1" 4301) = DigitLimit /\
  load_tasks w = (Raised ValueError, loaded w) /\
  load_tasks w' = (Returned [], loaded w').
Proof. vm_compute. repeat split; reflexivity. Qed.

(** ** C4: completing a task that is complete *)

(** C4: when the task at a valid number is already complete,
    [complete_task] reports it and writes nothing: the file is as it was
    and the log gains only the reading.  Hence, after a [complete_task]
    that did write, a second one with the same number reports
    "already complete" and leaves the file as the first one wrote it. *)
Theorem complete_already_no_write
  (s : string) (w : world) (tasks : list json) (n : Z) (d : Dict.t) (st : json) :
  PyStr.int s = Some n ->
  stored (tasks_json w) = Returned tasks ->
  (1 <= n <= Z.of_nat (length tasks))%Z ->
  tasks !! Z.to_nat (n - 1) = Some (JObj d) ->
  Dict.get "status" d = Some st ->
  let report := ["Task " ++ PyStr.int_repr n ++ " is already marked as complete."] in
  (json_eqb_str st "complete" = true ->
   complete_task s w = (Returned tt, printed report (loaded w))) /\
  (json_eqb_str st "complete" = false -> write_error w = None ->
   let w1 := run (complete_task s) w in
   complete_task s w1 = (Returned tt, printed report (loaded w1)) /\
   tasks_json (run (complete_task s) w1) = tasks_json w1).
Proof.
  intros Hs Hload Hn Ht Hst report. split.
  - intros Hc. exact (complete_already s w tasks n d st Hs Hload Hn Ht Hst Hc).
  - intros Hc Hw w1.
    pose proof (complete_pending s w tasks n d st Hs Hload Hn Ht Hst Hc Hw) as H1.
    set (tasks' := <[Z.to_nat (n - 1) := completed d]> tasks) in *.
    destruct (confirm_file n " marked as complete: " (completed d) (saved tasks' (loaded w)))
      as (Hfile & Herr & _).
    assert (Hw1 : w1 = snd (confirm n " marked as complete: " (completed d)
                              (saved tasks' (loaded w))))
      by (unfold w1, run; now rewrite H1).
    pose proof (stored_storable _ _ Hload) as Hpy.
    assert (Hpy' : Forall storable tasks').
    { apply Forall_insert; [exact Hpy|]. apply completed_storable.
      eapply Forall_lookup_1; [exact Hpy | exact Ht]. }
    assert (Hload1 : stored (tasks_json w1) = Returned tasks')
      by (rewrite Hw1, Hfile; now apply stored_saved).
    assert (Hlen : length tasks' = length tasks) by apply length_insert.
    assert (Ht1 : tasks' !! Z.to_nat (n - 1) = Some (completed d)).
    { apply list_lookup_insert_eq. apply lookup_lt_Some in Ht. exact Ht. }
    assert (Hagain : complete_task s w1 = (Returned tt, printed report (loaded w1))).
    { apply (complete_already s w1 tasks' n (Dict.set "status" (JStr "complete") d)
               (JStr "complete") Hs Hload1).
      - rewrite Hlen. exact Hn.
      - exact Ht1.
      - apply get_set_same.
      - reflexivity. }
    split; [exact Hagain|]. unfold run. rewrite Hagain. reflexivity.
Qed.

Lemma complete_already_no_write_witness :
  (let tasks := [task "Buy milk" "complete"] in
   let w := boot (file_of tasks) in
   (PyStr.int "1" = Some 1%Z /\
    stored (tasks_json w) = Returned tasks /\
    (1 <= 1 <= Z.of_nat (length tasks))%Z /\
    tasks !! Z.to_nat (1 - 1) = Some (task "Buy milk" "complete") /\
    json_eqb_str (JStr "complete") "complete" = true) /\
   complete_task "1" w
   = (Returned tt, printed ["Task 1 is already marked as complete."] (loaded w))) /\
  (let tasks := [task "Buy milk" "pending"] in
   let w := boot (file_of tasks) in
   let w1 := run (complete_task "1") w in
   (stored (tasks_json w) = Returned tasks /\
    json_eqb_str (JStr "pending") "complete" = false /\
    write_error w = None) /\
   complete_task "1" w1
   = (Returned tt, printed ["Task 1 is already marked as complete."] (loaded w1)) /\
   tasks_json (run (complete_task "1") w1) = tasks_json w1).
Proof.
  split.
  - split; [repeat split; (reflexivity || (simpl; lia))|].
    refine (proj1 (complete_already_no_write "1"
                     (boot (file_of [task "Buy milk" "complete"]))
                     [task "Buy milk" "complete"] 1
                     [("description", JStr "Buy milk"); ("status", JStr "complete")]
                     (JStr "complete") _ _ _ _ _) _);
      (reflexivity || (simpl; lia)).
  - split; [repeat split; reflexivity|].
    refine (proj2 (complete_already_no_write "1"
                     (boot (file_of [task "Buy milk" "pending"]))
                     [task "Buy milk" "pending"] 1
                     [("description", JStr "Buy milk"); ("status", JStr "pending")]
                     (JStr "pending") _ _ _ _ _) _ _);
      (reflexivity || (simpl; lia)).
Defined.

(** ** C5: removing a task *)

(** C5: for a valid number [n], [remove_task] deletes the task at
    position [n] and no other: the list is one shorter, the tasks before
    keep their place, the tasks after move down by one, the file holds the
    new list, and the confirmation quotes the description of the task
    removed. *)
Theorem remove_deletes_and_shifts
  (s : string) (w : world) (tasks : list json) (n : Z) (d : Dict.t) (desc : json) :
  PyStr.int s = Some n ->
  stored (tasks_json w) = Returned tasks ->
  (1 <= n <= Z.of_nat (length tasks))%Z ->
  tasks !! Z.to_nat (n - 1) = Some (JObj d) ->
  Dict.get "description" d = Some desc ->
  write_error w = None ->
  let i := Z.to_nat (n - 1) in
  let tasks' := delete i tasks in
  remove_task s w
  = (Returned tt,
     printed ["Task " ++ PyStr.int_repr n ++ " removed: "
                ++ PyStr.dq ++ PyFmt.str desc ++ PyStr.dq]
             (saved tasks' (loaded w))) /\
  stored (tasks_json (run (remove_task s) w)) = Returned tasks' /\
  length tasks' = (length tasks - 1)%nat /\
  (forall j, (j < i)%nat -> tasks' !! j = tasks !! j) /\
  (forall j, (i <= j)%nat -> tasks' !! j = tasks !! S j).
Proof.
  intros Hs Hload Hn Ht Hd Hw i tasks'.
  pose proof (remove_in_range s w tasks n (JObj d) Hs Hload Hn Ht Hw) as H.
  unfold confirm in H. rewrite Hd in H. fold i in H. fold tasks' in H.
  split; [exact H|]. split.
  - unfold run. rewrite H. cbn [snd]. apply stored_saved.
    apply Forall_delete. exact (stored_storable _ _ Hload).
  - split; [apply length_delete; eauto|].
    split; intros j Hj; [now apply list_lookup_delete_lt | now apply list_lookup_delete_ge].
Qed.

Lemma remove_deletes_and_shifts_witness :
  let tasks := [task "a" "pending"; task "b" "complete"; task "c" "pending"] in
  let w := boot (file_of tasks) in
  (PyStr.int "2" = Some 2%Z /\
   stored (tasks_json w) = Returned tasks /\
   (1 <= 2 <= Z.of_nat (length tasks))%Z /\
   tasks !! Z.to_nat (2 - 1) = Some (task "b" "complete") /\
   write_error w = None) /\
  remove_task "2" w
  = (Returned tt,
     printed ["Task 2 removed: " ++ PyStr.dq ++ "b" ++ PyStr.dq]
             (saved [task "a" "pending"; task "c" "pending"] (loaded w))) /\
  stored (tasks_json (run (remove_task "2") w))
  = Returned [task "a" "pending"; task "c" "pending"].
Proof.
  intros tasks w.
  split; [repeat split; (reflexivity || (simpl; lia))|].
  pose proof (remove_deletes_and_shifts "2" w tasks 2
                [("description", JStr "b"); ("status", JStr "complete")] (JStr "b")
                eq_refl eq_refl ltac:(simpl; lia) eq_refl eq_refl eq_refl) as H.
  split; [exact (proj1 H) | exact (proj1 (proj2 H))].
Defined.

(** ** C6: a number out of range *)

(** C6 (as amended): for a number outside [1..len(tasks)] that [int]
    reads, which it does for a numeral of 4300 digits at most,
    [complete_task] and [remove_task] print that the task was not found and
    then the valid range, or that there are no tasks when the list is empty;
    nothing is written: the file is as it was and the log gains only the
    reading. *)
Theorem out_of_range_reported
  (s : string) (w : world) (tasks : list json) (n : Z) :
  PyStr.int s = Some n ->
  stored (tasks_json w) = Returned tasks ->
  (n < 1 \/ Z.of_nat (length tasks) < n)%Z ->
  let report :=
    ["Error: Task number " ++ PyStr.int_repr n ++ " not found.";
     match tasks with
     | [] => "You have no tasks."
     | _ => "Valid task numbers are 1 to " ++ PyStr.int_repr (Z.of_nat (length tasks)) ++ "."
     end] in
  complete_task s w = (Returned tt, printed report (loaded w)) /\
  remove_task s w = (Returned tt, printed report (loaded w)) /\
  tasks_json (printed report (loaded w)) = tasks_json w /\
  io_log (printed report (loaded w)) = (io_log w ++ read_events (tasks_json w))%list.
Proof.
  intros Hs Hload Hn report.
  split; [exact (update_out_of_range s "complete" w tasks n Hs Hload Hn)|].
  split; [exact (update_out_of_range s "remove" w tasks n Hs Hload Hn)|].
  split; reflexivity.
Qed.

Lemma out_of_range_reported_witness :
  let tasks := [task "a" "pending"; task "b" "pending"] in
  let w := boot (file_of tasks) in
  let report := ["Error: Task number 5 not found."; "Valid task numbers are 1 to 2."] in
  (PyStr.int "5" = Some 5%Z /\
   stored (tasks_json w) = Returned tasks /\
   (5 < 1 \/ Z.of_nat (length tasks) < 5)%Z) /\
  complete_task "5" w = (Returned tt, printed report (loaded w)) /\
  remove_task "5" w = (Returned tt, printed report (loaded w)) /\
  tasks_json (printed report (loaded w)) = tasks_json w /\
  io_log (printed report (loaded w)) = (io_log w ++ read_events (tasks_json w))%list.
Proof.
  intros tasks w report.
  split; [repeat split; (reflexivity || (right; simpl; lia))|].
  exact (out_of_range_reported "5" w tasks 5
           eq_refl eq_refl ltac:(right; simpl; lia)).
Defined.

(** C6 as stated fails for an integer that has more than 4300 digits:
    [int] raises [ValueError] on its numeral, so ten to the power 4300,
    which is outside 1..2, is reported as an invalid number and not with the
    range of the valid ones. *)
Lemma long_number_reported_invalid :
  let s := String "1" (repeated "0" 4300) in
  let w := boot (file_of [task "a" "pending"; task "b" "pending"]) in
  let report := ["Error: Invalid task number '" ++ s ++ "'. Must be an integer."] in
  PyStr.int_literal s = Some (10 ^ 4300)%Z /\
  PyStr.int s = None /\
  complete_task s w = (Returned tt, printed report w) /\
  remove_task s w = (Returned tt, printed report w).
Proof.
  intros s w report.
  assert (Hint : PyStr.int s = None) by (vm_compute; reflexivity).
  split; [vm_compute; reflexivity|]. split; [exact Hint|]. split.
  - exact (update_invalid_number s "complete" w Hint).
  - exact (update_invalid_number s "remove" w Hint).
Qed.

(** ** C7: the exit status *)

(** C7 (as amended): when [load_tasks] returns and every entry of the
    list is a dictionary with a description and a status, the process ends
    with status 1 exactly when there is no command or the command is not
    known, and with status 0 otherwise.  The user errors (a missing
    argument, a number that is not an integer, a number out of range, an
    empty description) print a message, leave the file as it was and end
    with status 0. *)
Theorem exit_status_two_failures (w : world) (tasks : list json) (argv : list string) :
  stored (tasks_json w) = Returned tasks ->
  Forall (fun t => well_formed t = true) tasks ->
  (exit_status (result (main argv) w) = Some 1%Z <-> no_or_unknown_command argv = true) /\
  (exit_status (result (main argv) w) = Some 0%Z <-> no_or_unknown_command argv = false) /\
  (forall prog argv1,
     argv = [prog; argv1] ->
     In (PyStr.lower argv1) ["add"; "complete"; "remove"] ->
     soft_error argv w) /\
  (forall prog argv1 s rest,
     argv = prog :: argv1 :: s :: rest ->
     In (PyStr.lower argv1) ["complete"; "remove"] ->
     PyStr.int s = None ->
     soft_error argv w) /\
  (forall prog argv1 s rest n,
     argv = prog :: argv1 :: s :: rest ->
     In (PyStr.lower argv1) ["complete"; "remove"] ->
     PyStr.int s = Some n ->
     (n < 1 \/ Z.of_nat (length tasks) < n)%Z ->
     soft_error argv w) /\
  (forall prog argv1,
     argv = [prog; argv1; ""] ->
     PyStr.lower argv1 = "add" ->
     soft_error argv w).
Proof.
  intros Hload Hwf.
  pose proof (main_exit_status w tasks argv Hload Hwf) as Hexit.
  split; [|split].
  - rewrite Hexit. destruct (no_or_unknown_command argv); split; congruence.
  - rewrite Hexit. destruct (no_or_unknown_command argv); split; congruence.
  - split; [|split; [|split]].
    + intros prog argv1 -> H. now apply soft_error_intro, main_missing_argument.
    + intros prog argv1 s rest -> H Hs. now apply soft_error_intro, main_invalid_number.
    + intros prog argv1 s rest n -> H Hs Hn.
      now apply soft_error_intro, (main_out_of_range prog argv1 s rest w tasks n).
    + intros prog argv1 -> H. now apply soft_error_intro, main_empty_description.
Qed.

Lemma exit_status_two_failures_witness :
  let tasks := [task "a" "pending"; task "b" "complete"] in
  let w := boot (file_of tasks) in
  (stored (tasks_json w) = Returned tasks /\
   Forall (fun t => well_formed t = true) tasks) /\
  exit_status (result (main ["task_tracker.py"]) w) = Some 1%Z /\
  exit_status (result (main ["task_tracker.py"; "frobnicate"]) w) = Some 1%Z /\
  exit_status (result (main ["task_tracker.py"; "LIST"]) w) = Some 0%Z /\
  soft_error ["task_tracker.py"; "complete"; "abc"] w /\
  soft_error ["task_tracker.py"; "remove"; "5"] w /\
  soft_error ["task_tracker.py"; "add"] w /\
  soft_error ["task_tracker.py"; "add"; ""] w.
Proof.
  intros tasks w.
  assert (Hload : stored (tasks_json w) = Returned tasks) by reflexivity.
  assert (Hwf : Forall (fun t => well_formed t = true) tasks) by (repeat constructor).
  pose proof (fun argv => exit_status_two_failures w tasks argv Hload Hwf) as H.
  split; [now split|].
  split; [exact (proj2 (proj1 (H ["task_tracker.py"])) eq_refl)|].
  split; [exact (proj2 (proj1 (H ["task_tracker.py"; "frobnicate"])) eq_refl)|].
  split; [exact (proj2 (proj1 (proj2 (H ["task_tracker.py"; "LIST"]))) eq_refl)|].
  split; [exact (proj1 (proj2 (proj2 (proj2 (H ["task_tracker.py"; "complete"; "abc"]))))
                   _ _ _ _ eq_refl ltac:(simpl; tauto) eq_refl)|].
  split; [exact (proj1 (proj2 (proj2 (proj2 (proj2 (H ["task_tracker.py"; "remove"; "5"])))))
                   _ _ _ _ 5%Z eq_refl ltac:(simpl; tauto) eq_refl ltac:(right; simpl; lia))|].
  split; [exact (proj1 (proj2 (proj2 (H ["task_tracker.py"; "add"])))
                   _ _ eq_refl ltac:(simpl; tauto))|].
  exact (proj2 (proj2 (proj2 (proj2 (proj2 (H ["task_tracker.py"; "add"; ""])))))
           _ _ eq_refl eq_refl).
Defined.

(** C7 as stated fails: there are more than two ways to status 1.  A
    known command with a number in range ends with an uncaught [KeyError]
    when the entry has no status, and [list] ends with the uncaught
    [ValueError] of [json.load] when the file holds an integer of 4301
    digits. *)
Lemma exit_status_one_on_uncaught_exception :
  let w := boot (file_of [JObj [("description", JStr "a")]]) in
  let argv := ["task_tracker.py"; "complete"; "1"] in
  let w' := boot (Some (repeated "1" 4301)) in
  let argv' := ["task_tracker.py"; "list"] in
  (no_or_unknown_command argv = false /\
   result (main argv) w = Raised (KeyError "status") /\
   exit_status (result (main argv) w) = Some 1%Z) /\
  (no_or_unknown_command argv' = false /\
   result (main argv') w' = Raised ValueError /\
   exit_status (result (main argv') w') = Some 1%Z).
Proof. vm_compute. repeat split; reflexivity. Qed.

(** ** C8: saving and loading *)

(** [save_tasks] and then [load_tasks] gives back any list of values
    that Python can hold. *)
Lemma save_then_load_any (tasks : list json) (w : world) :
  Forall storable tasks ->
  write_error w = None ->
  load_tasks (run (save_tasks tasks) w) = (Returned tasks, loaded (saved tasks w)).
Proof.
  intros Hpy Hw. unfold run. rewrite (save_tasks_eq tasks w Hw). cbn [snd].
  apply load_tasks_returned. now apply stored_saved.
Qed.

(** C8: for every list of tasks whose description and status are
    strings (empty or not), [load_tasks] after [save_tasks] returns the
    list that was saved: the same tasks, with the same descriptions and
    statuses, in the same order. *)
Theorem save_then_load (fields : list (string * string)) (w : world) :
  write_error w = None ->
  let tasks := map (fun f => task (fst f) (snd f)) fields in
  load_tasks (run (save_tasks tasks) w) = (Returned tasks, loaded (saved tasks w)).
Proof.
  intros Hw tasks. apply save_then_load_any; [|exact Hw].
  unfold tasks. apply Forall_map. apply Forall_forall. intros f _. apply task_storable.
Qed.

Lemma save_then_load_witness :
  let w := boot None in
  let tasks := [task "Buy milk" "pending"; task ("Say " ++ PyStr.dq ++ "hi" ++ PyStr.dq) "complete"] in
  write_error w = None /\
  load_tasks (run (save_tasks tasks) w) = (Returned tasks, loaded (saved tasks w)).
Proof.
  intros w tasks. split; [reflexivity|].
  exact (save_then_load [("Buy milk", "pending"); (("Say " ++ PyStr.dq ++ "hi" ++ PyStr.dq), "complete")] w eq_refl).
Defined.

(** ** C9: completing a pending task changes one status *)

(** C9: when the task at a valid number is not complete (it is
    pending), [complete_task] writes a list of the same length in which
    every other task is what it was, and the task itself has the same keys
    in the same order and the same value for every key but [status], which
    is now complete. *)
Theorem complete_changes_only_status
  (s : string) (w : world) (tasks : list json) (n : Z) (d : Dict.t) (st : json) :
  PyStr.int s = Some n ->
  stored (tasks_json w) = Returned tasks ->
  (1 <= n <= Z.of_nat (length tasks))%Z ->
  tasks !! Z.to_nat (n - 1) = Some (JObj d) ->
  Dict.get "status" d = Some st ->
  json_eqb_str st "complete" = false ->
  write_error w = None ->
  let i := Z.to_nat (n - 1) in
  exists (tasks' : list json) (d' : Dict.t),
    stored (tasks_json (run (complete_task s) w)) = Returned tasks' /\
    length tasks' = length tasks /\
    (forall j, j <> i -> tasks' !! j = tasks !! j) /\
    tasks' !! i = Some (JObj d') /\
    map fst d' = map fst d /\
    (forall k, k <> "status" -> Dict.get k d' = Dict.get k d) /\
    Dict.get "description" d' = Dict.get "description" d /\
    Dict.get "status" d' = Some (JStr "complete").
Proof.
  intros Hs Hload Hn Ht Hst Hc Hw i.
  exists (<[i := completed d]> tasks), (Dict.set "status" (JStr "complete") d).
  pose proof (complete_pending s w tasks n d st Hs Hload Hn Ht Hst Hc Hw) as H.
  fold i in H.
  destruct (confirm_file n " marked as complete: " (completed d)
              (saved (<[i := completed d]> tasks) (loaded w))) as (Hfile & _ & _).
  pose proof (stored_storable _ _ Hload) as Hpy.
  split.
  { unfold run. rewrite H, Hfile. apply stored_saved.
    apply Forall_insert; [exact Hpy|]. apply completed_storable.
    eapply Forall_lookup_1; [exact Hpy | exact Ht]. }
  split; [apply length_insert|].
  split; [intros j Hj; apply list_lookup_insert_ne; congruence|].
  split; [apply list_lookup_insert_eq; apply lookup_lt_Some in Ht; exact Ht|].
  split; [exact (set_present_keys "status" (JStr "complete") st d Hst)|].
  split; [intros k Hk; now apply get_set_other|].
  split; [apply get_set_other; discriminate | apply get_set_same].
Qed.

Lemma complete_changes_only_status_witness :
  let tasks := [task "a" "pending"; task "b" "pending"] in
  let w := boot (file_of tasks) in
  (PyStr.int "2" = Some 2%Z /\
   stored (tasks_json w) = Returned tasks /\
   (1 <= 2 <= Z.of_nat (length tasks))%Z /\
   tasks !! Z.to_nat (2 - 1) = Some (task "b" "pending") /\
   json_eqb_str (JStr "pending") "complete" = false /\
   write_error w = None) /\
  stored (tasks_json (run (complete_task "2") w))
  = Returned [task "a" "pending"; task "b" "complete"] /\
  exists (tasks' : list json) (d' : Dict.t),
    stored (tasks_json (run (complete_task "2") w)) = Returned tasks' /\
    length tasks' = length tasks /\
    (forall j, j <> 1%nat -> tasks' !! j = tasks !! j) /\
    tasks' !! 1%nat = Some (JObj d') /\
    map fst d' = ["description"; "status"] /\
    (forall k, k <> "status" ->
               Dict.get k d' = Dict.get k [("description", JStr "b"); ("status", JStr "pending")]) /\
    Dict.get "description" d' = Some (JStr "b") /\
    Dict.get "status" d' = Some (JStr "complete").
Proof.
  intros tasks w.
  split; [repeat split; (reflexivity || (simpl; lia))|].
  split; [vm_compute; reflexivity|].
  exact (complete_changes_only_status "2" w tasks 2
           [("description", JStr "b"); ("status", JStr "pending")] (JStr "pending")
           eq_refl eq_refl ltac:(simpl; lia) eq_refl eq_refl eq_refl eq_refl).
Defined.

(** ** C10: listing tasks with missing or odd fields *)

(** C10 (as amended): [list_tasks] does not fail on a dictionary that
    lacks a field or has an odd status.  For a list of dictionaries it prints
    the header, one line for each task and the footer; the marker of a task
    is [[x]] when its status is exactly the string [complete] and [[ ]] in
    every other case, a missing status included; a task without a
    description shows [No description]. *)
Theorem list_tasks_tolerates (w : world) (tasks : list json) :
  stored (tasks_json w) = Returned tasks ->
  tasks <> [] ->
  Forall (fun t => is_dict t = true) tasks ->
  list_tasks w
  = (Returned tt,
     printed ("--- Your Tasks ---" :: task_lines 1 tasks ++ ["------------------"])
             (loaded w)) /\
  (forall (i : nat) (d : Dict.t),
     tasks !! i = Some (JObj d) ->
     task_lines 1 tasks !! i
     = Some ("  " ++ PyStr.int_repr (Z.of_nat i + 1) ++ ". "
               ++ status_icon (JObj d) ++ " " ++ shown_description (JObj d)) /\
     (Dict.get "status" d <> Some (JStr "complete") -> status_icon (JObj d) = "[ ]") /\
     (Dict.get "status" d = Some (JStr "complete") -> status_icon (JObj d) = "[x]") /\
     (Dict.get "description" d = None -> shown_description (JObj d) = "No description") /\
     (forall v, Dict.get "description" d = Some v -> shown_description (JObj d) = PyFmt.str v)).
Proof.
  intros Hload Hne Hdict. split; [exact (list_tasks_eq w tasks Hload Hne Hdict)|].
  intros i d Hi. split.
  - rewrite (task_lines_lookup tasks 1 i (JObj d) Hi). unfold task_line.
    now rewrite Z.add_comm.
  - unfold status_icon, shown_description.
    repeat split.
    + intros H. destruct (Dict.get "status" d) as [[| | |s0| |]|]; try reflexivity.
      destruct (String.eqb_spec s0 "complete") as [->|]; [congruence | reflexivity].
    + intros ->. reflexivity.
    + intros ->. reflexivity.
    + intros v ->. reflexivity.
Qed.

Lemma list_tasks_tolerates_witness :
  let tasks := [JObj [("description", JStr "a"); ("status", JStr "done")];
                JObj [("status", JStr "complete")];
                JObj [("description", JStr "c")]] in
  let w := boot (file_of tasks) in
  (stored (tasks_json w) = Returned tasks /\
   tasks <> [] /\
   Forall (fun t => is_dict t = true) tasks) /\
  list_tasks w
  = (Returned tt,
     printed ["--- Your Tasks ---";
              "  1. [ ] a";
              "  2. [x] No description";
              "  3. [ ] c";
              "------------------"] (loaded w)).
Proof.
  intros tasks w.
  assert (Hload : stored (tasks_json w) = Returned tasks) by reflexivity.
  assert (Hne : tasks <> []) by discriminate.
  assert (Hdict : Forall (fun t => is_dict t = true) tasks) by (repeat constructor).
  split; [repeat split; assumption|].
  exact (proj1 (list_tasks_tolerates w tasks Hload Hne Hdict)).
Defined.

(** C10 as stated fails for an entry that is not a dictionary: it has
    no [get], so [list_tasks] raises after the header, and the tasks after
    that entry are not shown. *)
Lemma list_tasks_fails_on_entry_not_dict :
  let tasks := [JStr "note"; task "a" "pending"] in
  let w := boot (file_of tasks) in
  stored (tasks_json w) = Returned tasks /\
  list_tasks w = (Raised AttributeError, printed ["--- Your Tasks ---"] (loaded w)).
Proof. split; reflexivity. Qed.

(** ** Further properties of the commands *)

Lemma add_task_stored (description : string) (w : world) (tasks : list json) :
  description <> "" ->
  stored (tasks_json w) = Returned tasks ->
  write_error w = None ->
  stored (tasks_json (run (add_task description) w))
  = Returned (tasks ++ [task description "pending"])%list.
Proof.
  intros Hd Hload Hw. unfold run.
  rewrite (add_task_eq description w tasks Hd Hload Hw). cbn [snd]. apply stored_saved.
  apply Forall_app. split; [exact (stored_storable _ _ Hload)|].
  constructor; [apply task_storable | constructor].
Qed.

(** [add_task] with a description that is not empty appends a pending
    task with that description, stores the list and confirms. *)
Theorem add_task_appends (description : string) (w : world) (tasks : list json) :
  description <> "" ->
  stored (tasks_json w) = Returned tasks ->
  write_error w = None ->
  let tasks' := (tasks ++ [task description "pending"])%list in
  add_task description w
  = (Returned tt,
     printed ["Task added: " ++ PyStr.dq ++ description ++ PyStr.dq]
             (saved tasks' (loaded w))) /\
  stored (tasks_json (run (add_task description) w)) = Returned tasks'.
Proof.
  intros Hd Hload Hw tasks'. split.
  - exact (add_task_eq description w tasks Hd Hload Hw).
  - exact (add_task_stored description w tasks Hd Hload Hw).
Qed.

Lemma add_task_appends_witness :
  let tasks := [task "a" "complete"] in
  let w := boot (file_of tasks) in
  ("b" <> "" /\ stored (tasks_json w) = Returned tasks /\ write_error w = None) /\
  add_task "b" w
  = (Returned tt,
     printed ["Task added: " ++ PyStr.dq ++ "b" ++ PyStr.dq]
             (saved [task "a" "complete"; task "b" "pending"] (loaded w))) /\
  stored (tasks_json (run (add_task "b") w))
  = Returned [task "a" "complete"; task "b" "pending"].
Proof.
  intros tasks w.
  assert (Hd : "b" <> "") by discriminate.
  split; [repeat split; (assumption || reflexivity)|].
  exact (add_task_appends "b" w tasks Hd eq_refl eq_refl).
Defined.

Lemma task_lines_app (l1 l2 : list json) :
  forall start,
    task_lines start (l1 ++ l2)
    = (task_lines start l1 ++ task_lines (start + Z.of_nat (length l1)) l2)%list.
Proof.
  induction l1 as [|t ts IH]; intros start; simpl.
  - now rewrite Z.add_0_r.
  - rewrite IH. do 3 f_equal. lia.
Qed.

(** After [add_task], [list_tasks] shows the new description on the
    last task line, with the next number and the marker [[ ]]. *)
Theorem add_then_list_shows_last (description : string) (w : world) (tasks : list json) :
  description <> "" ->
  stored (tasks_json w) = Returned tasks ->
  Forall (fun t => is_dict t = true) tasks ->
  write_error w = None ->
  let w1 := run (add_task description) w in
  list_tasks w1
  = (Returned tt,
     printed ("--- Your Tasks ---"
                :: task_lines 1 tasks
                ++ ["  " ++ PyStr.int_repr (Z.of_nat (length tasks) + 1) ++ ". [ ] " ++ description;
                    "------------------"])
             (loaded w1)).
Proof.
  intros Hd Hload Hdict Hw w1.
  pose proof (add_task_stored description w tasks Hd Hload Hw) as Hload1.
  fold w1 in Hload1.
  rewrite (list_tasks_eq w1 _ Hload1).
  - rewrite task_lines_app. cbn [task_lines]. unfold task_line.
    cbn [status_icon shown_description task Dict.get String.eqb Ascii.eqb Bool.eqb PyFmt.str].
    rewrite <- List.app_assoc. cbn [app].
    now rewrite (Z.add_comm 1).
  - intros E. apply app_eq_nil in E. destruct E as [_ E]. discriminate.
  - apply Forall_app. split; [exact Hdict | repeat constructor].
Qed.

Lemma add_then_list_shows_last_witness :
  let tasks := [task "a" "complete"] in
  let w := boot (file_of tasks) in
  let w1 := run (add_task "b") w in
  ("b" <> "" /\ stored (tasks_json w) = Returned tasks /\
   Forall (fun t => is_dict t = true) tasks /\ write_error w = None) /\
  list_tasks w1
  = (Returned tt,
     printed ["--- Your Tasks ---"; "  1. [x] a"; "  2. [ ] b"; "------------------"]
             (loaded w1)).
Proof.
  intros tasks w w1.
  assert (Hd : "b" <> "") by discriminate.
  assert (Hdict : Forall (fun t => is_dict t = true) tasks) by (repeat constructor).
  split; [repeat split; (assumption || reflexivity)|].
  exact (add_then_list_shows_last "b" w tasks Hd eq_refl Hdict eq_refl).
Defined.

Lemma task_lines_length (tasks : list json) :
  forall start, length (task_lines start tasks) = length tasks.
Proof. induction tasks as [|t ts IH]; intros start; simpl; [reflexivity | now rewrite IH]. Qed.

(** After [complete_task] on a task that was not complete,
    [list_tasks] shows the marker [[x]] on the line of that task; the other
    lines are what they were. *)
Theorem complete_then_list_shows_x
  (s : string) (w : world) (tasks : list json) (n : Z) (d : Dict.t) (st : json) :
  PyStr.int s = Some n ->
  stored (tasks_json w) = Returned tasks ->
  Forall (fun t => is_dict t = true) tasks ->
  (1 <= n <= Z.of_nat (length tasks))%Z ->
  tasks !! Z.to_nat (n - 1) = Some (JObj d) ->
  Dict.get "status" d = Some st ->
  json_eqb_str st "complete" = false ->
  write_error w = None ->
  let w1 := run (complete_task s) w in
  exists lines,
    list_tasks w1
    = (Returned tt,
       printed ("--- Your Tasks ---" :: lines ++ ["------------------"]) (loaded w1)) /\
    length lines = length tasks /\
    lines !! Z.to_nat (n - 1)
    = Some ("  " ++ PyStr.int_repr n ++ ". [x] " ++ shown_description (JObj d)) /\
    (forall j, j <> Z.to_nat (n - 1) -> lines !! j = task_lines 1 tasks !! j).
Proof.
  intros Hs Hload Hdict Hn Ht Hst Hc Hw w1.
  set (i := Z.to_nat (n - 1)) in *.
  set (tasks' := <[i := completed d]> tasks).
  pose proof (complete_pending s w tasks n d st Hs Hload Hn Ht Hst Hc Hw) as H.
  fold i in H. fold tasks' in H.
  destruct (confirm_file n " marked as complete: " (completed d)
              (saved tasks' (loaded w))) as (Hfile & _ & _).
  pose proof (stored_storable _ _ Hload) as Hpy.
  assert (Hload1 : stored (tasks_json w1) = Returned tasks').
  { unfold w1, run. rewrite H, Hfile. apply stored_saved.
    apply Forall_insert; [exact Hpy|]. apply completed_storable.
    eapply Forall_lookup_1; [exact Hpy | exact Ht]. }
  assert (Hi : (i < length tasks)%nat) by (apply lookup_lt_Some in Ht; exact Ht).
  exists (task_lines 1 tasks'). split; [|split; [|split]].
  - apply (list_tasks_eq w1 tasks' Hload1).
    + intros E. apply (f_equal (@length json)) in E. unfold tasks' in E.
      rewrite length_insert in E. simpl in E. lia.
    + apply Forall_insert; [exact Hdict | reflexivity].
  - rewrite task_lines_length. apply length_insert.
  - rewrite (task_lines_lookup tasks' 1 i (completed d));
      [|now apply list_lookup_insert_eq].
    unfold task_line, completed, status_icon, shown_description.
    rewrite get_set_same, get_set_other by discriminate. cbn [String.eqb Ascii.eqb Bool.eqb].
    do 3 f_equal. unfold i. f_equal. lia.
  - intros j Hj.
    destruct (tasks !! j) as [t|] eqn:Ej.
    + rewrite (task_lines_lookup tasks 1 j t Ej).
      apply task_lines_lookup. unfold tasks'. rewrite list_lookup_insert_ne by congruence.
      exact Ej.
    + apply lookup_ge_None in Ej.
      rewrite (proj2 (lookup_ge_None _ _)) by (rewrite task_lines_length; unfold tasks'; rewrite length_insert; exact Ej).
      symmetry. apply lookup_ge_None. now rewrite task_lines_length.
Qed.

Lemma complete_then_list_shows_x_witness :
  let tasks := [task "Buy milk" "pending"] in
  let w := boot (file_of tasks) in
  let w1 := run (complete_task "1") w in
  (stored (tasks_json w) = Returned tasks /\ write_error w = None) /\
  stdout w1 = ["Task 1 marked as complete: " ++ PyStr.dq ++ "Buy milk" ++ PyStr.dq] /\
  exists lines,
    list_tasks w1
    = (Returned tt,
       printed ("--- Your Tasks ---" :: lines ++ ["------------------"]) (loaded w1)) /\
    length lines = 1%nat /\
    lines !! 0%nat = Some "  1. [x] Buy milk" /\
    (forall j, j <> 0%nat -> lines !! j = task_lines 1 tasks !! j).
Proof.
  intros tasks w w1.
  split; [split; reflexivity|]. split; [reflexivity|].
  exact (complete_then_list_shows_x "1" w tasks 1
           [("description", JStr "Buy milk"); ("status", JStr "pending")] (JStr "pending")
           eq_refl eq_refl ltac:(repeat constructor) ltac:(simpl; lia)
           eq_refl eq_refl eq_refl eq_refl).
Defined.

Lemma show_help_eq (w : world) : show_help w = (Returned tt, printed help_text w).
Proof.
  unfold show_help.
  repeat (rewrite (bind_returned _ _ _ _ _ (print_eq _ _)), ?printed_app).
  rewrite print_eq, printed_app. reflexivity.
Qed.

(** Without a command, [main] prints the error and the help text and
    leaves with status 1; the file is neither read nor written. *)
Theorem main_no_command (argv : list string) (w : world) :
  command_word argv = None ->
  main argv w
  = (Raised (SystemExit 1), printed ("Error: No command provided." :: help_text) w).
Proof.
  intros H.
  assert (E : main argv w
              = (print "Error: No command provided." ;; show_help ;; sys_exit 1) w)
    by (destruct argv as [|prog [|argv1 rest]]; [reflexivity | reflexivity | discriminate]).
  rewrite E.
  rewrite (bind_returned _ _ _ _ _ (print_eq _ _)).
  rewrite (bind_returned _ _ _ _ _ (show_help_eq _)), printed_app.
  reflexivity.
Qed.

Lemma main_no_command_witness :
  let w := boot (file_of [task "a" "pending"]) in
  command_word ["task_tracker.py"] = None /\
  main ["task_tracker.py"] w
  = (Raised (SystemExit 1), printed ("Error: No command provided." :: help_text) w) /\
  exit_status (result (main ["task_tracker.py"]) w) = Some 1%Z.
Proof.
  intros w. split; [reflexivity|].
  pose proof (main_no_command ["task_tracker.py"] w eq_refl) as H.
  split; [exact H|]. unfold result. now rewrite H.
Defined.

(** A command that is not known is reported in lower case, followed by
    the help text; [main] leaves with status 1 and the file is neither read
    nor written. *)
Theorem main_unknown_command (argv : list string) (w : world) (command : string) :
  command_word argv = Some command ->
  known_command command = false ->
  main argv w
  = (Raised (SystemExit 1),
     printed (("Error: Unknown command '" ++ command ++ "'") :: help_text) w).
Proof.
  intros Hc Hk.
  destruct argv as [|prog [|argv1 rest]]; try discriminate.
  cbn [command_word] in Hc. injection Hc as Hc.
  unfold known_command in Hk.
  repeat (apply orb_false_iff in Hk; destruct Hk as [Hk ?]).
  unfold main. cbv zeta. rewrite Hc.
  repeat match goal with H : String.eqb command _ = false |- _ => rewrite H; clear H end.
  rewrite (bind_returned _ _ _ _ _ (print_eq _ _)).
  rewrite (bind_returned _ _ _ _ _ (show_help_eq _)), printed_app.
  reflexivity.
Qed.

Lemma main_unknown_command_witness :
  let argv := ["task_tracker.py"; "Delete"; "1"] in
  let w := boot (file_of [task "a" "pending"]) in
  (command_word argv = Some "delete" /\ known_command "delete" = false) /\
  main argv w
  = (Raised (SystemExit 1), printed ("Error: Unknown command 'delete'" :: help_text) w).
Proof.
  intros argv w. split; [split; reflexivity|].
  exact (main_unknown_command argv w "delete" eq_refl eq_refl).
Defined.

Lemma lower_char_idempotent (c : ascii) :
  PyStr.lower_char (PyStr.lower_char c) = PyStr.lower_char c.
Proof. destruct c as [[] [] [] [] [] [] [] []]; reflexivity. Qed.

Lemma lower_idempotent (s : string) : PyStr.lower (PyStr.lower s) = PyStr.lower s.
Proof.
  induction s as [|c r IH]; [reflexivity|].
  cbn [PyStr.lower]. now rewrite lower_char_idempotent, IH.
Qed.

(** The command is matched without regard to case: [main] does the same
    with a command and with its lower-case form. *)
Theorem main_command_case (prog argv1 : string) (rest : list string) (w : world) :
  main (prog :: argv1 :: rest) w = main (prog :: PyStr.lower argv1 :: rest) w.
Proof. unfold main. now rewrite lower_idempotent. Qed.

Example main_command_case_list :
  let w := boot (file_of [task "a" "pending"]) in
  stdout (run (main ["task_tracker.py"; "LIST"]) w)
  = ["--- Your Tasks ---"; "  1. [ ] a"; "------------------"].
Proof. reflexivity. Qed.

(** ** Numbers printed and numbers read *)

Lemma int_digits_pos (u : uint) :
  forall p : positive,
    PyStr.int_digits (Z.pos p) (NilEmpty.string_of_uint u)
    = Some (Z.pos (Pos.of_uint_acc u p)).
Proof.
  induction u; intros p; cbn [NilEmpty.string_of_uint PyStr.int_digits Pos.of_uint_acc];
    try reflexivity.
  all: match goal with
       | |- context [PyStr.digit_val ?c] =>
           let v := eval vm_compute in (PyStr.digit_val c) in
           change (PyStr.digit_val c) with v; cbv iota beta
       end.
  all: rewrite <- IHu; f_equal; lia.
Qed.

Lemma int_digits_zero (u : uint) :
  PyStr.int_digits 0 (NilEmpty.string_of_uint u) = Some (Z.of_uint u).
Proof.
  induction u; cbn [NilEmpty.string_of_uint PyStr.int_digits]; try reflexivity.
  all: match goal with
       | |- context [PyStr.digit_val ?c] =>
           let v := eval vm_compute in (PyStr.digit_val c) in
           change (PyStr.digit_val c) with v; cbv iota beta
       end.
  all: match goal with
       | |- PyStr.int_digits ?a _ = _ =>
           let v := eval vm_compute in a in change a with v
       end.
  all: first [exact IHu | rewrite int_digits_pos; reflexivity].
Qed.

Lemma int_unsigned_uint (u : uint) :
  PyStr.int_unsigned (NilZero.string_of_uint u) = Some (Z.of_uint u).
Proof.
  destruct u; try reflexivity; unfold NilZero.string_of_uint;
    cbn [NilEmpty.string_of_uint PyStr.int_unsigned].
  all: match goal with
       | |- context [PyStr.digit_val ?c] =>
           let v := eval vm_compute in (PyStr.digit_val c) in
           change (PyStr.digit_val c) with v; cbv iota beta
       end.
  all: first [exact (int_digits_zero u) | rewrite int_digits_pos; reflexivity].
Qed.

Lemma int_literal_string_of_int (i : Decimal.int) :
  PyStr.int_literal (NilZero.string_of_int i) = Some (Z.of_int i).
Proof.
  destruct i as [u|u]; cbn [NilZero.string_of_int Z.of_int].
  - rewrite <- int_unsigned_uint.
    destruct u; reflexivity.
  - unfold PyStr.int_literal. cbn [PyStr.skip_space].
    change (PyStr.int_space "-") with false. cbv iota.
    rewrite int_unsigned_uint. reflexivity.
Qed.

Lemma count_digits_uint (u : uint) :
  PyStr.count_digits (NilEmpty.string_of_uint u) = N.of_nat (nb_digits u).
Proof.
  induction u; cbn [NilEmpty.string_of_uint PyStr.count_digits nb_digits];
    try reflexivity.
  all: match goal with
       | |- context [PyStr.digit_val ?c] =>
           let v := eval vm_compute in (PyStr.digit_val c) in
           change (PyStr.digit_val c) with v; cbv iota beta
       end.
  all: rewrite IHu; lia.
Qed.

Lemma count_digits_int_repr (z : Z) :
  PyStr.count_digits (PyStr.int_repr z) = PyStr.decimal_digits z.
Proof.
  unfold PyStr.int_repr, PyStr.decimal_digits.
  pose proof (to_int_normal z) as Hnorm.
  destruct (Z.to_int z) as [u|u]; cbn [NilZero.string_of_int].
  - simpl in Hnorm. injection Hnorm as Hu.
    assert (Hne : u <> Nil) by (rewrite <- Hu; apply unorm_nonnil).
    rewrite (string_of_uint_nonnil u Hne). apply count_digits_uint.
  - destruct (norm_neg_shape u Hnorm) as [_ Hne].
    rewrite (string_of_uint_nonnil u Hne). cbn [PyStr.count_digits].
    change (PyStr.digit_val "-") with (@None Z). cbv iota.
    apply count_digits_uint.
Qed.

(** [int(str(z)) == z] for every integer whose numeral has no more
    digits than the conversion allows. *)
Lemma int_int_repr (z : Z) :
  (PyStr.decimal_digits z <= PyStr.max_str_digits)%N ->
  PyStr.int (PyStr.int_repr z) = Some z.
Proof.
  intros H. unfold PyStr.int. rewrite count_digits_int_repr.
  apply N.ltb_ge in H. rewrite H.
  unfold PyStr.int_repr. now rewrite int_literal_string_of_int, DecimalZ.of_to.
Qed.

(** A longer numeral is refused. *)
Lemma int_too_long (z : Z) :
  (PyStr.max_str_digits < PyStr.decimal_digits z)%N ->
  PyStr.int (PyStr.int_repr z) = None.
Proof.
  intros H. unfold PyStr.int. rewrite count_digits_int_repr.
  apply N.ltb_lt in H. now rewrite H.
Qed.

(** ** What never writes *)

Lemma list_body_fields (i : Z) (t : json) (w : world) :
  tasks_json (snd (list_body i t w)) = tasks_json w /\
  write_error (snd (list_body i t w)) = write_error w /\
  io_log (snd (list_body i t w)) = io_log w.
Proof. destruct t; repeat split; reflexivity. Qed.

Lemma for_enumerate_fields (tasks : list json) :
  forall (start : Z) (w : world),
    tasks_json (snd (for_enumerate start tasks list_body w)) = tasks_json w /\
    write_error (snd (for_enumerate start tasks list_body w)) = write_error w /\
    io_log (snd (for_enumerate start tasks list_body w)) = io_log w.
Proof.
  induction tasks as [|t ts IH]; intros start w; [repeat split; reflexivity|].
  cbn [for_enumerate]. unfold bind.
  pose proof (list_body_fields start t w) as (H1 & H2 & H3).
  destruct (list_body start t w) as [[[]|e|] w1]; cbn [snd] in *.
  - destruct (IH (start + 1)%Z w1) as (J1 & J2 & J3).
    repeat split; congruence.
  - repeat split; assumption.
  - repeat split; assumption.
Qed.

Lemma only_read_loaded (w : world) : only_read w (loaded w).
Proof. repeat split; right; reflexivity. Qed.

Lemma only_read_printed (lines : list string) (w w' : world) :
  only_read w w' -> only_read w (printed lines w').
Proof. intros H. exact H. Qed.

Lemma only_read_refl (w : world) : only_read w w.
Proof. repeat split; left; reflexivity. Qed.

Local Ltac only_printed := exact (only_read_printed _ _ _ (only_read_refl _)).

Lemma list_tasks_only_reads (w : world) : only_read w (run list_tasks w).
Proof.
  unfold run, list_tasks, bind. rewrite load_tasks_eq.
  destruct (stored (tasks_json w)) as [tasks|e|]; cbn [snd];
    try apply only_read_loaded.
  destruct tasks as [|t ts]; [apply only_read_loaded|].
  rewrite print_eq.
  pose proof (for_enumerate_fields (t :: ts) 1 (printed ["--- Your Tasks ---"] (loaded w)))
    as (H1 & H2 & H3).
  destruct (for_enumerate 1 (t :: ts) list_body (printed ["--- Your Tasks ---"] (loaded w)))
    as [[[]|e|] w1]; cbn [snd] in *.
  all: repeat split; try (right; assumption); assumption.
Qed.

Lemma main_command (prog argv1 : string) (rest : list string) (command : string) :
  PyStr.lower argv1 = command ->
  main (prog :: argv1 :: rest)
  = if String.eqb command "list" then list_tasks
    else if String.eqb command "add" then
      match rest with
      | [] =>
          print "Error: 'add' command requires a task description." ;;
          print ("Example: python task_tracker.py add " ++ PyStr.dq ++ "Buy groceries" ++ PyStr.dq)
      | _ => add_task (PyStr.join " " rest)
      end
    else if String.eqb command "complete" then
      match rest with
      | [] =>
          print "Error: 'complete' command requires a task number." ;;
          print "Example: python task_tracker.py complete 2"
      | argv2 :: _ => complete_task argv2
      end
    else if String.eqb command "remove" then
      match rest with
      | [] =>
          print "Error: 'remove' command requires a task number." ;;
          print "Example: python task_tracker.py remove 1"
      | argv2 :: _ => remove_task argv2
      end
    else if String.eqb command "help" then show_help
    else
      print ("Error: Unknown command '" ++ command ++ "'") ;;
      show_help ;;
      sys_exit 1.
Proof. intros <-. reflexivity. Qed.

Lemma main_only_read (argv : list string) (w : world) :
  command_word argv <> Some "add" ->
  command_word argv <> Some "complete" ->
  command_word argv <> Some "remove" ->
  only_read w (run (main argv) w).
Proof.
  intros Ha Hc Hr.
  destruct argv as [|prog [|argv1 rest]].
  1, 2: unfold run, main;
    rewrite (bind_returned _ _ _ _ _ (print_eq _ _));
    rewrite (bind_returned _ _ _ _ _ (show_help_eq _)); only_printed.
  cbn [command_word] in *.
  rewrite (main_command prog argv1 rest _ eq_refl).
  destruct (String.eqb_spec (PyStr.lower argv1) "list"); [apply list_tasks_only_reads|].
  destruct (String.eqb_spec (PyStr.lower argv1) "add"); [congruence|].
  destruct (String.eqb_spec (PyStr.lower argv1) "complete"); [congruence|].
  destruct (String.eqb_spec (PyStr.lower argv1) "remove"); [congruence|].
  destruct (String.eqb_spec (PyStr.lower argv1) "help").
  - unfold run. rewrite show_help_eq. only_printed.
  - unfold run.
    rewrite (bind_returned _ _ _ _ _ (print_eq _ _)).
    rewrite (bind_returned _ _ _ _ _ (show_help_eq _)). only_printed.
Qed.

(** [list], [help], a missing command and an unknown command never
    write: whatever the file holds and however the run ends, the file is as
    it was and the run adds no file operation but those of one reading. *)
Theorem main_never_writes (argv : list string) (w : world) :
  command_word argv <> Some "add" ->
  command_word argv <> Some "complete" ->
  command_word argv <> Some "remove" ->
  tasks_json (run (main argv) w) = tasks_json w /\
  exists events,
    io_log (run (main argv) w) = (io_log w ++ events)%list /\
    Forall (fun e => e = PathExists \/ e = OpenedForReading) events.
Proof.
  intros Ha Hc Hr.
  destruct (main_only_read argv w Ha Hc Hr) as (Hfile & _ & [Hlog|Hlog]).
  - split; [exact Hfile|]. exists []. split; [now rewrite app_nil_r | constructor].
  - split; [exact Hfile|]. exists (read_events (tasks_json w)). split; [exact Hlog|].
    destruct (tasks_json w); cbn [read_events];
      repeat (apply List.Forall_cons; [tauto|]); apply List.Forall_nil.
Qed.

Lemma main_never_writes_witness :
  let argv := ["task_tracker.py"; "List"] in
  let w := boot (Some "[1, 2]") in
  (command_word argv <> Some "add" /\ command_word argv <> Some "complete" /\
   command_word argv <> Some "remove") /\
  result (main argv) w = Raised AttributeError /\
  tasks_json (run (main argv) w) = tasks_json w /\
  exists events,
    io_log (run (main argv) w) = (io_log w ++ events)%list /\
    Forall (fun e => e = PathExists \/ e = OpenedForReading) events.
Proof.
  intros argv w.
  assert (Ha : command_word argv <> Some "add") by discriminate.
  assert (Hc : command_word argv <> Some "complete") by discriminate.
  assert (Hr : command_word argv <> Some "remove") by discriminate.
  split; [repeat split; assumption|]. split; [reflexivity|].
  exact (main_never_writes argv w Ha Hc Hr).
Defined.

(** ** A file that cannot be written *)

Lemma after_save_refused (tasks : list json) (w : world) (e : string) :
  write_error w = Some e ->
  after_save tasks w = printed [save_error e] (log WriteRefused w).
Proof. intros H. unfold after_save. now rewrite H. Qed.

(** When the file cannot be opened for writing, [add_task] reports the
    error of [save_tasks] and then confirms all the same: it returns, the
    file keeps its content and the new task is lost. *)
Theorem add_task_refused (description e : string) (w : world) (tasks : list json) :
  description <> "" ->
  stored (tasks_json w) = Returned tasks ->
  write_error w = Some e ->
  add_task description w
  = (Returned tt,
     printed [save_error e; "Task added: " ++ PyStr.dq ++ description ++ PyStr.dq]
             (log WriteRefused (loaded w))) /\
  tasks_json (run (add_task description) w) = tasks_json w.
Proof.
  intros Hd Hload He.
  pose proof (add_task_any description w tasks Hd Hload) as H.
  rewrite (after_save_refused _ (loaded w) e He), printed_app in H.
  split; [exact H|]. unfold run. now rewrite H.
Qed.

Lemma add_task_refused_witness :
  let w := mkWorld (file_of [task "a" "pending"]) (Some "[Errno 13] Permission denied: 'tasks.json'") [] [] in
  ("b" <> "" /\ stored (tasks_json w) = Returned [task "a" "pending"] /\
   write_error w = Some "[Errno 13] Permission denied: 'tasks.json'") /\
  stdout (run (add_task "b") w)
  = ["Error: Could not save tasks to tasks.json. [Errno 13] Permission denied: 'tasks.json'";
     "Task added: " ++ PyStr.dq ++ "b" ++ PyStr.dq] /\
  tasks_json (run (add_task "b") w) = tasks_json w.
Proof.
  intros w.
  assert (Hd : "b" <> "") by discriminate.
  split; [repeat split; (assumption || reflexivity)|].
  destruct (add_task_refused "b" _ w [task "a" "pending"] Hd eq_refl eq_refl) as [H1 H2].
  split; [|exact H2]. unfold run. rewrite H1. reflexivity.
Defined.

(** The same for [complete_task] and [remove_task]: with a number in
    range (and, for [complete], a status that is not complete), the error of
    [save_tasks] is followed by the confirmation, and the file keeps its
    content. *)
Theorem update_task_refused
  (s e : string) (w : world) (tasks : list json) (n : Z) (d : Dict.t) (desc st : json) :
  PyStr.int s = Some n ->
  stored (tasks_json w) = Returned tasks ->
  (1 <= n <= Z.of_nat (length tasks))%Z ->
  tasks !! Z.to_nat (n - 1) = Some (JObj d) ->
  Dict.get "description" d = Some desc ->
  write_error w = Some e ->
  remove_task s w
  = (Returned tt,
     printed [save_error e;
              "Task " ++ PyStr.int_repr n ++ " removed: "
                ++ PyStr.dq ++ PyFmt.str desc ++ PyStr.dq]
             (log WriteRefused (loaded w))) /\
  (Dict.get "status" d = Some st ->
   json_eqb_str st "complete" = false ->
   complete_task s w
   = (Returned tt,
      printed [save_error e;
               "Task " ++ PyStr.int_repr n ++ " marked as complete: "
                 ++ PyStr.dq ++ PyFmt.str desc ++ PyStr.dq]
              (log WriteRefused (loaded w)))).
Proof.
  intros Hs Hload Hn Ht Hd He. split.
  - rewrite (remove_any s w tasks n (JObj d) Hs Hload Hn Ht).
    rewrite (after_save_refused _ (loaded w) e He).
    unfold confirm. rewrite Hd, printed_app. reflexivity.
  - intros Hst Hc.
    rewrite (complete_not_yet s w tasks n d st Hs Hload Hn Ht Hst Hc).
    rewrite (after_save_refused _ (loaded w) e He).
    unfold confirm, completed. rewrite get_set_other by discriminate.
    rewrite Hd, printed_app. reflexivity.
Qed.

Lemma update_task_refused_witness :
  let tasks := [task "a" "pending"; task "b" "pending"] in
  let e := "[Errno 13] Permission denied: 'tasks.json'" in
  let w := mkWorld (file_of tasks) (Some e) [] [] in
  (PyStr.int "2" = Some 2%Z /\ stored (tasks_json w) = Returned tasks /\
   (1 <= 2 <= Z.of_nat (length tasks))%Z /\ write_error w = Some e) /\
  stdout (run (remove_task "2") w)
  = [save_error e; "Task 2 removed: " ++ PyStr.dq ++ "b" ++ PyStr.dq] /\
  stdout (run (complete_task "2") w)
  = [save_error e; "Task 2 marked as complete: " ++ PyStr.dq ++ "b" ++ PyStr.dq] /\
  tasks_json (run (remove_task "2") w) = file_of tasks.
Proof.
  intros tasks e w.
  assert (Hn : (1 <= 2 <= Z.of_nat (length tasks))%Z) by (simpl; lia).
  split; [repeat split; (reflexivity || apply Hn)|].
  destruct (update_task_refused "2" e w tasks 2
              [("description", JStr "b"); ("status", JStr "pending")]
              (JStr "b") (JStr "pending") eq_refl eq_refl Hn eq_refl eq_refl eq_refl)
    as [Hr Hc].
  specialize (Hc eq_refl eq_refl).
  unfold run. rewrite Hr, Hc. repeat split; reflexivity.
Defined.

(** ** Entries without the fields of a task *)

(** [complete_task] on an entry in range that has no status, or that is
    no dictionary, raises before anything is printed or written. *)
Theorem complete_without_status_raises
  (s : string) (w : world) (tasks : list json) (n : Z) (t : json) :
  PyStr.int s = Some n ->
  stored (tasks_json w) = Returned tasks ->
  (1 <= n <= Z.of_nat (length tasks))%Z ->
  tasks !! Z.to_nat (n - 1) = Some t ->
  (forall d, t = JObj d -> Dict.get "status" d = None) ->
  complete_task s w
  = (Raised (if is_dict t then KeyError "status" else TypeError), loaded w).
Proof.
  intros Hs Hload Hn Ht Hno. unfold complete_task, _update_task. rewrite Hs.
  rewrite (bind_returned _ _ _ _ _ (load_tasks_returned w tasks Hload)).
  rewrite (in_range_test n tasks Hn). cbn [String.eqb Ascii.eqb Bool.eqb].
  rewrite (bind_returned _ _ _ _ _ (list_getitem_eq tasks _ _ _ Ht)).
  destruct t as [| | | | |d]; try reflexivity.
  unfold bind, getitem. now rewrite (Hno d eq_refl).
Qed.

Lemma complete_without_status_raises_witness :
  let tasks := [JObj [("description", JStr "a")]; JStr "b"] in
  let w := boot (file_of tasks) in
  (stored (tasks_json w) = Returned tasks /\ (1 <= 1 <= Z.of_nat (length tasks))%Z) /\
  complete_task "1" w = (Raised (KeyError "status"), loaded w) /\
  complete_task "2" w = (Raised TypeError, loaded w).
Proof.
  intros tasks w.
  assert (H1 : (1 <= 1 <= Z.of_nat (length tasks))%Z) by (simpl; lia).
  assert (H2 : (1 <= 2 <= Z.of_nat (length tasks))%Z) by (simpl; lia).
  split; [split; [reflexivity | exact H1]|]. split.
  - refine (complete_without_status_raises "1" w tasks 1 _ eq_refl eq_refl H1 eq_refl _).
    intros d E. injection E as <-. reflexivity.
  - refine (complete_without_status_raises "2" w tasks 2 _ eq_refl eq_refl H2 eq_refl _).
    intros d E. discriminate.
Defined.

(** The confirmation reads the description after the file has been
    written.  On an entry in range without a description, [remove_task]
    stores the list without the entry and then raises; [complete_task], when
    the status is not complete, stores the new status and then raises.  The
    process ends with status 1 although the change is in the file. *)
Theorem confirmation_raises_after_write
  (s : string) (w : world) (tasks : list json) (n : Z) (d : Dict.t) :
  PyStr.int s = Some n ->
  stored (tasks_json w) = Returned tasks ->
  (1 <= n <= Z.of_nat (length tasks))%Z ->
  tasks !! Z.to_nat (n - 1) = Some (JObj d) ->
  Dict.get "description" d = None ->
  write_error w = None ->
  let i := Z.to_nat (n - 1) in
  (remove_task s w
   = (Raised (KeyError "description"), saved (delete i tasks) (loaded w)) /\
   stored (tasks_json (run (remove_task s) w)) = Returned (delete i tasks) /\
   exit_status (result (remove_task s) w) = Some 1%Z) /\
  (forall st,
     Dict.get "status" d = Some st ->
     json_eqb_str st "complete" = false ->
     complete_task s w
     = (Raised (KeyError "description"), saved (<[i := completed d]> tasks) (loaded w)) /\
     stored (tasks_json (run (complete_task s) w)) = Returned (<[i := completed d]> tasks) /\
     exit_status (result (complete_task s) w) = Some 1%Z).
Proof.
  intros Hs Hload Hn Ht Hd Hw i.
  pose proof (stored_storable _ _ Hload) as Hpy.
  split.
  - pose proof (remove_in_range s w tasks n (JObj d) Hs Hload Hn Ht Hw) as H.
    unfold confirm in H. rewrite Hd in H. fold i in H.
    split; [exact H|]. unfold run, result. rewrite H. cbn [fst snd]. split; [|reflexivity].
    apply stored_saved. now apply Forall_delete.
  - intros st Hst Hc.
    pose proof (complete_pending s w tasks n d st Hs Hload Hn Ht Hst Hc Hw) as H.
    unfold confirm, completed in H. rewrite get_set_other in H by discriminate.
    rewrite Hd in H. fold (completed d) in H. fold i in H.
    split; [exact H|]. unfold run, result. rewrite H. cbn [fst snd]. split; [|reflexivity].
    apply stored_saved. apply Forall_insert; [exact Hpy|]. apply completed_storable.
    eapply Forall_lookup_1; [exact Hpy | exact Ht].
Qed.

Lemma confirmation_raises_after_write_witness :
  let tasks := [JObj [("status", JStr "pending")]; task "b" "pending"] in
  let w := boot (file_of tasks) in
  (stored (tasks_json w) = Returned tasks /\ (1 <= 1 <= Z.of_nat (length tasks))%Z /\
   write_error w = None) /\
  (result (remove_task "1") w = Raised (KeyError "description") /\
   tasks_json (run (remove_task "1") w) = file_of [task "b" "pending"]) /\
  (result (complete_task "1") w = Raised (KeyError "description") /\
   tasks_json (run (complete_task "1") w)
   = file_of [JObj [("status", JStr "complete")]; task "b" "pending"]).
Proof.
  intros tasks w.
  assert (H1 : (1 <= 1 <= Z.of_nat (length tasks))%Z) by (simpl; lia).
  split; [repeat split; (reflexivity || apply H1)|].
  destruct (confirmation_raises_after_write "1" w tasks 1 [("status", JStr "pending")]
              eq_refl eq_refl H1 eq_refl eq_refl eq_refl) as [(Hr & _ & _) Hc].
  destruct (Hc (JStr "pending") eq_refl eq_refl) as (Hc' & _ & _).
  unfold result, run. rewrite Hr, Hc'. repeat split; reflexivity.
Defined.

(** ** A file that holds no list *)

Lemma stored_unusable (file : option string) : unusable file -> stored file = Returned [].
Proof.
  intros H. unfold stored, result, load_tasks. simpl.
  destruct file as [text|]; [|reflexivity]. simpl in *.
  destruct H as [->|[(v & -> & Hv)| ->]]; try reflexivity.
  destruct v; try reflexivity. discriminate.
Qed.

(** [add_task] on a file that holds no list replaces the file: what it
    held is gone, and the new task is the only one. *)
Theorem add_task_replaces_unusable (description : string) (w : world) :
  unusable (tasks_json w) ->
  description <> "" ->
  write_error w = None ->
  add_task description w
  = (Returned tt,
     printed ["Task added: " ++ PyStr.dq ++ description ++ PyStr.dq]
             (saved [task description "pending"] (loaded w))) /\
  tasks_json (run (add_task description) w) = file_of [task description "pending"].
Proof.
  intros Hu Hd Hw.
  pose proof (add_task_eq description w [] Hd (stored_unusable _ Hu) Hw) as H.
  split; [exact H|]. unfold run. now rewrite H.
Qed.

Lemma add_task_replaces_unusable_witness :
  let text := "{" ++ PyStr.dq ++ "tasks" ++ PyStr.dq ++ ": [1, 2, 3]}" in
  let w := boot (Some text) in
  (unusable (tasks_json w) /\ "a" <> "" /\ write_error w = None) /\
  stdout (run (add_task "a") w) = ["Task added: " ++ PyStr.dq ++ "a" ++ PyStr.dq] /\
  tasks_json (run (add_task "a") w) = file_of [task "a" "pending"].
Proof.
  intros text w.
  assert (Hu : unusable (tasks_json w)).
  { right. left. eexists. split; [vm_compute; reflexivity | reflexivity]. }
  assert (Hd : "a" <> "") by discriminate.
  split; [repeat split; (assumption || reflexivity)|].
  destruct (add_task_replaces_unusable "a" w Hu Hd eq_refl) as [H1 H2].
  split; [|exact H2]. unfold run. now rewrite H1.
Defined.

(** [list_tasks], [complete_task] and [remove_task] treat a file that
    holds no list as an empty list: they report that there are no tasks and
    leave the file as it is. *)
Theorem unusable_file_kept (s : string) (w : world) (n : Z) :
  unusable (tasks_json w) ->
  PyStr.int s = Some n ->
  list_tasks w
  = (Returned tt, printed ["No tasks found. Add one with the 'add' command!"] (loaded w)) /\
  complete_task s w
  = (Returned tt,
     printed ["Error: Task number " ++ PyStr.int_repr n ++ " not found.";
              "You have no tasks."] (loaded w)) /\
  remove_task s w
  = (Returned tt,
     printed ["Error: Task number " ++ PyStr.int_repr n ++ " not found.";
              "You have no tasks."] (loaded w)).
Proof.
  intros Hu Hs. pose proof (stored_unusable _ Hu) as Hload.
  assert (Hout : (n < 1 \/ Z.of_nat (length (@nil json)) < n)%Z) by (simpl; lia).
  split; [exact (list_tasks_empty w Hload)|].
  split; exact (update_out_of_range s _ w [] n Hs Hload Hout).
Qed.

Lemma unusable_file_kept_witness :
  let w := boot (Some "not json") in
  (unusable (tasks_json w) /\ PyStr.int "1" = Some 1%Z) /\
  stdout (run list_tasks w) = ["No tasks found. Add one with the 'add' command!"] /\
  stdout (run (complete_task "1") w) = ["Error: Task number 1 not found."; "You have no tasks."] /\
  tasks_json (run (remove_task "1") w) = Some "not json".
Proof.
  intros w.
  assert (Hu : unusable (tasks_json w)) by (left; vm_compute; reflexivity).
  split; [split; [exact Hu | reflexivity]|].
  destruct (unusable_file_kept "1" w 1 Hu eq_refl) as (Hl & Hc & Hr).
  unfold run. rewrite Hl, Hc, Hr. repeat split; reflexivity.
Defined.

(** ** What one command leaves for the next *)

(** The number that [list_tasks] prints before an entry is the number
    that [remove_task] and [complete_task] take for it: the line of the
    entry at position [i] of the list shows [i + 1], and that numeral, given
    back as the argument, selects the same entry. *)
Theorem listed_number_selects (w : world) (tasks : list json) (i : nat) (t : json) :
  stored (tasks_json w) = Returned tasks ->
  Forall (fun t => is_dict t = true) tasks ->
  tasks !! i = Some t ->
  let n := (Z.of_nat i + 1)%Z in
  (PyStr.decimal_digits n <= PyStr.max_str_digits)%N ->
  exists lines,
    list_tasks w
    = (Returned tt,
       printed ("--- Your Tasks ---" :: lines ++ ["------------------"]) (loaded w)) /\
    length lines = length tasks /\
    lines !! i
    = Some ("  " ++ PyStr.int_repr n ++ ". " ++ status_icon t ++ " " ++ shown_description t) /\
    remove_task (PyStr.int_repr n) w
    = confirm n " removed: " t (after_save (delete i tasks) (loaded w)) /\
    (forall d st,
       t = JObj d ->
       Dict.get "status" d = Some st ->
       complete_task (PyStr.int_repr n) w
       = if json_eqb_str st "complete"
         then (Returned tt,
               printed ["Task " ++ PyStr.int_repr n ++ " is already marked as complete."]
                       (loaded w))
         else confirm n " marked as complete: " (completed d)
                      (after_save (<[i := completed d]> tasks) (loaded w))).
Proof.
  intros Hload Hdict Ht n Hfit.
  assert (Hi : (i < length tasks)%nat) by (apply lookup_lt_Some in Ht; exact Ht).
  assert (Hn : (1 <= n <= Z.of_nat (length tasks))%Z) by (unfold n; lia).
  assert (Ei : Z.to_nat (n - 1) = i) by (unfold n; lia).
  assert (Ht' : tasks !! Z.to_nat (n - 1) = Some t) by now rewrite Ei.
  pose proof (int_int_repr n Hfit) as Hs.
  exists (task_lines 1 tasks). split; [|split; [|split; [|split]]].
  - apply (list_tasks_eq w tasks Hload); [|exact Hdict].
    intros E. rewrite E in Hi. simpl in Hi. lia.
  - apply task_lines_length.
  - rewrite (task_lines_lookup tasks 1 i t Ht). unfold task_line, n.
    now rewrite (Z.add_comm 1).
  - rewrite (remove_any _ w tasks n t Hs Hload Hn Ht'). now rewrite Ei.
  - intros d st -> Hst. destruct (json_eqb_str st "complete") eqn:Hc.
    + exact (complete_already _ w tasks n d st Hs Hload Hn Ht' Hst Hc).
    + rewrite (complete_not_yet _ w tasks n d st Hs Hload Hn Ht' Hst Hc).
      now rewrite Ei.
Qed.

Lemma listed_number_selects_witness :
  let tasks := [task "a" "pending"; task "b" "complete"; task "c" "pending"] in
  let w := boot (file_of tasks) in
  (stored (tasks_json w) = Returned tasks /\
   Forall (fun t => is_dict t = true) tasks /\
   tasks !! 2%nat = Some (task "c" "pending") /\
   (PyStr.decimal_digits 3 <= PyStr.max_str_digits)%N) /\
  exists lines,
    list_tasks w
    = (Returned tt,
       printed ("--- Your Tasks ---" :: lines ++ ["------------------"]) (loaded w)) /\
    lines !! 2%nat = Some "  3. [ ] c" /\
    remove_task "3" w
    = confirm 3 " removed: " (task "c" "pending")
              (after_save [task "a" "pending"; task "b" "complete"] (loaded w)).
Proof.
  intros tasks w.
  assert (Hdict : Forall (fun t => is_dict t = true) tasks) by (repeat constructor).
  assert (Hfit : (PyStr.decimal_digits 3 <= PyStr.max_str_digits)%N)
    by (vm_compute; discriminate).
  split; [repeat split; (assumption || reflexivity)|].
  destruct (listed_number_selects w tasks 2 (task "c" "pending") eq_refl Hdict eq_refl Hfit)
    as (lines & H1 & _ & H2 & H3 & _).
  exists lines. split; [exact H1|]. split; [exact H2 | exact H3].
Defined.

(** [add_task] and then [remove_task] with the number of the new task,
    the last one, leave the list that was stored before.  The number is
    given as its decimal numeral, which [int] reads back when it has no
    more digits than the conversion allows. *)
Theorem add_then_remove_last (description : string) (w : world) (tasks : list json) :
  description <> "" ->
  stored (tasks_json w) = Returned tasks ->
  write_error w = None ->
  let n := (Z.of_nat (length tasks) + 1)%Z in
  let w1 := run (add_task description) w in
  (PyStr.decimal_digits n <= PyStr.max_str_digits)%N ->
  remove_task (PyStr.int_repr n) w1
  = (Returned tt,
     printed ["Task " ++ PyStr.int_repr n ++ " removed: "
                ++ PyStr.dq ++ description ++ PyStr.dq]
             (saved tasks (loaded w1))) /\
  stored (tasks_json (run (remove_task (PyStr.int_repr n)) w1)) = Returned tasks.
Proof.
  intros Hd Hload Hw n w1 Hfit.
  pose proof (stored_storable _ _ Hload) as Hpy.
  pose proof (add_task_eq description w tasks Hd Hload Hw) as Hadd.
  assert (Hload1 : stored (tasks_json w1)
                   = Returned (tasks ++ [task description "pending"])%list).
  { unfold w1, run. rewrite Hadd. cbn [snd]. apply stored_saved.
    apply Forall_app. split; [exact Hpy|]. constructor; [apply task_storable | constructor]. }
  assert (Hw1 : write_error w1 = None) by (unfold w1, run; rewrite Hadd; exact Hw).
  assert (Ei : Z.to_nat (n - 1) = length tasks) by (unfold n; lia).
  assert (Hn : (1 <= n <= Z.of_nat (length (tasks ++ [task description "pending"])%list))%Z)
    by (rewrite length_app; simpl; unfold n; lia).
  assert (Ht : (tasks ++ [task description "pending"])%list !! Z.to_nat (n - 1)
               = Some (task description "pending")).
  { rewrite Ei. rewrite lookup_app_r by lia. now rewrite Nat.sub_diag. }
  pose proof (remove_in_range _ w1 _ n _ (int_int_repr n Hfit) Hload1 Hn Ht Hw1) as H.
  assert (Edel : delete (Z.to_nat (n - 1)) (tasks ++ [task description "pending"])%list = tasks).
  { rewrite Ei. clear. induction tasks as [|t ts IH]; [reflexivity|].
    simpl. f_equal. exact IH. }
  rewrite Edel in H. cbn [confirm task Dict.get String.eqb Ascii.eqb Bool.eqb PyFmt.str] in H.
  split; [exact H|]. unfold run at 1. rewrite H. cbn [snd].
  apply stored_saved. exact Hpy.
Qed.

Lemma add_then_remove_last_witness :
  let tasks := [task "a" "complete"] in
  let w := boot (file_of tasks) in
  let w2 := run (remove_task "2") (run (add_task "b") w) in
  ("b" <> "" /\ stored (tasks_json w) = Returned tasks /\ write_error w = None /\
   (PyStr.decimal_digits 2 <= PyStr.max_str_digits)%N) /\
  stdout w2 = ["Task added: " ++ PyStr.dq ++ "b" ++ PyStr.dq;
               "Task 2 removed: " ++ PyStr.dq ++ "b" ++ PyStr.dq] /\
  tasks_json w2 = tasks_json w.
Proof.
  intros tasks w w2.
  assert (Hd : "b" <> "") by discriminate.
  assert (Hfit : (PyStr.decimal_digits 2 <= PyStr.max_str_digits)%N)
    by (vm_compute; discriminate).
  split; [repeat split; (assumption || reflexivity)|].
  destruct (add_then_remove_last "b" w tasks Hd eq_refl eq_refl Hfit) as [H _].
  unfold w2, run at 1 3. cbv zeta in H.
  change (PyStr.int_repr (Z.of_nat (length tasks) + 1)) with "2" in H.
  rewrite H. split; reflexivity.
Defined.

(** Tasks added one after the other are stored in the order of the
    calls, after the tasks that the file held. *)
Theorem add_tasks_in_order (descriptions : list string) :
  forall (w : world) (tasks : list json),
    Forall (fun d => d <> "") descriptions ->
    stored (tasks_json w) = Returned tasks ->
    write_error w = None ->
    stored (tasks_json (fold_left (fun w d => run (add_task d) w) descriptions w))
    = Returned (tasks ++ map (fun d => task d "pending") descriptions)%list.
Proof.
  induction descriptions as [|d ds IH]; intros w tasks Hds Hload Hw.
  - simpl. now rewrite app_nil_r.
  - apply Forall_cons in Hds. destruct Hds as [Hd Hds].
    pose proof (add_task_eq d w tasks Hd Hload Hw) as Hadd.
    cbn [fold_left map].
    rewrite (IH (run (add_task d) w) (tasks ++ [task d "pending"])%list Hds).
    + now rewrite <- List.app_assoc.
    + unfold run. rewrite Hadd. cbn [snd]. apply stored_saved.
      apply Forall_app. split; [exact (stored_storable _ _ Hload)|].
      constructor; [apply task_storable | constructor].
    + unfold run. rewrite Hadd. exact Hw.
Qed.

Lemma add_tasks_in_order_witness :
  let w := boot None in
  let descriptions := ["Buy milk"; "Call home"; " "] in
  (Forall (fun d => d <> "") descriptions /\ stored (tasks_json w) = Returned [] /\
   write_error w = None) /\
  stored (tasks_json (fold_left (fun w d => run (add_task d) w) descriptions w))
  = Returned [task "Buy milk" "pending"; task "Call home" "pending"; task " " "pending"].
Proof.
  intros w descriptions.
  assert (Hds : Forall (fun d => d <> "") descriptions)
    by (repeat (apply List.Forall_cons; [discriminate|]); apply List.Forall_nil).
  split; [repeat split; (assumption || reflexivity)|].
  exact (add_tasks_in_order descriptions w [] Hds eq_refl eq_refl).
Defined.

(** After [remove_task], [list_tasks] shows the entries that are left:
    those before the removed one on the lines they had, those after it one
    line up and with a number one less; when none is left it prints the
    hint for an empty list. *)
Theorem remove_then_list
  (s : string) (w : world) (tasks : list json) (n : Z) (d : Dict.t) (desc : json) :
  PyStr.int s = Some n ->
  stored (tasks_json w) = Returned tasks ->
  Forall (fun t => is_dict t = true) tasks ->
  (1 <= n <= Z.of_nat (length tasks))%Z ->
  tasks !! Z.to_nat (n - 1) = Some (JObj d) ->
  Dict.get "description" d = Some desc ->
  write_error w = None ->
  let i := Z.to_nat (n - 1) in
  let w1 := run (remove_task s) w in
  exists lines,
    list_tasks w1
    = (Returned tt,
       printed (if decide (length tasks = 1%nat)
                then ["No tasks found. Add one with the 'add' command!"]
                else "--- Your Tasks ---" :: lines ++ ["------------------"])
               (loaded w1)) /\
    length lines = (length tasks - 1)%nat /\
    (forall j, (j < i)%nat -> lines !! j = task_lines 1 tasks !! j) /\
    (forall j t, (i <= j)%nat -> tasks !! S j = Some t ->
                 lines !! j = Some (task_line (Z.of_nat j + 1) t)).
Proof.
  intros Hs Hload Hdict Hn Ht Hd Hw i w1.
  pose proof (remove_in_range s w tasks n (JObj d) Hs Hload Hn Ht Hw) as H.
  unfold confirm in H. rewrite Hd in H. fold i in H.
  assert (Hi : (i < length tasks)%nat) by (apply lookup_lt_Some in Ht; exact Ht).
  assert (Hload1 : stored (tasks_json w1) = Returned (delete i tasks)).
  { unfold w1, run. rewrite H. cbn [snd]. apply stored_saved.
    apply Forall_delete. exact (stored_storable _ _ Hload). }
  assert (Hlen : length (delete i tasks) = (length tasks - 1)%nat)
    by (apply length_delete; eauto).
  exists (task_lines 1 (delete i tasks)). split; [|split; [|split]].
  - destruct (decide (length tasks = 1%nat)) as [E|E].
    + apply list_tasks_empty. rewrite Hload1. f_equal.
      apply nil_length_inv. lia.
    + apply (list_tasks_eq w1 _ Hload1).
      * intros E'. rewrite E' in Hlen. simpl in Hlen. lia.
      * now apply Forall_delete.
  - now rewrite task_lines_length.
  - intros j Hj.
    assert (Hj' : (j < length tasks)%nat) by lia.
    destruct (lookup_lt_is_Some_2 tasks j Hj') as [t Etj].
    rewrite (task_lines_lookup tasks 1 j t Etj).
    apply task_lines_lookup. now rewrite list_lookup_delete_lt.
  - intros j t Hj Etj.
    rewrite (task_lines_lookup (delete i tasks) 1 j t).
    + now rewrite (Z.add_comm 1).
    + now rewrite list_lookup_delete_ge.
Qed.

Lemma remove_then_list_witness :
  let tasks := [task "a" "pending"; task "b" "complete"; task "c" "pending"] in
  let w := boot (file_of tasks) in
  let w1 := run (remove_task "1") w in
  (stored (tasks_json w) = Returned tasks /\ (1 <= 1 <= Z.of_nat (length tasks))%Z /\
   write_error w = None) /\
  exists lines,
    list_tasks w1
    = (Returned tt,
       printed ("--- Your Tasks ---" :: lines ++ ["------------------"]) (loaded w1)) /\
    length lines = 2%nat /\
    lines !! 0%nat = Some "  1. [x] b" /\
    lines !! 1%nat = Some "  2. [ ] c".
Proof.
  intros tasks w w1.
  assert (Hn : (1 <= 1 <= Z.of_nat (length tasks))%Z) by (simpl; lia).
  split; [repeat split; (reflexivity || apply Hn)|].
  destruct (remove_then_list "1" w tasks 1
              [("description", JStr "a"); ("status", JStr "pending")] (JStr "a")
              eq_refl eq_refl ltac:(repeat constructor) Hn eq_refl eq_refl eq_refl)
    as (lines & Hlist & Hlen & _ & Hafter).
  exists lines. split; [exact Hlist|]. split; [exact Hlen|]. split.
  - exact (Hafter 0%nat (task "b" "complete") (Nat.le_refl 0) eq_refl).
  - exact (Hafter 1%nat (task "c" "pending") (Nat.le_0_l 1) eq_refl).
Defined.

(** ** The form of the stored tasks *)


Lemma is_task_dict (t : json) : is_task t = true -> is_dict t = true.
Proof. destruct t; simpl; congruence. Qed.

Section KeepsTasks.

Variables (w : world) (tasks : list json).
Hypothesis Hload : stored (tasks_json w) = Returned tasks.
Hypothesis Htasks : Forall (fun t => is_task t = true) tasks.







End KeepsTasks.



(** ** The commands of [main] *)

Lemma join_not_empty (rest : list string) :
  rest <> [] -> rest <> [""] -> PyStr.join " " rest <> "".
Proof.
  destruct rest as [|x [|y l]]; [congruence | |].
  - intros _ H E. apply H. simpl in E. now subst x.
  - intros _ _. unfold PyStr.join. cbn [concat]. destruct x; discriminate.
Qed.

(** [main] with the command [add], in any case of letters, stores the
    arguments after it joined by single blanks, unless they are the one
    empty string. *)
Theorem main_add_stores
  (prog argv1 : string) (rest : list string) (w : world) (tasks : list json) :
  PyStr.lower argv1 = "add" ->
  rest <> [] ->
  rest <> [""] ->
  stored (tasks_json w) = Returned tasks ->
  write_error w = None ->
  let description := PyStr.join " " rest in
  main (prog :: argv1 :: rest) w
  = (Returned tt,
     printed ["Task added: " ++ PyStr.dq ++ description ++ PyStr.dq]
             (saved (tasks ++ [task description "pending"]) (loaded w))).
Proof.
  intros Hc Hne Hone Hload Hw description.
  rewrite (main_command prog argv1 rest _ Hc). cbn [String.eqb Ascii.eqb Bool.eqb].
  destruct rest as [|x l]; [congruence|].
  exact (add_task_eq description w tasks (join_not_empty _ Hne Hone) Hload Hw).
Qed.

Lemma main_add_stores_witness :
  let w := boot None in
  let rest := ["Buy"; "milk"; ""; "now"] in
  (PyStr.lower "ADD" = "add" /\ rest <> [] /\ rest <> [""] /\
   stored (tasks_json w) = Returned [] /\ write_error w = None) /\
  main ("task_tracker.py" :: "ADD" :: rest) w
  = (Returned tt,
     printed ["Task added: " ++ PyStr.dq ++ "Buy milk  now" ++ PyStr.dq]
             (saved [task "Buy milk  now" "pending"] (loaded w))).
Proof.
  intros w rest.
  assert (H1 : rest <> []) by discriminate.
  assert (H2 : rest <> [""]) by discriminate.
  split; [repeat split; (assumption || reflexivity)|].
  exact (main_add_stores "task_tracker.py" "ADD" rest w [] eq_refl H1 H2 eq_refl eq_refl).
Defined.

(** [main] with the command [help] prints the ten lines of the help and
    returns; further arguments are ignored and the file is not read. *)
Theorem main_help (argv : list string) (w : world) :
  command_word argv = Some "help" ->
  main argv w = (Returned tt, printed help_text w).
Proof.
  intros H. destruct argv as [|prog [|argv1 rest]]; try discriminate.
  injection H as H. rewrite (main_command prog argv1 rest _ H).
  cbn [String.eqb Ascii.eqb Bool.eqb]. apply show_help_eq.
Qed.

Lemma main_help_witness :
  let argv := ["task_tracker.py"; "HELP"; "me"] in
  let w := boot (Some "not json") in
  command_word argv = Some "help" /\
  main argv w = (Returned tt, printed help_text w).
Proof.
  intros argv w. split; [reflexivity|].
  exact (main_help argv w eq_refl).
Defined.

(** ** Every run, whatever the entries *)

Section AnyEntries.

Variables (w : world) (tasks : list json).
Hypothesis Hload : stored (tasks_json w) = Returned tasks.

Let ends (c : M unit) : Prop :=
  zero_or_one (result c w) /\ (only_read w (run c w) \/ saved_once w (run c w)).

Lemma list_body_exit (i : Z) (t : json) (w0 : world) :
  zero_or_one (fst (list_body i t w0)).
Proof. destruct t; [right|right|right|right|right|left]; reflexivity. Qed.

Lemma for_enumerate_exit (l : list json) :
  forall (start : Z) (w0 : world),
    zero_or_one (fst (for_enumerate start l list_body w0)).
Proof.
  induction l as [|t ts IH]; intros start w0; [left; reflexivity|].
  cbn [for_enumerate]. unfold bind.
  pose proof (list_body_exit start t w0) as H.
  destruct (list_body start t w0) as [[[]|e|] w1]; cbn [fst] in *.
  - apply IH.
  - exact H.
  - exact H.
Qed.

Lemma ends_printed (c : M unit) (o : outcome unit) (lines : list string) :
  zero_or_one o -> c w = (o, printed lines w) -> ends c.
Proof.
  intros Ho E. unfold ends, result, run. rewrite E. split; [exact Ho|].
  left. exact (only_read_printed _ _ _ (only_read_refl w)).
Qed.

Lemma ends_loaded (c : M unit) (o : outcome unit) (lines : list string) :
  zero_or_one o -> c w = (o, printed lines (loaded w)) -> ends c.
Proof.
  intros Ho E. unfold ends, result, run. rewrite E. split; [exact Ho|].
  left. exact (only_read_printed _ _ _ (only_read_loaded w)).
Qed.

Lemma ends_confirm (c : M unit) (n : Z) (verb : string) (t : json) (tasks' : list json) :
  c w = confirm n verb t (after_save tasks' (loaded w)) -> ends c.
Proof.
  intros E. unfold ends, result, run. rewrite E. split.
  - unfold confirm. destruct t as [| | | | |d]; try (right; reflexivity).
    destruct (Dict.get "description" d); [left | right]; reflexivity.
  - right. exists tasks'.
    destruct (confirm_file n verb t (after_save tasks' (loaded w))) as (E1 & E2 & E3).
    rewrite E1, E2, E3. repeat split.
    unfold after_save. destruct (write_error (loaded w)); reflexivity.
Qed.

Lemma list_tasks_ends : ends list_tasks.
Proof.
  split; [|left; apply list_tasks_only_reads].
  unfold result, list_tasks.
  rewrite (bind_returned _ _ _ _ _ (load_tasks_returned w tasks Hload)).
  destruct tasks as [|t ts]; [left; reflexivity|].
  rewrite (bind_returned _ _ _ _ _ (print_eq _ _)). unfold bind.
  pose proof (for_enumerate_exit (t :: ts) 1 (printed ["--- Your Tasks ---"] (loaded w))) as H.
  destruct (for_enumerate 1 (t :: ts) list_body (printed ["--- Your Tasks ---"] (loaded w)))
    as [[[]|e|] w1]; cbn [fst] in *; [left; reflexivity | exact H | exact H].
Qed.

Lemma add_task_ends (description : string) : ends (add_task description).
Proof.
  destruct (String.eqb_spec description "") as [->|Hd].
  - apply (ends_printed _ (Returned tt) ["Error: Cannot add an empty task."]);
      [left|]; reflexivity.
  - pose proof (add_task_any description w tasks Hd Hload) as E.
    unfold ends, result, run. rewrite E. split; [left; reflexivity|].
    right. exists (tasks ++ [task description "pending"])%list. repeat split.
    unfold after_save. destruct (write_error (loaded w)); reflexivity.
Qed.

Lemma update_task_ends (s action : string) :
  action = "complete" \/ action = "remove" -> ends (_update_task s action).
Proof.
  intros Haction.
  destruct (PyStr.int s) as [n|] eqn:Hs.
  2: { eapply ends_printed; [|exact (update_invalid_number s action w Hs)]. now left. }
  destruct (Z_lt_le_dec n 1) as [Hlow|Hlow].
  { eapply ends_loaded;
      [|exact (update_out_of_range s action w tasks n Hs Hload (or_introl Hlow))]. now left. }
  destruct (Z_lt_le_dec (Z.of_nat (length tasks)) n) as [Hhigh|Hhigh].
  { eapply ends_loaded;
      [|exact (update_out_of_range s action w tasks n Hs Hload (or_intror Hhigh))]. now left. }
  assert (Hn : (1 <= n <= Z.of_nat (length tasks))%Z) by lia.
  assert (Hi : (Z.to_nat (n - 1) < length tasks)%nat) by lia.
  destruct (lookup_lt_is_Some_2 tasks _ Hi) as [t Ht].
  destruct Haction as [-> | ->].
  - change (_update_task s "complete") with (complete_task s).
    assert (Hraise : forall e, getitem t "status" (loaded w) = (Raised e, loaded w) ->
                               complete_task s w = (Raised e, loaded w)).
    { intros e He. unfold complete_task, _update_task. rewrite Hs.
      rewrite (bind_returned _ _ _ _ _ (load_tasks_returned w tasks Hload)).
      rewrite (in_range_test n tasks Hn). cbn [String.eqb Ascii.eqb Bool.eqb].
      rewrite (bind_returned _ _ _ _ _ (list_getitem_eq tasks _ _ _ Ht)).
      unfold bind at 1. now rewrite He. }
    destruct t as [| | | | |d];
      try (apply (ends_loaded _ (Raised TypeError) []);
           [right; reflexivity | rewrite printed_nil; apply Hraise; reflexivity]).
    destruct (Dict.get "status" d) as [st|] eqn:Hst.
    + destruct (json_eqb_str st "complete") eqn:Hc.
      * eapply ends_loaded;
          [|exact (complete_already s w tasks n d st Hs Hload Hn Ht Hst Hc)]. now left.
      * eapply ends_confirm.
        exact (complete_not_yet s w tasks n d st Hs Hload Hn Ht Hst Hc).
    + apply (ends_loaded _ (Raised (KeyError "status")) []); [right; reflexivity|].
      rewrite printed_nil. apply Hraise. unfold getitem. now rewrite Hst.
  - change (_update_task s "remove") with (remove_task s).
    eapply ends_confirm. exact (remove_any s w tasks n t Hs Hload Hn Ht).
Qed.

Lemma main_ends (argv : list string) : ends (main argv).
Proof.
  destruct argv as [|prog [|argv1 rest]].
  1, 2: apply (ends_printed _ (Raised (SystemExit 1)) ("Error: No command provided." :: help_text));
    [right; reflexivity|]; unfold main;
    rewrite (bind_returned _ _ _ _ _ (print_eq _ _));
    rewrite (bind_returned _ _ _ _ _ (show_help_eq _)), printed_app; reflexivity.
  rewrite (main_command prog argv1 rest _ eq_refl).
  destruct (String.eqb (PyStr.lower argv1) "list"); [apply list_tasks_ends|].
  destruct (String.eqb (PyStr.lower argv1) "add").
  { destruct rest; [|apply add_task_ends].
    eapply (ends_printed _ (Returned tt)); [now left|].
    rewrite (bind_returned _ _ _ _ _ (print_eq _ _)), print_eq, printed_app. reflexivity. }
  destruct (String.eqb (PyStr.lower argv1) "complete").
  { destruct rest; [|apply update_task_ends; now left].
    eapply (ends_printed _ (Returned tt)); [now left|].
    rewrite (bind_returned _ _ _ _ _ (print_eq _ _)), print_eq, printed_app. reflexivity. }
  destruct (String.eqb (PyStr.lower argv1) "remove").
  { destruct rest; [|apply update_task_ends; now right].
    eapply (ends_printed _ (Returned tt)); [now left|].
    rewrite (bind_returned _ _ _ _ _ (print_eq _ _)), print_eq, printed_app. reflexivity. }
  destruct (String.eqb (PyStr.lower argv1) "help").
  { eapply (ends_printed _ (Returned tt)); [now left | apply show_help_eq]. }
  eapply (ends_printed _ (Raised (SystemExit 1))); [now right|].
  rewrite (bind_returned _ _ _ _ _ (print_eq _ _)).
  rewrite (bind_returned _ _ _ _ _ (show_help_eq _)), printed_app. reflexivity.
Qed.

End AnyEntries.

(** Whatever the entries of the stored list, tasks or not, a run of
    [main] ends with status 0 or 1, and it reads the file at most once and
    calls [save_tasks] at most once, after the reading. *)
Theorem main_exit_and_file (argv : list string) (w : world) (tasks : list json) :
  stored (tasks_json w) = Returned tasks ->
  (exit_status (result (main argv) w) = Some 0%Z \/
   exit_status (result (main argv) w) = Some 1%Z) /\
  exists events,
    io_log (run (main argv) w) = (io_log w ++ events)%list /\
    (events = [] \/
     events = read_events (tasks_json w) \/
     events = (read_events (tasks_json w) ++ [WriteRefused])%list \/
     exists tasks',
       events = (read_events (tasks_json w) ++ [Written (json_dumps (JArr tasks'))])%list /\
       tasks_json (run (main argv) w) = file_of tasks').
Proof.
  intros Hload. destruct (main_ends w tasks Hload argv) as [Hexit Hfile].
  split; [exact Hexit|].
  destruct Hfile as [(_ & _ & [E|E]) | (tasks' & Efile & Herr & Elog)].
  - exists []. split; [now rewrite app_nil_r | now left].
  - exists (read_events (tasks_json w)). split; [exact E | right; now left].
  - unfold after_save in Efile, Elog. cbn [loaded write_error] in Efile, Elog.
    destruct (write_error w) as [e|].
    + exists (read_events (tasks_json w) ++ [WriteRefused])%list.
      split; [|right; right; now left].
      rewrite Elog. cbn. now rewrite <- List.app_assoc.
    + exists (read_events (tasks_json w) ++ [Written (json_dumps (JArr tasks'))])%list.
      split; [|right; right; right; exists tasks'; split; [reflexivity | exact Efile]].
      rewrite Elog. cbn. now rewrite <- List.app_assoc.
Qed.

Lemma main_exit_and_file_witness :
  let w := boot (Some "[{}, 7]") in
  let argv := ["task_tracker.py"; "remove"; "2"] in
  stored (tasks_json w) = Returned [JObj []; JInt 7] /\
  result (main argv) w = Raised TypeError /\
  tasks_json (run (main argv) w) = file_of [JObj []] /\
  (exit_status (result (main argv) w) = Some 0%Z \/
   exit_status (result (main argv) w) = Some 1%Z).
Proof.
  intros w argv.
  assert (Hload : stored (tasks_json w) = Returned [JObj []; JInt 7]) by reflexivity.
  split; [exact Hload|]. split; [reflexivity|]. split; [reflexivity|].
  exact (proj1 (main_exit_and_file argv w _ Hload)).
Defined.

(** ** Entries that are not tasks, and a file that cannot be written *)

(** A stored entry that is no dictionary stops [list_tasks] and
    [complete_task] with an exception, and the process with status 1. *)
Example list_tasks_entry_not_dict :
  list_tasks (boot (Some "[5]"))
  = (Raised AttributeError, printed ["--- Your Tasks ---"] (loaded (boot (Some "[5]")))).
Proof. reflexivity. Qed.

Example complete_entry_not_dict :
  result (main ["task_tracker.py"; "complete"; "1"]) (boot (Some "[5]")) = Raised TypeError /\
  exit_status (result (main ["task_tracker.py"; "complete"; "1"]) (boot (Some "[5]")))
  = Some 1%Z.
Proof. split; reflexivity. Qed.

(** A task without a status is listed, and cannot be completed. *)
Example complete_without_status :
  let file := file_of [JObj [("description", JStr "a")]] in
  result (complete_task "1") (boot file) = Raised (KeyError "status") /\
  tasks_json (run (complete_task "1") (boot file)) = file.
Proof. split; reflexivity. Qed.

(** A task without a description is removed from the file before the
    confirmation fails. *)
Example remove_without_description :
  let file := file_of [JObj [("status", JStr "pending")]] in
  result (remove_task "1") (boot file) = Raised (KeyError "description") /\
  tasks_json (run (remove_task "1") (boot file)) = Some "[]".
Proof. split; reflexivity. Qed.

(** When the file cannot be written, [add_task] reports it and still
    confirms; the file is as it was. *)
Example add_task_write_refused :
  let w := mkWorld None (Some "[Errno 13] Permission denied: 'tasks.json'") [] [] in
  add_task "Buy milk" w
  = (Returned tt,
     mkWorld None (Some "[Errno 13] Permission denied: 'tasks.json'")
       ["Error: Could not save tasks to tasks.json. [Errno 13] Permission denied: 'tasks.json'";
        "Task added: " ++ PyStr.dq ++ "Buy milk" ++ PyStr.dq]
       [PathExists; WriteRefused]).
Proof. reflexivity. Qed.
